(** * Workflow lifecycle: correlation labels, stream bridge, pagination

    A shallow embedding of the workflow part of the resource manager
    (package [manager]: CreateWorkflow, GetWorkflow, WatchWorkflow,
    GetWorkflowTemplate) and of the gRPC facade in front of it (package
    [server]: apiWorkflow, CreateWorkflow, GetWorkflow, WatchWorkflow,
    ListWorkflows), together with the two Go library routines the
    correlation labels go through ([fmt.Sprint] on an [int32] and
    [strconv.ParseInt(s, 10, 32)]).

    Conventions.
    - A Go integer of width w is a [Z]; every operation that can leave
      the range is followed by the explicit wrap-around.
    - A Go pointer that may be nil is an [option]; dereferencing nil is
      the outcome [Panics NilDereference].
    - A Go function returning [(value, error)] returns a pair whose
      second component is [option error]; the pair is kept (rather
      than a sum) because the callers inspect both halves separately.
    - [map[string]string] is [gmap string string]; reading a missing
      key gives the empty string. *)

From Stdlib Require Import ZArith Lia Ascii String List Bool.
From stdpp Require Import gmap strings list.

Local Open Scope string_scope.
Local Open Scope Z_scope.

(* ===================================================================== *)
(** * Go run-time behaviour used by the program                           *)
(* ===================================================================== *)

Module Go.

(** The run-time panics that the modelled code can raise. *)
Inductive panic : Type :=
| NilDereference
| IndexOutOfRange
| SliceBoundsOutOfRange.

(** A call either returns or panics. *)
Inductive outcome (A : Type) : Type :=
| Returns (a : A)
| Panics (p : panic).
Arguments Returns {A} a.
Arguments Panics {A} p.

Definition bind {A B : Type} (m : outcome A) (k : A -> outcome B) : outcome B :=
  match m with
  | Returns a => k a
  | Panics p => Panics p
  end.

(** [*p] for a pointer [p]. *)
Definition deref {A : Type} (p : option A) : outcome A :=
  match p with
  | Some a => Returns a
  | None => Panics NilDereference
  end.

(** Conversion to [int32] / result of an [int32] operation:
    two's-complement wrap-around. *)
Definition int32 (z : Z) : Z := (z + 2 ^ 31) mod 2 ^ 32 - 2 ^ 31.

(** Result of a [uint64] operation. *)
Definition uint64 (z : Z) : Z := z mod 2 ^ 64.

Definition in_int32 (z : Z) : Prop := - 2 ^ 31 <= z < 2 ^ 31.

(** [xs[i]]. *)
Definition index {A : Type} (xs : list A) (i : nat) : outcome A :=
  match xs !! i with
  | Some a => Returns a
  | None => Panics IndexOutOfRange
  end.

(** [xs[lo:hi]].  Go requires [0 <= lo <= hi <= cap(xs)].  The
    capacity is at least the length; the one slice expression of the
    program always has [hi < len(xs)] (lemma [pageWindow_end_below_len]
    below), so bounding by the length loses nothing there. *)
Definition slice {A : Type} (xs : list A) (lo hi : Z) : outcome (list A) :=
  if (0 <=? lo) && (lo <=? hi) && (hi <=? Z.of_nat (length xs))
  then Returns (take (Z.to_nat (hi - lo)) (drop (Z.to_nat lo) xs))
  else Panics SliceBoundsOutOfRange.

(** [m[k]] on a [map[string]string]: the zero value when absent. *)
Definition map_get (m : gmap string string) (k : string) : string :=
  default "" (m !! k).

(** [time.Time]: seconds and nanoseconds since the zero instant. *)
Record Time : Type := mkTime { sec : Z; nsec : Z }.

Definition zeroTime : Time := mkTime 0 0.

(** [t.IsZero()]. *)
Definition IsZero (t : Time) : bool := (sec t =? 0) && (nsec t =? 0).

(** A string field of an API message.  It holds either text given
    by the caller, or the text produced by [t.Format(time.RFC3339)]
    (the server applies [UTC()] first for templates, which does not
    change the instant).  No property below looks inside a formatted
    time, so it is kept as the instant it renders. *)
Inductive Text : Type :=
| Lit (s : string)
| RFC3339 (t : Time).

End Go.

Import Go.

(** The outcome of a call is sequenced with stdpp's [x ← m; k]. *)
#[global] Instance outcome_ret : MRet Go.outcome := @Go.Returns.
#[global] Instance outcome_bind : MBind Go.outcome := fun A B k m => Go.bind m k.

(* ===================================================================== *)
(** * fmt.Sprint on an int32 and strconv.ParseInt in base 10              *)
(* ===================================================================== *)

Module Strconv.

(** [*strconv.NumError] carries one of these. *)
Inductive NumError : Type :=
| ErrSyntax
| ErrRange
| ErrBitSize.

(** ['0' + d] as a byte. *)
Definition digit_byte (d : Z) : ascii := ascii_of_N (Z.to_N (48 + d)).

Definition byte_val (c : ascii) : Z := Z.of_N (N_of_ascii c).

(** The digit loop of [fmtInteger] of package fmt for base 10, writing
    from the end of the buffer towards its head:
    [for u >= 10 { next := u / 10; buf[i] = '0' + u - next*10; u = next }]
    and then the leading digit.  The buffer of the library holds more
    than the 20 digits of a [uint64]; [fuel] is that bound. *)
Fixpoint fmtInteger_digits (fuel : nat) (u : Z) (buf : string) : string :=
  match fuel with
  | O => buf
  | S fuel' =>
      if 10 <=? u
      then let next := u / 10 in
           fmtInteger_digits fuel' next (String (digit_byte (u - next * 10)) buf)
      else String (digit_byte u) buf
  end.

(** [fmt.Sprint(v)] for [v] of type [int32]: the value is widened to
    64 bits, negated when negative, written in decimal, and the sign
    is put in front. *)
Definition Sprint (v : Z) : string :=
  if v <? 0
  then String "-" (fmtInteger_digits 20 (uint64 (- v)) "")
  else fmtInteger_digits 20 v "".

(** [lower(c)]: [c | ('x' - 'X')]. *)
Definition lower (c : Z) : Z := Z.lor c 32.

(** The value of one input byte in [ParseUint], before the comparison
    with the base; [None] is the [default] branch (syntax error). *)
Definition byte_digit (c : Z) : option Z :=
  if (48 <=? c) && (c <=? 57) then Some (c - 48)
  else if (97 <=? lower c) && (lower c <=? 122) then Some (lower c - 97 + 10)
  else None.

Definition maxUint64 : Z := 2 ^ 64 - 1.

(** [cutoff] of [ParseUint] for base 10. *)
Definition cutoff10 : Z := maxUint64 / 10 + 1.

(** The loop of [strconv.ParseUint] with base 10.  The result is the
    pair the library returns. *)
Fixpoint ParseUint_loop (maxVal : Z) (s : string) (n : Z) : Z * option NumError :=
  match s with
  | EmptyString => (n, None)
  | String c s' =>
      match byte_digit (byte_val c) with
      | None => (0, Some ErrSyntax)
      | Some d =>
          if 10 <=? d then (0, Some ErrSyntax)
          else if cutoff10 <=? n then (maxVal, Some ErrRange)
          else
            let n10 := uint64 (n * 10) in
            let n1 := uint64 (n10 + d) in
            if (n1 <? n10) || (maxVal <? n1) then (maxVal, Some ErrRange)
            else ParseUint_loop maxVal s' n1
      end
  end.

(** [strconv.ParseUint(s, 10, bitSize)] for an explicit [bitSize]
    (the program passes 32; [bitSize = 0] would stand for the word
    size and is not used). *)
Definition ParseUint (s : string) (bitSize : Z) : Z * option NumError :=
  match s with
  | EmptyString => (0, Some ErrSyntax)
  | _ =>
      if (bitSize <? 1) || (64 <? bitSize) then (0, Some ErrBitSize)
      else ParseUint_loop (uint64 (uint64 (2 ^ bitSize) - 1)) s 0
  end.

(** [strconv.ParseInt(s, 10, bitSize)]. *)
Definition ParseInt (s : string) (bitSize : Z) : Z * option NumError :=
  match s with
  | EmptyString => (0, Some ErrSyntax)
  | String c0 s1 =>
      let neg := Ascii.eqb c0 "-" in
      let s' := if Ascii.eqb c0 "+" then s1 else if neg then s1 else s in
      let '(un, err) := ParseUint s' bitSize in
      match err with
      | Some ErrSyntax => (0, Some ErrSyntax)
      | Some ErrBitSize => (0, Some ErrBitSize)
      | _ =>
          let cutoff := 2 ^ (bitSize - 1) in
          if negb neg && (cutoff <=? un) then (cutoff - 1, Some ErrRange)
          else if neg && (cutoff <? un) then (- cutoff, Some ErrRange)
          else (if neg then - un else un, None)
      end
  end.

End Strconv.

(* ===================================================================== *)
(** * Errors                                                              *)
(* ===================================================================== *)

(** The gRPC status codes the program uses. *)
Module codes.
Inductive Code : Type :=
| Unknown
| InvalidArgument
| NotFound.
End codes.

(** Go [error] values, by dynamic type.

    Modelled from the spec: [util.UserError], [util.NewUserError] and the
    method [GRPCError] are not among the sources.  A user error is a
    classification (code) with a message; [GRPCError] turns it into the
    gRPC status error of the same code and message. *)
Inductive error : Type :=
| UserError (code : codes.Code) (msg : string)
| StatusError (code : codes.Code) (msg : string)
| OtherError (msg : string).

Module util.
Definition NewUserError (code : codes.Code) (msg : string) : error :=
  UserError code msg.
End util.

(** [errors.As(err, &userError)]: [Some (code, msg)] when [err] is a
    user error, which is then stored in [userError]. *)
Definition As_userError (err : option error) : option (codes.Code * string) :=
  match err with
  | Some (UserError c m) => Some (c, m)
  | _ => None
  end.

(** [userError.GRPCError()]. *)
Definition GRPCError (u : codes.Code * string) : error :=
  StatusError (fst u) (snd u).

(* ===================================================================== *)
(** * Package model                                                       *)
(* ===================================================================== *)

(** The declarations of package [model] are not among the sources; the
    records have the fields the manager and the server read or write. *)
Module model.

(** [model.Parameter]. *)
Module Param.
Record t : Type := mk { Name : string; Value : option string }.
End Param.

Module WorkflowTemplate.
Record t : Type := mk {
  UID : string;
  Name : string;
  Version : Z;
  Manifest : string;
  IsLatest : bool;
  IsArchived : bool;
  CreatedAt : Time
}.

Definition zero : t := mk "" "" 0 "" false false zeroTime.

(** [GetManifestBytes]: the manifest as bytes. *)
Definition GetManifestBytes (wt : t) : string := Manifest wt.

(** [wt.Manifest = m]. *)
Definition set_Manifest (m : string) (wt : t) : t :=
  mk (UID wt) (Name wt) (Version wt) m (IsLatest wt) (IsArchived wt) (CreatedAt wt).
End WorkflowTemplate.

Module Workflow.
Record t : Type := mk {
  UID : string;
  Name : string;
  Phase : string;
  CreatedAt : Time;
  FinishedAt : Time;
  Manifest : string;
  Status : string;
  Parameters : list Param.t;
  WorkflowTemplate : option WorkflowTemplate.t
}.

(** [model.Workflow{}]. *)
Definition zero : t := mk "" "" "" zeroTime zeroTime "" "" [] None.
End Workflow.

End model.

(* ===================================================================== *)
(** * Package kube: the orchestration client                              *)
(* ===================================================================== *)

(** Package [kube] is not among the sources.  The records carry the
    fields the manager uses; the client is the set of calls the manager
    makes on it. *)
Module kube.

Module WorkflowParameter.
Record t : Type := mk { Name : string; Value : option string }.
End WorkflowParameter.

Module ListOptions.
Record t : Type := mk { LabelSelector : string }.
End ListOptions.

Module WorkflowOptions.
Record t : Type := mk {
  Parameters : list WorkflowParameter.t;
  Labels : option (gmap string string);
  ListOptions : option ListOptions.t
}.

(** [kube.WorkflowOptions{}]. *)
Definition zero : t := mk [] None None.
End WorkflowOptions.

Module WorkflowStatus.
Record t : Type := mk {
  Phase : string;
  StartedAt : Time;
  FinishedAt : Time
}.
End WorkflowStatus.

Module Workflow.
Record t : Type := mk {
  Name : string;
  UID : string;
  Labels : gmap string string;
  Status : WorkflowStatus.t
}.
End Workflow.

(** The payload of a watch event, an interface value: a pointer to a
    workflow, or anything else (a value of another dynamic type, a nil
    workflow pointer, or the nil interface, which is also what a closed
    event channel delivers). *)
Inductive Object : Type :=
| WorkflowObject (w : Workflow.t)
| OtherObject.

(** The type assertion of [obj] to a workflow pointer in its
    two-result form, the flag dropped: the workflow when the payload
    is one, nil otherwise. *)
Definition as_Workflow (obj : Object) : option Workflow.t :=
  match obj with
  | WorkflowObject w => Some w
  | OtherObject => None
  end.

(** A watch subscription. *)
Inductive Watcher : Type :=
| watch (namespace name : string).

Record Client : Type := mkClient {
  CreateWorkflow :
    string -> string -> WorkflowOptions.t -> list Workflow.t * option error;
  GetWorkflow : string -> string -> option Workflow.t * option error;
  WatchWorkflow : string -> string -> option Watcher * option error;
  ListWorkflows : string -> WorkflowOptions.t -> list Workflow.t * option error
}.

(** [kubeClient.ValidateWorkflow], the call of the template operations
    on the client; it is kept in a record of its own beside [Client]. *)
Record Validator : Type := mkValidator {
  ValidateWorkflow : string -> option error
}.

End kube.

(** The template store, as far as the manager calls it. *)
Module repository.
Record WorkflowRepository : Type := mk {
  GetWorkflowTemplate :
    string -> string -> Z -> option model.WorkflowTemplate.t * option error
}.

(** The calls of the template operations on the repository, in a record
    of their own beside [WorkflowRepository]. *)
Record TemplateRepository : Type := mkTemplates {
  CreateWorkflowTemplate :
    string -> model.WorkflowTemplate.t -> option model.WorkflowTemplate.t * option error;
  CreateWorkflowTemplateVersion :
    string -> model.WorkflowTemplate.t -> option model.WorkflowTemplate.t * option error;
  ListWorkflowTemplateVersions :
    string -> string -> list model.WorkflowTemplate.t * option error;
  ListWorkflowTemplates :
    string -> list model.WorkflowTemplate.t * option error
}.
End repository.

(* ===================================================================== *)
(** * Package manager                                                     *)
(* ===================================================================== *)

Module manager.

Record ResourceManager : Type := mkResourceManager {
  kubeClient : kube.Client;
  workflowRepository : repository.WorkflowRepository
}.

(** What the stream goroutine does to the outside. *)
Inductive Effect : Type :=
| Push (w : model.Workflow.t)   (* workflowWatcher <- w *)
| CloseChannel                  (* close(workflowWatcher) *)
| StopWatcher.                  (* watcher.Stop() *)

(** One outcome of the goroutine's [select]. *)
Inductive Select : Type :=
| Event (obj : kube.Object)     (* next := <-watcher.ResultChan() *)
| Tick.                         (* <-ticker.C *)

(** Where the goroutine is: in its [for] loop, with the variable
    [workflow], or past it. *)
Inductive LoopState : Type :=
| Streaming (workflow : option kube.Workflow.t)
| Closed.

(** What [WatchWorkflow] hands to its goroutine: the result of the
    initial fetch and the subscription. *)
Record Bridge : Type := mkBridge {
  wf : option model.Workflow.t;
  watcher : option kube.Watcher
}.

Section Manager.

(** [os.Getenv("KUBE_LABEL_KEY_PREFIX")], read once at start-up. *)
Variable labelKeyPrefix : string.

(** [json.Marshal] on a workflow status. *)
Variable json_Marshal : kube.WorkflowStatus.t -> string * option error.

Definition workflowTemplateUIDLabelKey : string :=
  labelKeyPrefix +:+ "workflow-template-uid".
Definition workflowTemplateVersionLabelKey : string :=
  labelKeyPrefix +:+ "workflow-template-version".

(** Lines 39-40 of [CreateWorkflow]: the two correlation labels are
    written into the label map. *)
Definition stamp (labels : gmap string string) (uid : string) (version : Z)
  : gmap string string :=
  <[workflowTemplateVersionLabelKey := Strconv.Sprint version]>
    (<[workflowTemplateUIDLabelKey := uid]> labels).

(** Lines 61-66 of [GetWorkflow]: the two labels are read back; the
    version comes with the error of [strconv.ParseInt]. *)
Definition resolve (labels : gmap string string)
  : string * (Z * option Strconv.NumError) :=
  (map_get labels workflowTemplateUIDLabelKey,
   Strconv.ParseInt (map_get labels workflowTemplateVersionLabelKey) 32).

Definition GetWorkflowTemplate (r : ResourceManager)
    (namespace uid : string) (version : Z)
  : option model.WorkflowTemplate.t * option error :=
  let '(workflowTemplate, err) :=
    repository.GetWorkflowTemplate (workflowRepository r) namespace uid version in
  match err with
  | Some _ => (None, Some (util.NewUserError codes.Unknown "Unknown error."))
  | None =>
      match workflowTemplate with
      | None =>
          (None, Some (util.NewUserError codes.NotFound "Workflow template not found."))
      | Some _ => (workflowTemplate, None)
      end
  end.

(** The options [CreateWorkflow] passes to the client. *)
Definition createOptions (workflow : model.Workflow.t)
    (workflowTemplate : model.WorkflowTemplate.t) : kube.WorkflowOptions.t :=
  let opts := kube.WorkflowOptions.zero in
  let parameters :=
    (kube.WorkflowOptions.Parameters opts ++
     map (fun param =>
            kube.WorkflowParameter.mk (model.Param.Name param)
                                      (model.Param.Value param))
         (model.Workflow.Parameters workflow))%list in
  let labels :=
    match kube.WorkflowOptions.Labels opts with
    | None => ∅
    | Some l => l
    end in
  kube.WorkflowOptions.mk
    parameters
    (Some (stamp labels (model.WorkflowTemplate.UID workflowTemplate)
                        (model.WorkflowTemplate.Version workflowTemplate)))
    (kube.WorkflowOptions.ListOptions opts).

(** [CreateWorkflow]; [workflow] is the (non-nil) object the caller
    passes, and the returned workflow is that object after the
    assignments of lines 46-50. *)
Definition CreateWorkflow (r : ResourceManager) (namespace : string)
    (workflow : model.Workflow.t)
  : outcome (option model.Workflow.t * option error) :=
  ref ← deref (model.Workflow.WorkflowTemplate workflow);
  let '(workflowTemplate, err) :=
    GetWorkflowTemplate r namespace (model.WorkflowTemplate.UID ref)
                        (model.WorkflowTemplate.Version ref) in
  match err with
  | Some e => mret (None, Some e)
  | None =>
      wt ← deref workflowTemplate;
      let opts := createOptions workflow wt in
      let '(createdWorkflows, err) :=
        kube.CreateWorkflow (kubeClient r) namespace
          (model.WorkflowTemplate.GetManifestBytes wt) opts in
      match err with
      | Some e => mret (None, Some e)
      | None =>
          created ← index createdWorkflows 0;
          mret (Some (model.Workflow.mk
                        (kube.Workflow.UID created)
                        (kube.Workflow.Name created)
                        (model.Workflow.Phase workflow)
                        (model.Workflow.CreatedAt workflow)
                        (model.Workflow.FinishedAt workflow)
                        (model.Workflow.Manifest workflow)
                        (model.Workflow.Status workflow)
                        (model.Workflow.Parameters workflow)
                        (Some (model.WorkflowTemplate.set_Manifest "" wt))),
                None)
      end
  end.

(** The workflow value built at lines 80-85 and 119-124. *)
Definition snapshot (w : kube.Workflow.t) (status : string)
    (workflowTemplate : option model.WorkflowTemplate.t) : model.Workflow.t :=
  model.Workflow.mk (kube.Workflow.UID w) (kube.Workflow.Name w) ""
    zeroTime zeroTime "" status [] workflowTemplate.

Definition GetWorkflow (r : ResourceManager) (namespace name : string)
  : outcome (option model.Workflow.t * option error) :=
  let '(wf, err) := kube.GetWorkflow (kubeClient r) namespace name in
  match err with
  | Some _ => mret (None, Some (util.NewUserError codes.NotFound "Workflow not found."))
  | None =>
      wf ← deref wf;
      let '(uid, (version, err)) := resolve (kube.Workflow.Labels wf) in
      match err with
      | Some _ =>
          mret (None, Some (util.NewUserError codes.InvalidArgument "Invalid version number."))
      | None =>
          let '(workflowTemplate, err) :=
            GetWorkflowTemplate r namespace uid (int32 version) in
          match err with
          | Some e => mret (None, Some e)
          | None =>
              let '(status, err) := json_Marshal (kube.Workflow.Status wf) in
              match err with
              | Some _ =>
                  mret (None, Some (util.NewUserError codes.InvalidArgument "Invalid status."))
              | None => mret (Some (snapshot wf status workflowTemplate), None)
              end
          end
      end
  end.

(** [WatchWorkflow] up to the [go] statement.  The channel it returns
    stands for the goroutine feeding it, which is [run] below started
    in [Streaming None]; a nil channel means no goroutine. *)
Definition WatchWorkflow (r : ResourceManager) (namespace name : string)
  : outcome (option Bridge * option error) :=
  '(wf, err) ← GetWorkflow r namespace name;
  match err with
  | Some _ =>
      mret (None, Some (util.NewUserError codes.NotFound "Workflow template not found."))
  | None =>
      let '(watcher, err) := kube.WatchWorkflow (kubeClient r) namespace name in
      match err with
      | Some _ => mret (None, Some (util.NewUserError codes.Unknown "Unknown error."))
      | None => mret (Some (mkBridge wf watcher), None)
      end
  end.

(** [ListWorkflows] (the two-argument method of the sources): with a
    template uid the listing is narrowed by a label selector on the uid
    label; only the name and uid of each instance are kept. *)
Definition ListWorkflows (r : ResourceManager) (namespace workflowTemplateUID : string)
  : list model.Workflow.t * option error :=
  let opts := kube.WorkflowOptions.zero in
  let opts :=
    if negb (String.eqb workflowTemplateUID "")
    then kube.WorkflowOptions.mk
           (kube.WorkflowOptions.Parameters opts)
           (kube.WorkflowOptions.Labels opts)
           (Some (kube.ListOptions.mk
                    (labelKeyPrefix +:+ "workflow-template-uid=" +:+ workflowTemplateUID)))
    else opts in
  let '(wfs, err) := kube.ListWorkflows (kubeClient r) namespace opts in
  match err with
  | Some _ => ([], Some (util.NewUserError codes.NotFound "Workflows not found."))
  | None =>
      (map (fun wf =>
              model.Workflow.mk (kube.Workflow.UID wf) (kube.Workflow.Name wf) ""
                zeroTime zeroTime "" "" [] None)
           wfs,
       None)
  end.

(** The effect of line 119: the snapshot of [w] is sent on the channel,
    with the template of the workflow fetched at the start. *)
Definition pushed (wf : model.Workflow.t) (w : kube.Workflow.t) (status : string)
  : Effect :=
  Push (snapshot w status (model.Workflow.WorkflowTemplate wf)).

(** The variable [workflow] after the [select]: an event replaces it
    with the asserted payload, a tick leaves it. *)
Definition selected (workflow : option kube.Workflow.t) (sel : Select)
  : option kube.Workflow.t :=
  match sel with
  | Event obj => kube.as_Workflow obj
  | Tick => workflow
  end.

(** One turn of the goroutine's [for] loop, from the [select] to the
    [continue], the end of the body, or the [break] followed by the
    two calls after the loop.  Evaluating [watcher.ResultChan()] needs
    the subscription; [wf.WorkflowTemplate] needs the fetched workflow. *)
Definition iteration (b : Bridge) (workflow : option kube.Workflow.t)
    (sel : Select) : outcome (LoopState * list Effect) :=
  _ ← deref (watcher b);
  let workflow := selected workflow sel in
  match workflow with
  | None => mret (Streaming workflow, [])
  | Some w =>
      let '(status, err) := json_Marshal (kube.Workflow.Status w) in
      match err with
      | Some _ => mret (Streaming workflow, [])
      | None =>
          wf ← deref (wf b);
          if negb (IsZero (kube.WorkflowStatus.FinishedAt (kube.Workflow.Status w)))
          then mret (Closed, [pushed wf w status; CloseChannel; StopWatcher])
          else mret (Streaming workflow, [pushed wf w status])
      end
  end.

(** The goroutine along a sequence of [select] outcomes: the state it
    reaches and everything it did, in order.  Once past the loop it
    does nothing more. *)
Fixpoint run (b : Bridge) (st : LoopState) (sels : list Select)
  : outcome (LoopState * list Effect) :=
  match st, sels with
  | Closed, _ => mret (Closed, [])
  | Streaming _, [] => mret (st, [])
  | Streaming workflow, sel :: sels' =>
      '(st', out) ← iteration b workflow sel;
      '(st'', out') ← run b st' sels';
      mret (st'', (out ++ out')%list)
  end.

End Manager.

(** The template operations of the manager (lines 159-218). *)
Section Templates.

(** [err.Error()]. *)
Variable Error : error -> string.

(** [util.NewUserErrorWrap], which is not among the sources. *)
Variable NewUserErrorWrap : error -> string -> error.

Variable validator : kube.Validator.
Variable templates : repository.TemplateRepository.

Definition CreateWorkflowTemplate (namespace : string)
    (workflowTemplate : model.WorkflowTemplate.t)
  : option model.WorkflowTemplate.t * option error :=
  match kube.ValidateWorkflow validator
          (model.WorkflowTemplate.GetManifestBytes workflowTemplate) with
  | Some err => (None, Some (util.NewUserError codes.InvalidArgument (Error err)))
  | None =>
      let '(workflowTemplate, err) :=
        repository.CreateWorkflowTemplate templates namespace workflowTemplate in
      match err with
      | Some e => (None, Some (NewUserErrorWrap e "Workflow template"))
      | None => (workflowTemplate, None)
      end
  end.

Definition CreateWorkflowTemplateVersion (namespace : string)
    (workflowTemplate : model.WorkflowTemplate.t)
  : option model.WorkflowTemplate.t * option error :=
  match kube.ValidateWorkflow validator
          (model.WorkflowTemplate.GetManifestBytes workflowTemplate) with
  | Some err => (None, Some (util.NewUserError codes.InvalidArgument (Error err)))
  | None =>
      let '(workflowTemplate, err) :=
        repository.CreateWorkflowTemplateVersion templates namespace workflowTemplate in
      match err with
      | Some e => (None, Some (NewUserErrorWrap e "Workflow template"))
      | None =>
          match workflowTemplate with
          | None =>
              (None, Some (util.NewUserError codes.NotFound "Workflow template not found."))
          | Some _ => (workflowTemplate, None)
          end
      end
  end.

Definition ListWorkflowTemplateVersions (namespace uid : string)
  : list model.WorkflowTemplate.t * option error :=
  let '(workflowTemplateVersions, err) :=
    repository.ListWorkflowTemplateVersions templates namespace uid in
  match err with
  | Some _ =>
      ([], Some (util.NewUserError codes.NotFound "Workflow template versions not found."))
  | None => (workflowTemplateVersions, None)
  end.

Definition ListWorkflowTemplates (namespace : string)
  : list model.WorkflowTemplate.t * option error :=
  let '(workflowTemplateVersions, err) :=
    repository.ListWorkflowTemplates templates namespace in
  match err with
  | Some _ => ([], Some (util.NewUserError codes.NotFound "Workflow templates not found."))
  | None => (workflowTemplateVersions, None)
  end.

End Templates.

End manager.

(* ===================================================================== *)
(** * Package api: request and response messages                          *)
(* ===================================================================== *)

(** The generated package [api] is not among the sources; the records
    have the fields the server reads or writes. *)
Module api.

Module WorkflowParameter.
Record t : Type := mk { Name : string; Value : string }.
End WorkflowParameter.

Module WorkflowTemplate.
Record t : Type := mk {
  Uid : string;
  CreatedAt : Text;
  Name : string;
  Version : Z;
  Manifest : string;
  IsLatest : bool;
  IsArchived : bool
}.
End WorkflowTemplate.

Module Workflow.
Record t : Type := mk {
  CreatedAt : Text;
  Name : string;
  Uid : string;
  Phase : string;
  StartedAt : Text;
  FinishedAt : Text;
  Manifest : string;
  Parameters : list WorkflowParameter.t;
  WorkflowTemplate : option WorkflowTemplate.t
}.
End Workflow.

Module CreateWorkflowRequest.
Record t : Type := mk { Namespace : string; Workflow : option Workflow.t }.
End CreateWorkflowRequest.

Module GetWorkflowRequest.
Record t : Type := mk { Namespace : string; Name : string }.
End GetWorkflowRequest.

Module WatchWorkflowRequest.
Record t : Type := mk { Namespace : string; Name : string }.
End WatchWorkflowRequest.

Module ListWorkflowsRequest.
Record t : Type := mk {
  Namespace : string;
  WorkflowTemplateUid : string;
  WorkflowTemplateVersion : string;
  PageSize : Z;
  Page : Z
}.
End ListWorkflowsRequest.

Module ListWorkflowsResponse.
Record t : Type := mk {
  Count : Z;
  Workflows : list Workflow.t;
  Page : Z;
  Pages : Z;
  TotalCount : Z
}.
End ListWorkflowsResponse.

Module NamedRequest.
(** The shape of [ResubmitWorkflowRequest] and [TerminateWorkflowRequest]. *)
Record t : Type := mk { Namespace : string; Name : string }.
End NamedRequest.

Module CreateWorkflowTemplateRequest.
Record t : Type := mk { Namespace : string; WorkflowTemplate : option WorkflowTemplate.t }.
End CreateWorkflowTemplateRequest.

Module GetWorkflowTemplateRequest.
Record t : Type := mk { Namespace : string; Uid : string; Version : Z }.
End GetWorkflowTemplateRequest.

Module ListWorkflowTemplateVersionsRequest.
Record t : Type := mk { Namespace : string; Uid : string }.
End ListWorkflowTemplateVersionsRequest.

Module ListWorkflowTemplatesRequest.
Record t : Type := mk { Namespace : string }.
End ListWorkflowTemplatesRequest.

(** [ListWorkflowTemplateVersionsResponse] and
    [ListWorkflowTemplatesResponse] have the same two fields. *)
Module ListWorkflowTemplatesResponse.
Record t : Type := mk { Count : Z; WorkflowTemplates : list WorkflowTemplate.t }.
End ListWorkflowTemplatesResponse.

End api.

(* ===================================================================== *)
(** * Package server                                                      *)
(* ===================================================================== *)

Module server.

(** What [WatchWorkflow] does to the outside. *)
Inductive Effect : Type :=
| Send (w : api.Workflow.t).    (* stream.Send(w) *)

(** One outcome of the [select] of [WatchWorkflow]. *)
Inductive Select : Type :=
| Receive (wf : option model.Workflow.t)  (* wf = <-watcher; nil once closed *)
| Tick.                                   (* <-ticker.C *)

(** One turn of the loop as the environment decides it: which case of
    the [select] fires, and what [stream.Send] answers if it is called. *)
Record Turn : Type := mkTurn {
  selected : Select;
  sendResult : option error
}.

(** Where [WatchWorkflow] is: in its loop with the variable [wf], or
    returned. *)
Inductive LoopState : Type :=
| Relaying (wf : option model.Workflow.t)
| Returned (err : option error).

(** [ptr.String(v)]. *)
Definition ptr_String (v : string) : option string := Some v.

Definition apiWorkflowTemplate (wft : model.WorkflowTemplate.t) : api.WorkflowTemplate.t :=
  api.WorkflowTemplate.mk
    (model.WorkflowTemplate.UID wft)
    (RFC3339 (model.WorkflowTemplate.CreatedAt wft))
    (model.WorkflowTemplate.Name wft)
    (model.WorkflowTemplate.Version wft)
    (model.WorkflowTemplate.Manifest wft)
    (model.WorkflowTemplate.IsLatest wft)
    (model.WorkflowTemplate.IsArchived wft).

(** The message [apiWorkflow] builds from the workflow its argument
    points to (lines 25-45). *)
Definition converted (wf : model.Workflow.t) : api.Workflow.t :=
  api.Workflow.mk
    (RFC3339 (model.Workflow.CreatedAt wf))
    (model.Workflow.Name wf)
    (model.Workflow.UID wf)
    (model.Workflow.Phase wf)
    (RFC3339 (model.Workflow.CreatedAt wf))
    (RFC3339 (model.Workflow.FinishedAt wf))
    (model.Workflow.Manifest wf)
    []
    (apiWorkflowTemplate <$> model.Workflow.WorkflowTemplate wf).

(** [apiWorkflow]; the argument is a pointer, read at once. *)
Definition apiWorkflow (wf : option model.Workflow.t) : outcome api.Workflow.t :=
  wf ← deref wf;
  mret (converted wf).

(** [append(out, f(x))] over a [range] loop whose body can panic. *)
Fixpoint range_append {A B : Type} (f : A -> outcome B) (xs : list A)
  : outcome (list B) :=
  match xs with
  | [] => mret []
  | x :: xs' => y ← f x; ys ← range_append f xs'; mret (y :: ys)
  end.

(** [int32(math.Ceil(float64(n) / float64(d)))] for [0 <= n] and
    [0 < d] below [2^31]: both conversions are exact, the quotient is
    rounded to a double, and rounding cannot cross an integer because
    a non-integral [n / d] is at least [1 / d] away from one while the
    rounding error stays below that; so the result is the integer
    ceiling. *)
Definition ceil_div (n d : Z) : Z := - ((- n) / d).

(** Lines 176-185 of [ListWorkflows]: from the number of workflows, the
    page size and the page asked for, the number of pages, the page
    served, and the two bounds of the slice expression. *)
Definition pageWindow (len PageSize Page : Z) : Z * Z * Z * Z :=
  let pages := int32 (ceil_div len PageSize) in
  let Page := if pages <? Page then pages else Page in
  let start := int32 ((Page - 1) * PageSize) in
  let end_ := int32 (start + PageSize) in
  let end_ := if int32 len <=? end_ then int32 (int32 len - 1) else end_ in
  (pages, Page, start, end_).

(** Lines 63-74 of [CreateWorkflow]: the workflow handed to the manager. *)
Definition newWorkflow (reqWorkflow : api.Workflow.t)
    (reqTemplate : api.WorkflowTemplate.t) : model.Workflow.t :=
  model.Workflow.mk "" "" "" zeroTime zeroTime "" ""
    (map (fun param =>
            model.Param.mk (api.WorkflowParameter.Name param)
                           (ptr_String (api.WorkflowParameter.Value param)))
         (api.Workflow.Parameters reqWorkflow))
    (Some (model.WorkflowTemplate.mk
             (api.WorkflowTemplate.Uid reqTemplate) ""
             (api.WorkflowTemplate.Version reqTemplate)
             "" false false zeroTime)).

Section Server.

Variable labelKeyPrefix : string.
Variable json_Marshal : kube.WorkflowStatus.t -> string * option error.

(** The server's [resourceManager]. *)
Variable resourceManager : manager.ResourceManager.

(** [s.resourceManager.ListWorkflows] with the three arguments the
    server passes; the manager method of that signature is not among
    the sources. *)
Variable resourceManager_ListWorkflows :
  string -> string -> string -> list model.Workflow.t * option error.

Definition CreateWorkflow (req : api.CreateWorkflowRequest.t)
  : outcome (option api.Workflow.t * option error) :=
  reqWorkflow ← deref (api.CreateWorkflowRequest.Workflow req);
  reqTemplate ← deref (api.Workflow.WorkflowTemplate reqWorkflow);
  let workflow := newWorkflow reqWorkflow reqTemplate in
  '(wf, err) ← manager.CreateWorkflow labelKeyPrefix resourceManager
                 (api.CreateWorkflowRequest.Namespace req) workflow;
  match err, As_userError err with
  | Some _, Some userError => mret (None, Some (GRPCError userError))
  | _, _ => w ← apiWorkflow wf; mret (Some w, None)
  end.

Definition GetWorkflow (req : api.GetWorkflowRequest.t)
  : outcome (option api.Workflow.t * option error) :=
  '(wf, err) ← manager.GetWorkflow labelKeyPrefix json_Marshal resourceManager
                 (api.GetWorkflowRequest.Namespace req)
                 (api.GetWorkflowRequest.Name req);
  match As_userError err with
  | Some userError => mret (None, Some (GRPCError userError))
  | None => w ← apiWorkflow wf; mret (Some w, None)
  end.

(** One turn of the [for] loop of [WatchWorkflow]. *)
Definition iteration (wf : option model.Workflow.t) (t : Turn)
  : outcome (LoopState * list Effect) :=
  let wf :=
    match selected t with
    | Receive w => w
    | Tick => wf
    end in
  match wf with
  | None => mret (Returned None, [])
  | Some _ =>
      w ← apiWorkflow wf;
      match sendResult t with
      | Some e => mret (Returned (Some e), [Send w])
      | None => mret (Relaying wf, [Send w])
      end
  end.

Fixpoint relay (st : LoopState) (turns : list Turn)
  : outcome (LoopState * list Effect) :=
  match st, turns with
  | Returned _, _ => mret (st, [])
  | Relaying _, [] => mret (st, [])
  | Relaying wf, t :: turns' =>
      '(st', out) ← iteration wf t;
      '(st'', out') ← relay st' turns';
      mret (st'', (out ++ out')%list)
  end.

(** [WatchWorkflow] along a sequence of turns of its loop: the
    subscription is opened through the manager, and the loop starts
    with [wf] pointing to an empty workflow. *)
Definition WatchWorkflow (req : api.WatchWorkflowRequest.t) (turns : list Turn)
  : outcome (LoopState * list Effect) :=
  '(watcher, err) ← manager.WatchWorkflow labelKeyPrefix json_Marshal resourceManager
                      (api.WatchWorkflowRequest.Namespace req)
                      (api.WatchWorkflowRequest.Name req);
  match As_userError err with
  | Some userError => mret (Returned (Some (GRPCError userError)), [])
  | None => relay (Relaying (Some model.Workflow.zero)) turns
  end.

Definition ListWorkflows (req : api.ListWorkflowsRequest.t)
  : outcome (option api.ListWorkflowsResponse.t * option error) :=
  let PageSize :=
    if api.ListWorkflowsRequest.PageSize req <=? 0 then 15
    else api.ListWorkflowsRequest.PageSize req in
  let Page :=
    if api.ListWorkflowsRequest.Page req <=? 0 then 1
    else api.ListWorkflowsRequest.Page req in
  let '(workflows, err) :=
    resourceManager_ListWorkflows
      (api.ListWorkflowsRequest.Namespace req)
      (api.ListWorkflowsRequest.WorkflowTemplateUid req)
      (api.ListWorkflowsRequest.WorkflowTemplateVersion req) in
  match As_userError err with
  | Some userError => mret (None, Some (GRPCError userError))
  | None =>
      apiWorkflows ← range_append (fun wf => apiWorkflow (Some wf)) workflows;
      let len := Z.of_nat (length apiWorkflows) in
      let '(pages, Page, start, end_) := pageWindow len PageSize Page in
      page ← slice apiWorkflows start end_;
      mret (Some (api.ListWorkflowsResponse.mk
                    (int32 (end_ - start)) page Page pages (int32 len)),
            None)
  end.

End Server.

(** What the loop of [WatchWorkflow] receives from the channel when the
    goroutine of the manager does [out] and no timer tick of the server
    comes in between: each pushed workflow in order, and nil once the
    channel is closed; every send succeeds. *)
Definition deliveries (out : list manager.Effect) : list Turn :=
  omap (fun effect =>
          match effect with
          | manager.Push w => Some (mkTurn (Receive (Some w)) None)
          | manager.CloseChannel => Some (mkTurn (Receive None) None)
          | manager.StopWatcher => None
          end) out.

(** The remaining operations of the server that wrap one manager call
    (lines 196-311). *)
Section Operations.

Variable Error : error -> string.
Variable NewUserErrorWrap : error -> string -> error.
Variable validator : kube.Validator.
Variable templates : repository.TemplateRepository.
Variable resourceManager : manager.ResourceManager.

(** [s.resourceManager.ResubmitWorkflow] and
    [s.resourceManager.TerminateWorkflow]; the two manager methods are
    not among the sources. *)
Variable resourceManager_ResubmitWorkflow :
  string -> string -> option model.Workflow.t * option error.
Variable resourceManager_TerminateWorkflow : string -> string -> option error.

Definition ResubmitWorkflow (req : api.NamedRequest.t)
  : outcome (option api.Workflow.t * option error) :=
  let '(wf, err) :=
    resourceManager_ResubmitWorkflow (api.NamedRequest.Namespace req)
                                     (api.NamedRequest.Name req) in
  match As_userError err with
  | Some userError => mret (None, Some (GRPCError userError))
  | None => w ← apiWorkflow wf; mret (Some w, None)
  end.

(** [TerminateWorkflow]; the value returned on success is the empty
    message. *)
Definition TerminateWorkflow (req : api.NamedRequest.t) : option unit * option error :=
  let err :=
    resourceManager_TerminateWorkflow (api.NamedRequest.Namespace req)
                                      (api.NamedRequest.Name req) in
  match As_userError err with
  | Some userError => (None, Some (GRPCError userError))
  | None => (Some tt, None)
  end.

(** The assignments to [req.WorkflowTemplate] that end the two creating
    operations. *)
Definition set_Uid_Version (uid : string) (version : Z) (t : api.WorkflowTemplate.t)
  : api.WorkflowTemplate.t :=
  api.WorkflowTemplate.mk uid (api.WorkflowTemplate.CreatedAt t)
    (api.WorkflowTemplate.Name t) version (api.WorkflowTemplate.Manifest t)
    (api.WorkflowTemplate.IsLatest t) (api.WorkflowTemplate.IsArchived t).

Definition set_Name (name : string) (t : api.WorkflowTemplate.t)
  : api.WorkflowTemplate.t :=
  api.WorkflowTemplate.mk (api.WorkflowTemplate.Uid t) (api.WorkflowTemplate.CreatedAt t)
    name (api.WorkflowTemplate.Version t) (api.WorkflowTemplate.Manifest t)
    (api.WorkflowTemplate.IsLatest t) (api.WorkflowTemplate.IsArchived t).

Definition CreateWorkflowTemplate (req : api.CreateWorkflowTemplateRequest.t)
  : outcome (option api.WorkflowTemplate.t * option error) :=
  reqTemplate ← deref (api.CreateWorkflowTemplateRequest.WorkflowTemplate req);
  let workflowTemplate :=
    model.WorkflowTemplate.mk "" (api.WorkflowTemplate.Name reqTemplate) 0
      (api.WorkflowTemplate.Manifest reqTemplate) false false zeroTime in
  let '(workflowTemplate, err) :=
    manager.CreateWorkflowTemplate Error NewUserErrorWrap validator templates
      (api.CreateWorkflowTemplateRequest.Namespace req) workflowTemplate in
  match As_userError err with
  | Some userError => mret (None, Some (GRPCError userError))
  | None =>
      workflowTemplate ← deref workflowTemplate;
      mret (Some (set_Uid_Version (model.WorkflowTemplate.UID workflowTemplate)
                    (model.WorkflowTemplate.Version workflowTemplate) reqTemplate),
            None)
  end.

Definition CreateWorkflowTemplateVersion (req : api.CreateWorkflowTemplateRequest.t)
  : outcome (option api.WorkflowTemplate.t * option error) :=
  reqTemplate ← deref (api.CreateWorkflowTemplateRequest.WorkflowTemplate req);
  let workflowTemplate :=
    model.WorkflowTemplate.mk (api.WorkflowTemplate.Uid reqTemplate)
      (api.WorkflowTemplate.Name reqTemplate) 0
      (api.WorkflowTemplate.Manifest reqTemplate) false false zeroTime in
  let '(workflowTemplate, err) :=
    manager.CreateWorkflowTemplateVersion Error NewUserErrorWrap validator templates
      (api.CreateWorkflowTemplateRequest.Namespace req) workflowTemplate in
  match As_userError err with
  | Some userError => mret (None, Some (GRPCError userError))
  | None =>
      workflowTemplate ← deref workflowTemplate;
      mret (Some (set_Name (model.WorkflowTemplate.Name workflowTemplate)
                    (set_Uid_Version (model.WorkflowTemplate.UID workflowTemplate)
                       (model.WorkflowTemplate.Version workflowTemplate) reqTemplate)),
            None)
  end.

Definition GetWorkflowTemplate (req : api.GetWorkflowTemplateRequest.t)
  : outcome (option api.WorkflowTemplate.t * option error) :=
  let '(workflowTemplate, err) :=
    manager.GetWorkflowTemplate resourceManager
      (api.GetWorkflowTemplateRequest.Namespace req)
      (api.GetWorkflowTemplateRequest.Uid req)
      (api.GetWorkflowTemplateRequest.Version req) in
  match As_userError err with
  | Some userError => mret (None, Some (GRPCError userError))
  | None =>
      workflowTemplate ← deref workflowTemplate;
      mret (Some (apiWorkflowTemplate workflowTemplate), None)
  end.

Definition ListWorkflowTemplateVersions (req : api.ListWorkflowTemplateVersionsRequest.t)
  : option api.ListWorkflowTemplatesResponse.t * option error :=
  let '(workflowTemplateVersions, err) :=
    manager.ListWorkflowTemplateVersions templates
      (api.ListWorkflowTemplateVersionsRequest.Namespace req)
      (api.ListWorkflowTemplateVersionsRequest.Uid req) in
  match As_userError err with
  | Some userError => (None, Some (GRPCError userError))
  | None =>
      let workflowTemplates := map apiWorkflowTemplate workflowTemplateVersions in
      (Some (api.ListWorkflowTemplatesResponse.mk
               (int32 (Z.of_nat (length workflowTemplateVersions))) workflowTemplates),
       None)
  end.

Definition ListWorkflowTemplates (req : api.ListWorkflowTemplatesRequest.t)
  : option api.ListWorkflowTemplatesResponse.t * option error :=
  let '(workflowTemplates, err) :=
    manager.ListWorkflowTemplates templates
      (api.ListWorkflowTemplatesRequest.Namespace req) in
  match As_userError err with
  | Some userError => (None, Some (GRPCError userError))
  | None =>
      let apiWorkflowTemplates := map apiWorkflowTemplate workflowTemplates in
      (Some (api.ListWorkflowTemplatesResponse.mk
               (int32 (Z.of_nat (length apiWorkflowTemplates))) apiWorkflowTemplates),
       None)
  end.

End Operations.

End server.

(* ===================================================================== *)
(** * Package migration                                                   *)
(* ===================================================================== *)

Module migration.

(** What the registration touches: the package map
    [initializedMigrations], and the migrations handed to
    [goose.AddMigration], in the order of the calls. *)
Record State : Type := mkState {
  initializedMigrations : gmap Z bool;
  added : list Z
}.

(** [initialize20201115134934]. *)
Definition initialize20201115134934 (s : State) : State :=
  match initializedMigrations s !! 20201115134934 with
  | Some _ => s
  | None =>
      mkState (<[20201115134934 := true]> (initializedMigrations s))
              (added s ++ [20201115134934])%list
  end.

End migration.

(* ===================================================================== *)
(** * What the specification calls a base-10 32-bit integer               *)
(* ===================================================================== *)

(** These definitions follow the words of the specification, not the
    library: a text denotes a base-10 32-bit integer when it is an
    optional sign followed by one or more decimal digits whose signed
    value lies in the [int32] range. *)
Module Spec.

Definition is_digit (c : ascii) : bool :=
  (48 <=? Strconv.byte_val c) && (Strconv.byte_val c <=? 57).

(** The value of a run of decimal digits continued from [acc]; [None]
    when some byte is not a digit. *)
Fixpoint digits_value (s : string) (acc : Z) : option Z :=
  match s with
  | EmptyString => Some acc
  | String c s' =>
      if is_digit c then digits_value s' (acc * 10 + (Strconv.byte_val c - 48))
      else None
  end.

Definition unsigned_value (s : string) : option Z :=
  match s with
  | EmptyString => None
  | _ => digits_value s 0
  end.

Definition base10_int32 (s : string) : option Z :=
  match s with
  | EmptyString => None
  | String c rest =>
      let neg := Ascii.eqb c "-" in
      let digits := if neg || Ascii.eqb c "+" then rest else s in
      match unsigned_value digits with
      | None => None
      | Some u =>
          let v := if neg then - u else u in
          if (- 2 ^ 31 <=? v) && (v <? 2 ^ 31) then Some v else None
      end
  end.

End Spec.

(* ===================================================================== *)
(** * In-memory collaborators                                             *)
(* ===================================================================== *)

(** Small concrete collaborators, used to run the operations. *)
Module fake.

Definition labelKeyPrefix : string := "onepanel.io/".

(** A serializer that never fails. *)
Definition json_Marshal (st : kube.WorkflowStatus.t) : string * option error :=
  ("{" +:+ kube.WorkflowStatus.Phase st +:+ "}", None).

Definition template : model.WorkflowTemplate.t :=
  model.WorkflowTemplate.mk "tpl-1" "train" 3 "apiVersion: argoproj.io/v1alpha1" true false
    (mkTime 63700000000 0).

Definition running : kube.WorkflowStatus.t :=
  kube.WorkflowStatus.mk "Running" (mkTime 63700000100 0) zeroTime.

Definition succeeded : kube.WorkflowStatus.t :=
  kube.WorkflowStatus.mk "Succeeded" (mkTime 63700000100 0) (mkTime 63700000200 0).

(** An instance carrying the correlation labels of [template]. *)
Definition instance (status : kube.WorkflowStatus.t) : kube.Workflow.t :=
  kube.Workflow.mk "train-x7k2p" "uid-42"
    (manager.stamp labelKeyPrefix ∅ "tpl-1" 3) status.

(** An instance created by other tooling, with a version label that is
    not a number. *)
Definition foreign : kube.Workflow.t :=
  kube.Workflow.mk "adhoc" "uid-77"
    (<[manager.workflowTemplateVersionLabelKey labelKeyPrefix := "latest"]>
       (<[manager.workflowTemplateUIDLabelKey labelKeyPrefix := "tpl-1"]> ∅))
    running.

(** A store holding [template] alone. *)
Definition store : repository.WorkflowRepository :=
  repository.mk (fun namespace uid version =>
    if String.eqb uid "tpl-1" && (version =? 3) then (Some template, None)
    else (None, None)).

(** A client on which everything works: it knows the instances
    [train-x7k2p] and [adhoc]. *)
Definition client : kube.Client :=
  kube.mkClient
    (fun namespace manifest opts => ([instance running], None))
    (fun namespace name =>
       if String.eqb name "train-x7k2p" then (Some (instance running), None)
       else if String.eqb name "adhoc" then (Some foreign, None)
       else (None, Some (OtherError "workflows.argoproj.io not found")))
    (fun namespace name => (Some (kube.watch namespace name), None))
    (fun namespace opts => ([instance running], None)).

(** A client whose create call is refused by the cluster. *)
Definition refusing : kube.Client :=
  kube.mkClient
    (fun namespace manifest opts => ([], Some (OtherError "admission webhook denied the request")))
    (kube.GetWorkflow client)
    (kube.WatchWorkflow client)
    (kube.ListWorkflows client).

(** A client on which the watch subscription cannot be opened. *)
Definition unwatchable : kube.Client :=
  kube.mkClient
    (kube.CreateWorkflow client)
    (kube.GetWorkflow client)
    (fun namespace name => (None, Some (OtherError "too many open watches")))
    (kube.ListWorkflows client).

Definition resourceManager : manager.ResourceManager :=
  manager.mkResourceManager client store.

Definition unwatched : manager.ResourceManager :=
  manager.mkResourceManager unwatchable store.

Definition refused : manager.ResourceManager :=
  manager.mkResourceManager refusing store.

(** [n] listed workflows, named by their position. *)
Definition listed (n : nat) : list model.Workflow.t :=
  map (fun i =>
         model.Workflow.mk (Strconv.Sprint (Z.of_nat i))
           ("wf-" +:+ Strconv.Sprint (Z.of_nat i)) "" zeroTime zeroTime "" "" [] None)
      (seq 0 n).

(** A listing call answering with [n] workflows. *)
Definition listing (n : nat)
  : string -> string -> string -> list model.Workflow.t * option error :=
  fun namespace uid version => (listed n, None).

(** The request the examples send: an instance of template [tpl-1],
    version 3, with one parameter. *)
Definition createRequest : api.CreateWorkflowRequest.t :=
  api.CreateWorkflowRequest.mk "default"
    (Some (api.Workflow.mk (Lit "") "" "" "" (Lit "") (Lit "") ""
             [api.WorkflowParameter.mk "epochs" "10"]
             (Some (api.WorkflowTemplate.mk "tpl-1" (Lit "") "" 3 "" false false)))).

(** The workflow the server builds from [createRequest]. *)
Definition createWorkflow : model.Workflow.t :=
  model.Workflow.mk "" "" "" zeroTime zeroTime "" ""
    [model.Param.mk "epochs" (Some "10")]
    (Some (model.WorkflowTemplate.mk "tpl-1" "" 3 "" false false zeroTime)).

Definition bridge : manager.Bridge :=
  manager.mkBridge
    (Some (manager.snapshot (instance running) "{Running}" (Some template)))
    (Some (kube.watch "default" "train-x7k2p")).

(** A template repository that answers every creation with neither a
    template nor an error. *)
Definition forgetful : repository.TemplateRepository :=
  repository.mkTemplates
    (fun namespace wt => (None, None))
    (fun namespace wt => (None, None))
    (fun namespace uid => ([], None))
    (fun namespace => ([], None)).

(** A request to store a template. *)
Definition templateRequest : api.CreateWorkflowTemplateRequest.t :=
  api.CreateWorkflowTemplateRequest.mk "default"
    (Some (api.WorkflowTemplate.mk "tpl-1" (Lit "") "evaluate" 0
             "apiVersion: argoproj.io/v1alpha1" false false)).

(** A client whose create call answers without an error and without an
    instance. *)
Definition silent : kube.Client :=
  kube.mkClient
    (fun namespace manifest opts => ([], None))
    (kube.GetWorkflow client)
    (kube.WatchWorkflow client)
    (kube.ListWorkflows client).

Definition unanswered : manager.ResourceManager :=
  manager.mkResourceManager silent store.

(** A serializer that fails on every status. *)
Definition failing_Marshal (st : kube.WorkflowStatus.t) : string * option error :=
  ("", Some (OtherError "json: unsupported value")).

(** The text of an error. *)
Definition Error (e : error) : string :=
  match e with
  | UserError _ m => m
  | StatusError _ m => m
  | OtherError m => m
  end.

(** A wrapping that classifies every error as [Unknown]. *)
Definition NewUserErrorWrap (e : error) (entity : string) : error :=
  UserError codes.Unknown (entity +:+ ": " +:+ Error e).

(** A validator refusing the empty manifest. *)
Definition validator : kube.Validator :=
  kube.mkValidator (fun manifest =>
    if String.eqb manifest "" then Some (OtherError "manifest is empty") else None).

Definition older : model.WorkflowTemplate.t :=
  model.WorkflowTemplate.mk "tpl-1" "train" 2 "apiVersion: argoproj.io/v1alpha1" false false
    (mkTime 63600000000 0).

(** A template repository that stores what it is given as version 1 of
    [tpl-2], adds versions to [tpl-1] only, and lists the two versions
    of [tpl-1]. *)
Definition templates : repository.TemplateRepository :=
  repository.mkTemplates
    (fun namespace wt =>
       (Some (model.WorkflowTemplate.mk "tpl-2" (model.WorkflowTemplate.Name wt) 1
                (model.WorkflowTemplate.Manifest wt) true false (mkTime 63700000300 0)),
        None))
    (fun namespace wt =>
       if String.eqb (model.WorkflowTemplate.UID wt) "tpl-1"
       then (Some (model.WorkflowTemplate.mk "tpl-1" "train" 4
                     (model.WorkflowTemplate.Manifest wt) true false (mkTime 63700000400 0)),
             None)
       else (None, None))
    (fun namespace uid =>
       if String.eqb uid "tpl-1" then ([template; older], None)
       else ([], Some (OtherError "sql: connection refused")))
    (fun namespace => ([template], None)).

End fake.

(* ===================================================================== *)
(** * Decimal text: printing and parsing                                  *)
(* ===================================================================== *)

Section StrconvFacts.

Import Strconv.

Lemma digit_cases (d : Z) :
  0 <= d < 10 ->
  d = 0 \/ d = 1 \/ d = 2 \/ d = 3 \/ d = 4 \/ d = 5 \/ d = 6 \/ d = 7 \/ d = 8 \/ d = 9.
Proof. lia. Qed.

(** A digit written by the printer is read back as itself by the parser. *)
Lemma byte_digit_digit_byte (d : Z) :
  0 <= d < 10 -> byte_digit (byte_val (digit_byte d)) = Some d.
Proof.
  intros Hd.
  destruct (digit_cases d Hd) as [->|[->|[->|[->|[->|[->|[->|[->|[->| ->]]]]]]]]];
    reflexivity.
Qed.

(** ... and is neither sign. *)
Lemma digit_byte_not_sign (d : Z) :
  0 <= d < 10 ->
  Ascii.eqb (digit_byte d) "-" = false /\ Ascii.eqb (digit_byte d) "+" = false.
Proof.
  intros Hd.
  destruct (digit_cases d Hd) as [->|[->|[->|[->|[->|[->|[->|[->|[->| ->]]]]]]]]];
    split; reflexivity.
Qed.

Lemma cutoff10_value : cutoff10 = 1844674407370955162.
Proof. reflexivity. Qed.

(** One turn of the parser's loop on a digit that fits. *)
Lemma ParseUint_loop_digit (maxVal n d : Z) (s : string) :
  0 <= d < 10 -> 0 <= n -> n * 10 + d <= maxVal -> maxVal <= maxUint64 ->
  ParseUint_loop maxVal (String (digit_byte d) s) n
  = ParseUint_loop maxVal s (n * 10 + d).
Proof.
  intros Hd Hn Hfit Hmax.
  cbn [ParseUint_loop]. rewrite byte_digit_digit_byte by exact Hd.
  unfold maxUint64 in Hmax.
  assert (Hc : n < cutoff10) by (rewrite cutoff10_value; lia).
  destruct (Z.leb_spec 10 d); [lia|].
  destruct (Z.leb_spec cutoff10 n); [lia|].
  unfold uint64.
  rewrite (Z.mod_small (n * 10)) by lia.
  rewrite (Z.mod_small (n * 10 + d)) by lia.
  destruct (Z.ltb_spec (n * 10 + d) (n * 10)); [lia|].
  destruct (Z.ltb_spec maxVal (n * 10 + d)); [lia|].
  reflexivity.
Qed.

(** Parsing what the printer wrote in front of [buf] amounts to
    continuing on [buf] with the printed number. *)
Lemma ParseUint_loop_fmtInteger_digits (maxVal : Z) (fuel : nat) :
  maxVal <= maxUint64 ->
  forall (u : Z) (buf : string),
    0 <= u < 10 ^ Z.of_nat fuel -> u <= maxVal ->
    ParseUint_loop maxVal (fmtInteger_digits fuel u buf) 0
    = ParseUint_loop maxVal buf u.
Proof.
  intros Hmax. induction fuel as [|fuel IH]; intros u buf Hu Hfit.
  - cbn in Hu. assert (u = 0) by lia. subst u. reflexivity.
  - cbn [fmtInteger_digits].
    rewrite Nat2Z.inj_succ, Z.pow_succ_r in Hu by lia.
    destruct (Z.leb_spec 10 u) as [Hge|Hlt].
    + cbv zeta.
      assert (Hq0 : 0 <= u / 10) by (apply Z.div_pos; lia).
      assert (Hq1 : u / 10 < 10 ^ Z.of_nat fuel) by (apply Z.div_lt_upper_bound; lia).
      assert (Hq2 : u / 10 * 10 <= u) by (rewrite Z.mul_comm; apply Z.mul_div_le; lia).
      assert (Hq3 : u < u / 10 * 10 + 10).
      { pose proof (Z.mul_succ_div_gt u 10 ltac:(lia)). lia. }
      rewrite IH by lia.
      rewrite ParseUint_loop_digit by lia.
      f_equal. lia.
    + rewrite ParseUint_loop_digit by lia. f_equal.
Qed.

(** With fuel left, the printer always writes a digit first. *)
Lemma fmtInteger_digits_head (fuel : nat) :
  forall (u : Z) (buf : string),
    0 <= u < 10 ^ Z.of_nat (S fuel) ->
    exists d rest, 0 <= d < 10 /\
      fmtInteger_digits (S fuel) u buf = String (digit_byte d) rest.
Proof.
  induction fuel as [|fuel IH]; intros u buf Hu.
  - cbn in Hu. cbn [fmtInteger_digits].
    destruct (Z.leb_spec 10 u); [lia|]. exists u, buf. split; [lia|reflexivity].
  - rewrite Nat2Z.inj_succ, Z.pow_succ_r in Hu by lia.
    change (fmtInteger_digits (S (S fuel)) u buf) with
      (if 10 <=? u
       then fmtInteger_digits (S fuel) (u / 10) (String (digit_byte (u - u / 10 * 10)) buf)
       else String (digit_byte u) buf).
    destruct (Z.leb_spec 10 u).
    + apply IH. split; [apply Z.div_pos; lia | apply Z.div_lt_upper_bound; lia].
    + exists u, buf. split; [lia|reflexivity].
Qed.

Lemma ParseUint_32_nonempty (c : ascii) (s : string) :
  ParseUint (String c s) 32 = ParseUint_loop (2 ^ 32 - 1) (String c s) 0.
Proof. reflexivity. Qed.

(** The unsigned parser reads back what the printer wrote. *)
Lemma ParseUint_fmtInteger_digits (u : Z) :
  0 <= u <= 2 ^ 32 - 1 ->
  ParseUint (fmtInteger_digits 20 u "") 32 = (u, None).
Proof.
  intros Hu.
  destruct (fmtInteger_digits_head 19 u "") as (d & rest & Hd & Heq); [lia|].
  rewrite Heq, ParseUint_32_nonempty, <- Heq.
  rewrite ParseUint_loop_fmtInteger_digits; [reflexivity | | lia | lia].
  unfold maxUint64. lia.
Qed.

(** [strconv.ParseInt(fmt.Sprint(v), 10, 32)] is [v] without error, for
    every [int32] value [v]. *)
Lemma ParseInt_Sprint (v : Z) :
  in_int32 v -> ParseInt (Sprint v) 32 = (v, None).
Proof.
  unfold in_int32. intros Hv. unfold Sprint.
  destruct (Z.ltb_spec v 0) as [Hneg|Hpos].
  - assert (Hu : uint64 (- v) = - v) by (unfold uint64; apply Z.mod_small; lia).
    rewrite Hu. unfold ParseInt.
    change (Ascii.eqb "-" "-") with true. change (Ascii.eqb "-" "+") with false.
    cbv iota. rewrite ParseUint_fmtInteger_digits by lia.
    change (2 ^ (32 - 1)) with 2147483648.
    cbn [negb andb]. destruct (Z.ltb_spec 2147483648 (- v)); [lia|].
    f_equal. lia.
  - destruct (fmtInteger_digits_head 19 v "") as (d & rest & Hd & Heq); [lia|].
    destruct (digit_byte_not_sign d Hd) as [Hm Hp].
    unfold ParseInt. rewrite Heq. rewrite Hm, Hp. rewrite <- Heq.
    rewrite ParseUint_fmtInteger_digits by lia.
    change (2 ^ (32 - 1)) with 2147483648.
    cbn [negb andb]. destruct (Z.leb_spec 2147483648 v); [lia|]. reflexivity.
Qed.

(** The empty text does not parse. *)
Lemma ParseInt_empty (bitSize : Z) : ParseInt "" bitSize = (0, Some ErrSyntax).
Proof. reflexivity. Qed.

End StrconvFacts.

(* ===================================================================== *)
(** * The parser against the specification's notion of a number           *)
(* ===================================================================== *)

Section ParseRefinement.

Import Strconv.

(** Case analysis on every integer comparison of the goal. *)
Ltac split_comparisons :=
  repeat match goal with
         | |- context [Z.leb ?a ?b] => destruct (Z.leb_spec a b)
         | |- context [Z.ltb ?a ?b] => destruct (Z.ltb_spec a b)
         end.

(** A byte the specification counts as a digit is read as that digit;
    any other byte is rejected, directly or as a digit beyond the base. *)
Lemma byte_digit_is_digit (c : ascii) :
  if Spec.is_digit c
  then byte_digit (byte_val c) = Some (byte_val c - 48) /\ 0 <= byte_val c - 48 < 10
  else byte_digit (byte_val c) = None \/
       exists d, byte_digit (byte_val c) = Some d /\ 10 <= d.
Proof.
  unfold Spec.is_digit, byte_digit.
  destruct (Z.leb_spec 48 (byte_val c)), (Z.leb_spec (byte_val c) 57); cbn [andb];
    try (split; [reflexivity | lia]).
  all: destruct (Z.leb_spec 97 (lower (byte_val c))),
                (Z.leb_spec (lower (byte_val c)) 122); cbn [andb];
    try (left; reflexivity); right; eexists; (split; [reflexivity | lia]).
Qed.

Lemma byte_val_nonneg (c : ascii) : 0 <= byte_val c.
Proof. unfold byte_val. lia. Qed.

(** A run of digits is worth at least what it continues from. *)
Lemma digits_value_ge (s : string) :
  forall acc u, 0 <= acc -> Spec.digits_value s acc = Some u -> acc <= u.
Proof.
  induction s as [|c s IH]; intros acc u Hacc H; cbn [Spec.digits_value] in H.
  - inversion H. lia.
  - pose proof (byte_digit_is_digit c) as Hc.
    destruct (Spec.is_digit c); [|discriminate].
    destruct Hc as [_ Hd]. apply IH in H; lia.
Qed.

(** The loop of the unsigned parser computes the value of the digits, or
    reports that it exceeds [maxVal], or rejects a byte. *)
Lemma ParseUint_loop_refines (maxVal : Z) (s : string) :
  maxVal <= maxUint64 ->
  forall n, 0 <= n <= maxVal ->
    match Spec.digits_value s n with
    | Some u =>
        if u <=? maxVal then ParseUint_loop maxVal s n = (u, None)
        else ParseUint_loop maxVal s n = (maxVal, Some ErrRange)
    | None =>
        ParseUint_loop maxVal s n = (0, Some ErrSyntax) \/
        ParseUint_loop maxVal s n = (maxVal, Some ErrRange)
    end.
Proof.
  intros Hmax. unfold maxUint64 in Hmax.
  induction s as [|c s IH]; intros n Hn.
  - cbn. destruct (Z.leb_spec n maxVal); [reflexivity | lia].
  - cbn [Spec.digits_value ParseUint_loop].
    pose proof (byte_digit_is_digit c) as Hc.
    destruct (Spec.is_digit c).
    + destruct Hc as [-> Hd]. set (d := byte_val c - 48) in *.
      destruct (Z.leb_spec 10 d); [lia|].
      assert (Hover : maxVal < n * 10 + d ->
                match Spec.digits_value s (n * 10 + d) with
                | Some u =>
                    if u <=? maxVal then (maxVal, Some ErrRange) = (u, @None NumError)
                    else (maxVal, Some ErrRange) = (maxVal, Some ErrRange)
                | None =>
                    (maxVal, Some ErrRange) = (0, Some ErrSyntax) \/
                    (maxVal, Some ErrRange) = (maxVal, Some ErrRange)
                end).
      { intros Hbig. destruct (Spec.digits_value s (n * 10 + d)) as [u|] eqn:Hv.
        - apply digits_value_ge in Hv; [|lia].
          destruct (Z.leb_spec u maxVal); [lia | reflexivity].
        - right; reflexivity. }
      destruct (Z.leb_spec cutoff10 n) as [Hcut|Hcut].
      { apply Hover. rewrite cutoff10_value in Hcut. lia. }
      rewrite cutoff10_value in Hcut. unfold uint64.
      rewrite (Z.mod_small (n * 10)) by lia.
      destruct (Z.lt_ge_cases (n * 10 + d) (2 ^ 64)) as [Hsmall|Hwrap].
      * rewrite (Z.mod_small (n * 10 + d)) by lia.
        destruct (Z.ltb_spec (n * 10 + d) (n * 10)); [lia|].
        destruct (Z.ltb_spec maxVal (n * 10 + d)); cbn [orb].
        -- apply Hover; lia.
        -- apply IH; lia.
      * assert (Hm : (n * 10 + d) mod 2 ^ 64 = n * 10 + d - 2 ^ 64).
        { symmetry. apply Z.mod_unique with 1; lia. }
        rewrite Hm.
        destruct (Z.ltb_spec (n * 10 + d - 2 ^ 64) (n * 10)); [|lia].
        cbn [orb]. apply Hover; lia.
    + left. destruct Hc as [-> | (d & -> & Hd)]; [reflexivity|].
      destruct (Z.leb_spec 10 d); [reflexivity | lia].
Qed.

Lemma ParseUint_refines (s : string) :
  match Spec.unsigned_value s with
  | Some u =>
      0 <= u /\
      if u <=? 2 ^ 32 - 1 then ParseUint s 32 = (u, None)
      else ParseUint s 32 = (2 ^ 32 - 1, Some ErrRange)
  | None =>
      ParseUint s 32 = (0, Some ErrSyntax) \/
      ParseUint s 32 = (2 ^ 32 - 1, Some ErrRange)
  end.
Proof.
  destruct s as [|c s]; [left; reflexivity|].
  rewrite ParseUint_32_nonempty. unfold Spec.unsigned_value.
  pose proof (ParseUint_loop_refines (2 ^ 32 - 1) (String c s)
                ltac:(unfold maxUint64; lia) 0 ltac:(lia)) as H.
  destruct (Spec.digits_value (String c s) 0) as [u|] eqn:Hv; [|exact H].
  split; [|exact H]. apply digits_value_ge in Hv; lia.
Qed.

(** [strconv.ParseInt(s, 10, 32)] succeeds exactly on the texts the
    specification calls base-10 32-bit integers, with their value. *)
Lemma ParseInt_refines (s : string) :
  match Spec.base10_int32 s with
  | Some v => ParseInt s 32 = (v, None)
  | None => exists k e, ParseInt s 32 = (k, Some e)
  end.
Proof.
  destruct s as [|c rest]; [exists 0, ErrSyntax; reflexivity|].
  unfold Spec.base10_int32, ParseInt.
  set (digits := if Ascii.eqb c "-" || Ascii.eqb c "+" then rest else String c rest).
  assert (Hsame : (if Ascii.eqb c "+" then rest
                   else if Ascii.eqb c "-" then rest else String c rest) = digits).
  { unfold digits. destruct (Ascii.eqb c "-"), (Ascii.eqb c "+"); reflexivity. }
  rewrite Hsame. pose proof (ParseUint_refines digits) as H.
  change (2 ^ (32 - 1)) with 2147483648. change (2 ^ 31) with 2147483648.
  destruct (Spec.unsigned_value digits) as [u|].
  - destruct H as [Hu H]. destruct (Z.leb_spec u (2 ^ 32 - 1)) as [Hfit|Hbig].
    + rewrite H. destruct (Ascii.eqb c "-"); cbn [negb andb];
        split_comparisons; cbn [andb]; try lia; eauto.
    + rewrite H. destruct (Ascii.eqb c "-"); cbn [negb andb];
        split_comparisons; cbn [andb]; try lia; eauto.
  - destruct H as [-> | ->]; [eauto|].
    destruct (Ascii.eqb c "-"); cbn [negb andb]; eauto.
Qed.

Lemma ParseInt_ok_iff (s : string) (v : Z) :
  ParseInt s 32 = (v, None) <-> Spec.base10_int32 s = Some v.
Proof.
  pose proof (ParseInt_refines s) as H.
  destruct (Spec.base10_int32 s) as [w|].
  - rewrite H. split; intros E; inversion E; reflexivity.
  - destruct H as (k & e & ->). split; discriminate.
Qed.

End ParseRefinement.

(* ===================================================================== *)
(** * Correlation labels                                                  *)
(* ===================================================================== *)

(** Unfolding of the sequencing of outcomes. *)
Ltac step_outcome :=
  cbn [mbind mret outcome_bind outcome_ret Go.bind Go.deref Go.index].

(** The two label keys differ, whatever the prefix. *)
Lemma label_keys_distinct (p : string) :
  manager.workflowTemplateUIDLabelKey p <> manager.workflowTemplateVersionLabelKey p.
Proof.
  unfold manager.workflowTemplateUIDLabelKey, manager.workflowTemplateVersionLabelKey.
  induction p as [|a p IH]; cbn [String.append].
  - discriminate.
  - intros H. apply IH. injection H as H. exact H.
Qed.

Lemma map_get_lookup (m : gmap string string) (k v : string) :
  m !! k = Some v -> map_get m k = v.
Proof. unfold map_get. intros ->. reflexivity. Qed.

Lemma map_get_absent (m : gmap string string) (k : string) :
  m !! k = None -> map_get m k = "".
Proof. unfold map_get. intros ->. reflexivity. Qed.

(** What [stamp] leaves under the two keys. *)
Lemma stamp_lookup_uid (p : string) (labels : gmap string string) (uid : string) (v : Z) :
  manager.stamp p labels uid v !! manager.workflowTemplateUIDLabelKey p = Some uid.
Proof.
  unfold manager.stamp.
  rewrite lookup_insert_ne by (apply not_eq_sym, label_keys_distinct).
  apply lookup_insert_eq.
Qed.

Lemma stamp_lookup_version (p : string) (labels : gmap string string) (uid : string) (v : Z) :
  manager.stamp p labels uid v !! manager.workflowTemplateVersionLabelKey p
  = Some (Strconv.Sprint v).
Proof. unfold manager.stamp. apply lookup_insert_eq. Qed.

(** Every other label is left as it was. *)
Lemma stamp_lookup_other (p : string) (labels : gmap string string) (uid : string)
    (v : Z) (k : string) :
  k <> manager.workflowTemplateUIDLabelKey p ->
  k <> manager.workflowTemplateVersionLabelKey p ->
  manager.stamp p labels uid v !! k = labels !! k.
Proof.
  intros H1 H2. unfold manager.stamp.
  rewrite !lookup_insert_ne by (apply not_eq_sym; assumption). reflexivity.
Qed.

(** The options of the create call carry the stamped labels, starting
    from an empty label set, and the caller's parameters one for one. *)
Lemma createOptions_labels (p : string) (workflow : model.Workflow.t)
    (wt : model.WorkflowTemplate.t) :
  kube.WorkflowOptions.Labels (manager.createOptions p workflow wt)
  = Some (manager.stamp p ∅ (model.WorkflowTemplate.UID wt) (model.WorkflowTemplate.Version wt)).
Proof. reflexivity. Qed.

Lemma createOptions_parameters (p : string) (workflow : model.Workflow.t)
    (wt : model.WorkflowTemplate.t) :
  map (fun q => (kube.WorkflowParameter.Name q, kube.WorkflowParameter.Value q))
      (kube.WorkflowOptions.Parameters (manager.createOptions p workflow wt))
  = map (fun q => (model.Param.Name q, model.Param.Value q))
        (model.Workflow.Parameters workflow).
Proof.
  unfold manager.createOptions. cbn. rewrite map_map. reflexivity.
Qed.

(** C4.  Round trip through the correlation labels: for every label set,
    every template uid and every 32-bit version [v], reading back the two
    labels written by [stamp] gives the uid verbatim and the version [v]
    parsed without error from its decimal text; the conversion to
    [int32] that follows in [GetWorkflow] leaves [v] unchanged. *)
Theorem stamp_resolve_roundtrip (p : string) (labels : gmap string string)
    (uid : string) (v : Z) :
  in_int32 v ->
  manager.resolve p (manager.stamp p labels uid v) = (uid, (v, None))
  /\ int32 v = v.
Proof.
  intros Hv. split.
  - unfold manager.resolve.
    rewrite (map_get_lookup _ _ _ (stamp_lookup_uid p labels uid v)).
    rewrite (map_get_lookup _ _ _ (stamp_lookup_version p labels uid v)).
    rewrite ParseInt_Sprint by exact Hv. reflexivity.
  - unfold in_int32 in Hv. unfold int32.
    rewrite Z.mod_small by lia. lia.
Qed.

Lemma stamp_resolve_roundtrip_witness :
  in_int32 (- 2147483648)
  /\ (manager.resolve fake.labelKeyPrefix
        (manager.stamp fake.labelKeyPrefix ∅ "tpl-1" (- 2147483648))
      = ("tpl-1", (- 2147483648, None))
      /\ int32 (- 2147483648) = - 2147483648).
Proof.
  split.
  - unfold in_int32. lia.
  - apply (stamp_resolve_roundtrip fake.labelKeyPrefix ∅ "tpl-1" (- 2147483648)).
    unfold in_int32. lia.
Defined.

(* ===================================================================== *)
(** * GetWorkflow and GetWorkflowTemplate                                 *)
(* ===================================================================== *)

Section GetWorkflowFacts.

Variable labelKeyPrefix : string.
Variable json_Marshal : kube.WorkflowStatus.t -> string * option error.
Variable r : manager.ResourceManager.

(** The template lookup classifies: a store error is [Unknown], an
    absent template is [NotFound], and a template comes without error. *)
Lemma GetWorkflowTemplate_cases (namespace uid : string) (version : Z) :
  match repository.GetWorkflowTemplate (manager.workflowRepository r) namespace uid version with
  | (_, Some _) =>
      manager.GetWorkflowTemplate r namespace uid version
      = (None, Some (UserError codes.Unknown "Unknown error."))
  | (None, None) =>
      manager.GetWorkflowTemplate r namespace uid version
      = (None, Some (UserError codes.NotFound "Workflow template not found."))
  | (Some wt, None) =>
      manager.GetWorkflowTemplate r namespace uid version = (Some wt, None)
  end.
Proof.
  unfold manager.GetWorkflowTemplate.
  destruct (repository.GetWorkflowTemplate _ namespace uid version) as [[wt|] [e|]];
    reflexivity.
Qed.

(** It never returns a template together with an error, nor neither. *)
Lemma GetWorkflowTemplate_exclusive (namespace uid : string) (version : Z) :
  (exists wt, manager.GetWorkflowTemplate r namespace uid version = (Some wt, None))
  \/ (exists c m, manager.GetWorkflowTemplate r namespace uid version
                  = (None, Some (UserError c m))).
Proof.
  pose proof (GetWorkflowTemplate_cases namespace uid version) as H.
  destruct (repository.GetWorkflowTemplate _ namespace uid version) as [[wt|] [e|]];
    rewrite H; eauto.
Qed.

(** [GetWorkflow] fails with [InvalidArgument] as soon as the version
    label does not parse, whatever the reason. *)
Lemma GetWorkflow_unparsed (namespace name : string) (w : kube.Workflow.t)
    (k : Z) (e : Strconv.NumError) :
  kube.GetWorkflow (manager.kubeClient r) namespace name = (Some w, None) ->
  Strconv.ParseInt
    (map_get (kube.Workflow.Labels w) (manager.workflowTemplateVersionLabelKey labelKeyPrefix)) 32
  = (k, Some e) ->
  manager.GetWorkflow labelKeyPrefix json_Marshal r namespace name
  = Returns (None, Some (UserError codes.InvalidArgument "Invalid version number.")).
Proof.
  intros Hget Hparse. unfold manager.GetWorkflow, manager.resolve.
  rewrite Hget. step_outcome. rewrite Hparse. reflexivity.
Qed.

(** C5.  [GetWorkflow] on an instance the client cannot return fails with
    [NotFound]; on an existing instance whose version label is absent, or
    present but not the text of a base-10 32-bit integer, it fails with
    [InvalidArgument]. *)
Theorem GetWorkflow_error_kinds (namespace name : string) :
  (forall w0 e,
      kube.GetWorkflow (manager.kubeClient r) namespace name = (w0, Some e) ->
      manager.GetWorkflow labelKeyPrefix json_Marshal r namespace name
      = Returns (None, Some (UserError codes.NotFound "Workflow not found.")))
  /\
  (forall w,
      kube.GetWorkflow (manager.kubeClient r) namespace name = (Some w, None) ->
      (kube.Workflow.Labels w !! manager.workflowTemplateVersionLabelKey labelKeyPrefix = None
       \/ exists text,
            kube.Workflow.Labels w !! manager.workflowTemplateVersionLabelKey labelKeyPrefix
            = Some text
            /\ Spec.base10_int32 text = None) ->
      manager.GetWorkflow labelKeyPrefix json_Marshal r namespace name
      = Returns (None, Some (UserError codes.InvalidArgument "Invalid version number."))).
Proof.
  split.
  - intros w0 e Hget. unfold manager.GetWorkflow. rewrite Hget. reflexivity.
  - intros w Hget Hlabel.
    assert (Hnone : Spec.base10_int32
              (map_get (kube.Workflow.Labels w)
                 (manager.workflowTemplateVersionLabelKey labelKeyPrefix)) = None).
    { destruct Hlabel as [Habs | (text & Hsome & Hbad)].
      - rewrite (map_get_absent _ _ Habs). reflexivity.
      - rewrite (map_get_lookup _ _ _ Hsome). exact Hbad. }
    pose proof (ParseInt_refines
                  (map_get (kube.Workflow.Labels w)
                     (manager.workflowTemplateVersionLabelKey labelKeyPrefix))) as H.
    rewrite Hnone in H. destruct H as (k & e & Hparse).
    exact (GetWorkflow_unparsed namespace name w k e Hget Hparse).
Qed.

(** Whatever [GetWorkflow] returns, it is a workflow without an error or
    a user error without a workflow (or a panic, when the client returns
    neither an instance nor an error). *)
Lemma GetWorkflow_exclusive (namespace name : string) :
  (exists w, manager.GetWorkflow labelKeyPrefix json_Marshal r namespace name
             = Returns (Some w, None))
  \/ (exists c m, manager.GetWorkflow labelKeyPrefix json_Marshal r namespace name
                  = Returns (None, Some (UserError c m)))
  \/ manager.GetWorkflow labelKeyPrefix json_Marshal r namespace name
     = Panics NilDereference.
Proof.
  unfold manager.GetWorkflow.
  destruct (kube.GetWorkflow _ namespace name) as [w0 [e|]].
  { right; left. eauto. }
  destruct w0 as [w|]; step_outcome; [|right; right; reflexivity].
  destruct (manager.resolve labelKeyPrefix (kube.Workflow.Labels w)) as [uid [version [e|]]].
  { right; left. eauto. }
  destruct (GetWorkflowTemplate_exclusive namespace uid (int32 version))
    as [(wt & ->) | (c & m & ->)].
  - destruct (json_Marshal (kube.Workflow.Status w)) as [status [e|]].
    + right; left. eauto.
    + left. eauto.
  - right; left. eauto.
Qed.

End GetWorkflowFacts.

Lemma GetWorkflow_error_kinds_witness :
  manager.GetWorkflow fake.labelKeyPrefix fake.json_Marshal fake.resourceManager
    "default" "gone"
  = Returns (None, Some (UserError codes.NotFound "Workflow not found."))
  /\ manager.GetWorkflow fake.labelKeyPrefix fake.json_Marshal fake.resourceManager
       "default" "adhoc"
     = Returns (None, Some (UserError codes.InvalidArgument "Invalid version number.")).
Proof.
  destruct (GetWorkflow_error_kinds fake.labelKeyPrefix fake.json_Marshal
              fake.resourceManager "default" "gone") as [Hgone _].
  destruct (GetWorkflow_error_kinds fake.labelKeyPrefix fake.json_Marshal
              fake.resourceManager "default" "adhoc") as [_ Hadhoc].
  split.
  - apply (Hgone None (OtherError "workflows.argoproj.io not found")). reflexivity.
  - apply (Hadhoc fake.foreign); [reflexivity|].
    right. exists "latest". split; [vm_compute; reflexivity | reflexivity].
Defined.

(* ===================================================================== *)
(** * CreateWorkflow                                                      *)
(* ===================================================================== *)

Section CreateWorkflowFacts.

Variable labelKeyPrefix : string.
Variable r : manager.ResourceManager.

(** C9.  When the referenced template exists and the client's create call
    (given the template's manifest and the options with the stamped
    labels and forwarded parameters) succeeds, [CreateWorkflow] returns,
    without error, the caller's workflow with the name and uid of the
    created instance and with the resolved template attached, equal to
    the stored one in every field except the manifest, which is empty.
    When the store has no such template, it fails with [NotFound]. *)
Theorem CreateWorkflow_result (namespace : string) (workflow : model.Workflow.t)
    (ref : model.WorkflowTemplate.t) :
  model.Workflow.WorkflowTemplate workflow = Some ref ->
  (forall wt created rest,
      repository.GetWorkflowTemplate (manager.workflowRepository r) namespace
        (model.WorkflowTemplate.UID ref) (model.WorkflowTemplate.Version ref)
      = (Some wt, None) ->
      kube.CreateWorkflow (manager.kubeClient r) namespace
        (model.WorkflowTemplate.GetManifestBytes wt)
        (manager.createOptions labelKeyPrefix workflow wt)
      = (created :: rest, None) ->
      exists w t,
        manager.CreateWorkflow labelKeyPrefix r namespace workflow = Returns (Some w, None)
        /\ model.Workflow.Name w = kube.Workflow.Name created
        /\ model.Workflow.UID w = kube.Workflow.UID created
        /\ model.Workflow.Parameters w = model.Workflow.Parameters workflow
        /\ model.Workflow.WorkflowTemplate w = Some t
        /\ model.WorkflowTemplate.Manifest t = ""
        /\ model.WorkflowTemplate.UID t = model.WorkflowTemplate.UID wt
        /\ model.WorkflowTemplate.Name t = model.WorkflowTemplate.Name wt
        /\ model.WorkflowTemplate.Version t = model.WorkflowTemplate.Version wt
        /\ model.WorkflowTemplate.IsLatest t = model.WorkflowTemplate.IsLatest wt
        /\ model.WorkflowTemplate.IsArchived t = model.WorkflowTemplate.IsArchived wt
        /\ model.WorkflowTemplate.CreatedAt t = model.WorkflowTemplate.CreatedAt wt)
  /\
  (repository.GetWorkflowTemplate (manager.workflowRepository r) namespace
     (model.WorkflowTemplate.UID ref) (model.WorkflowTemplate.Version ref)
   = (None, None) ->
   manager.CreateWorkflow labelKeyPrefix r namespace workflow
   = Returns (None, Some (UserError codes.NotFound "Workflow template not found."))).
Proof.
  intros Href. split.
  - intros wt created rest Hstore Hcreate.
    unfold manager.CreateWorkflow. rewrite Href. step_outcome.
    unfold manager.GetWorkflowTemplate. rewrite Hstore. step_outcome.
    rewrite Hcreate. step_outcome. cbn [lookup list_lookup].
    eexists _, _. split; [reflexivity|]. cbn. repeat split; reflexivity.
  - intros Hstore.
    unfold manager.CreateWorkflow. rewrite Href. step_outcome.
    unfold manager.GetWorkflowTemplate. rewrite Hstore. reflexivity.
Qed.

(** An error of the client's create call leaves [CreateWorkflow] as it
    came, whatever its dynamic type. *)
Lemma CreateWorkflow_client_error (namespace : string) (workflow : model.Workflow.t)
    (ref wt : model.WorkflowTemplate.t) (created : list kube.Workflow.t) (e : error) :
  model.Workflow.WorkflowTemplate workflow = Some ref ->
  repository.GetWorkflowTemplate (manager.workflowRepository r) namespace
    (model.WorkflowTemplate.UID ref) (model.WorkflowTemplate.Version ref)
  = (Some wt, None) ->
  kube.CreateWorkflow (manager.kubeClient r) namespace
    (model.WorkflowTemplate.GetManifestBytes wt)
    (manager.createOptions labelKeyPrefix workflow wt)
  = (created, Some e) ->
  manager.CreateWorkflow labelKeyPrefix r namespace workflow = Returns (None, Some e).
Proof.
  intros Href Hstore Hcreate.
  unfold manager.CreateWorkflow. rewrite Href. step_outcome.
  unfold manager.GetWorkflowTemplate. rewrite Hstore. step_outcome.
  rewrite Hcreate. reflexivity.
Qed.

End CreateWorkflowFacts.

Lemma CreateWorkflow_result_witness :
  (exists w t,
      manager.CreateWorkflow fake.labelKeyPrefix fake.resourceManager "default" fake.createWorkflow
      = Returns (Some w, None)
      /\ model.Workflow.Name w = "train-x7k2p"
      /\ model.Workflow.UID w = "uid-42"
      /\ model.Workflow.WorkflowTemplate w = Some t
      /\ model.WorkflowTemplate.Manifest t = ""
      /\ model.WorkflowTemplate.Version t = 3)
  /\ manager.CreateWorkflow fake.labelKeyPrefix fake.resourceManager "default"
       (model.Workflow.mk "" "" "" zeroTime zeroTime "" "" []
          (Some (model.WorkflowTemplate.mk "tpl-9" "" 1 "" false false zeroTime)))
     = Returns (None, Some (UserError codes.NotFound "Workflow template not found.")).
Proof.
  split.
  - destruct (CreateWorkflow_result fake.labelKeyPrefix fake.resourceManager "default"
                fake.createWorkflow
                (model.WorkflowTemplate.mk "tpl-1" "" 3 "" false false zeroTime)
                eq_refl) as [Hok _].
    destruct (Hok fake.template (fake.instance fake.running) [] eq_refl eq_refl)
      as (w & t & Hret & Hname & Huid & _ & Ht & Hm & _ & _ & Hv & _).
    exists w, t. repeat split; assumption.
  - destruct (CreateWorkflow_result fake.labelKeyPrefix fake.resourceManager "default"
                (model.Workflow.mk "" "" "" zeroTime zeroTime "" "" []
                   (Some (model.WorkflowTemplate.mk "tpl-9" "" 1 "" false false zeroTime)))
                (model.WorkflowTemplate.mk "tpl-9" "" 1 "" false false zeroTime)
                eq_refl) as [_ Habsent].
    apply Habsent. reflexivity.
Defined.

(* ===================================================================== *)
(** * WatchWorkflow: opening the stream                                   *)
(* ===================================================================== *)

Section WatchOpenFacts.

Variable labelKeyPrefix : string.
Variable json_Marshal : kube.WorkflowStatus.t -> string * option error.
Variable r : manager.ResourceManager.

(** C8 (as amended).  If the initial fetch fails, for whatever reason,
    [WatchWorkflow] returns no channel and the error [NotFound]
    ("Workflow template not found."); if the fetch succeeds and the
    subscription cannot be opened, it returns no channel and the error
    [Unknown].  In both cases the error is the one [WatchWorkflow]
    builds, not the one it received. *)
Theorem WatchWorkflow_open_failure (namespace name : string) :
  (forall w e,
      manager.GetWorkflow labelKeyPrefix json_Marshal r namespace name = Returns (w, Some e) ->
      manager.WatchWorkflow labelKeyPrefix json_Marshal r namespace name
      = Returns (None, Some (UserError codes.NotFound "Workflow template not found.")))
  /\
  (forall w sub e,
      manager.GetWorkflow labelKeyPrefix json_Marshal r namespace name = Returns (w, None) ->
      kube.WatchWorkflow (manager.kubeClient r) namespace name = (sub, Some e) ->
      manager.WatchWorkflow labelKeyPrefix json_Marshal r namespace name
      = Returns (None, Some (UserError codes.Unknown "Unknown error."))).
Proof.
  split.
  - intros w e Hget. unfold manager.WatchWorkflow. rewrite Hget. reflexivity.
  - intros w sub e Hget Hwatch. unfold manager.WatchWorkflow.
    rewrite Hget. step_outcome. rewrite Hwatch. reflexivity.
Qed.

(** The selector of a narrowed listing is the uid label key, an equals
    sign and the uid. *)
Lemma ListWorkflows_selector (uid : string) :
  labelKeyPrefix +:+ ("workflow-template-uid=" +:+ uid)
  = manager.workflowTemplateUIDLabelKey labelKeyPrefix +:+ ("=" +:+ uid).
Proof.
  unfold manager.workflowTemplateUIDLabelKey.
  induction labelKeyPrefix as [|a p IH]; [reflexivity|].
  change (String a p +:+ ("workflow-template-uid=" +:+ uid))
    with (String a (p +:+ ("workflow-template-uid=" +:+ uid))).
  rewrite IH. reflexivity.
Qed.

(** A listing keeps the name and uid of each instance, in order, or
    fails with [NotFound] and no entries. *)
Lemma manager_ListWorkflows_cases (namespace uid : string) :
  (exists opts wfs,
      kube.ListWorkflows (manager.kubeClient r) namespace opts = (wfs, None)
      /\ manager.ListWorkflows labelKeyPrefix r namespace uid
         = (map (fun wf =>
                   model.Workflow.mk (kube.Workflow.UID wf) (kube.Workflow.Name wf) ""
                     zeroTime zeroTime "" "" [] None) wfs,
            None))
  \/ manager.ListWorkflows labelKeyPrefix r namespace uid
     = ([], Some (UserError codes.NotFound "Workflows not found.")).
Proof.
  unfold manager.ListWorkflows.
  match goal with
  | |- context [kube.ListWorkflows ?c ?n ?o] =>
      destruct (kube.ListWorkflows c n o) as [wfs [e|]] eqn:Hlist
  end.
  - right. reflexivity.
  - left. eexists _, wfs. split; [exact Hlist | reflexivity].
Qed.

(** A bridge is handed out only with the fetched workflow in it. *)
Lemma WatchWorkflow_bridge (namespace name : string) (b : manager.Bridge) (e : option error) :
  manager.WatchWorkflow labelKeyPrefix json_Marshal r namespace name = Returns (Some b, e) ->
  e = None
  /\ manager.watcher b = fst (kube.WatchWorkflow (manager.kubeClient r) namespace name)
  /\ exists w, manager.wf b = Some w
       /\ manager.GetWorkflow labelKeyPrefix json_Marshal r namespace name
          = Returns (Some w, None).
Proof.
  unfold manager.WatchWorkflow.
  destruct (GetWorkflow_exclusive labelKeyPrefix json_Marshal r namespace name)
    as [(w & Hget) | [(c & m & Hget) | Hget]]; rewrite Hget; step_outcome;
    try discriminate.
  destruct (kube.WatchWorkflow _ namespace name) as [sub [e'|]]; [discriminate|].
  intros H. inversion H. subst. cbn. eauto.
Qed.

End WatchOpenFacts.

Lemma WatchWorkflow_open_failure_witness :
  manager.WatchWorkflow fake.labelKeyPrefix fake.json_Marshal fake.resourceManager
    "default" "adhoc"
  = Returns (None, Some (UserError codes.NotFound "Workflow template not found."))
  /\ manager.WatchWorkflow fake.labelKeyPrefix fake.json_Marshal fake.unwatched
       "default" "train-x7k2p"
     = Returns (None, Some (UserError codes.Unknown "Unknown error.")).
Proof.
  split.
  - destruct (WatchWorkflow_open_failure fake.labelKeyPrefix fake.json_Marshal
                fake.resourceManager "default" "adhoc") as [Hfetch _].
    apply (Hfetch None (UserError codes.InvalidArgument "Invalid version number.")).
    vm_compute. reflexivity.
  - destruct (WatchWorkflow_open_failure fake.labelKeyPrefix fake.json_Marshal
                fake.unwatched "default" "train-x7k2p") as [_ Hsub].
    apply (Hsub (Some (manager.snapshot (fake.instance fake.running) "{Running}"
                         (Some fake.template)))
                None (OtherError "too many open watches")).
    + vm_compute. reflexivity.
    + reflexivity.
Defined.

(** C8, as stated, fails: on an instance with a malformed version label
    the fetch fails with [InvalidArgument], and [WatchWorkflow] does not
    return that error. *)
Lemma WatchWorkflow_replaces_fetch_error :
  ~ (forall namespace name w e,
        manager.GetWorkflow fake.labelKeyPrefix fake.json_Marshal fake.resourceManager
          namespace name = Returns (w, Some e) ->
        manager.WatchWorkflow fake.labelKeyPrefix fake.json_Marshal fake.resourceManager
          namespace name = Returns (None, Some e)).
Proof.
  intros H.
  specialize (H "default" "adhoc" None
                (UserError codes.InvalidArgument "Invalid version number.")).
  assert (Hget : manager.GetWorkflow fake.labelKeyPrefix fake.json_Marshal
                   fake.resourceManager "default" "adhoc"
                 = Returns (None, Some (UserError codes.InvalidArgument
                                          "Invalid version number.")))
    by (vm_compute; reflexivity).
  specialize (H Hget). vm_compute in H. discriminate H.
Qed.

(* ===================================================================== *)
(** * The stream goroutine                                                *)
(* ===================================================================== *)

Section BridgeFacts.

Variable json_Marshal : kube.WorkflowStatus.t -> string * option error.
Variable b : manager.Bridge.

(** The bridge was handed out with a subscription and the fetched
    workflow (see [WatchWorkflow_bridge]). *)
Variable sub : kube.Watcher.
Variable fetched : model.Workflow.t.
Hypothesis bridge_watcher : manager.watcher b = Some sub.
Hypothesis bridge_wf : manager.wf b = Some fetched.

Local Abbreviation iteration := (manager.iteration json_Marshal b).
Local Abbreviation run := (manager.run json_Marshal b).
Local Abbreviation pushed := (manager.pushed fetched).

(** The three ways a turn of the loop can go. *)
Lemma iteration_nothing_held (workflow : option kube.Workflow.t) (sel : manager.Select) :
  manager.selected workflow sel = None ->
  iteration workflow sel = Returns (manager.Streaming None, []).
Proof.
  intros Hsel. unfold manager.iteration. rewrite bridge_watcher. step_outcome.
  rewrite Hsel. reflexivity.
Qed.

Lemma iteration_unfinished (workflow : option kube.Workflow.t) (sel : manager.Select)
    (w : kube.Workflow.t) (status : string) :
  manager.selected workflow sel = Some w ->
  json_Marshal (kube.Workflow.Status w) = (status, None) ->
  IsZero (kube.WorkflowStatus.FinishedAt (kube.Workflow.Status w)) = true ->
  iteration workflow sel = Returns (manager.Streaming (Some w), [pushed w status]).
Proof.
  intros Hsel Hjson Hzero. unfold manager.iteration. rewrite bridge_watcher. step_outcome.
  rewrite Hsel, Hjson, bridge_wf. step_outcome. rewrite Hzero. reflexivity.
Qed.

Lemma iteration_finished (workflow : option kube.Workflow.t) (sel : manager.Select)
    (w : kube.Workflow.t) (status : string) :
  manager.selected workflow sel = Some w ->
  json_Marshal (kube.Workflow.Status w) = (status, None) ->
  IsZero (kube.WorkflowStatus.FinishedAt (kube.Workflow.Status w)) = false ->
  iteration workflow sel
  = Returns (manager.Closed, [pushed w status; manager.CloseChannel; manager.StopWatcher]).
Proof.
  intros Hsel Hjson Hzero. unfold manager.iteration. rewrite bridge_watcher. step_outcome.
  rewrite Hsel, Hjson, bridge_wf. step_outcome. rewrite Hzero. reflexivity.
Qed.

Lemma iteration_unserializable (workflow : option kube.Workflow.t) (sel : manager.Select)
    (w : kube.Workflow.t) (status : string) (e : error) :
  manager.selected workflow sel = Some w ->
  json_Marshal (kube.Workflow.Status w) = (status, Some e) ->
  iteration workflow sel = Returns (manager.Streaming (Some w), []).
Proof.
  intros Hsel Hjson. unfold manager.iteration. rewrite bridge_watcher. step_outcome.
  rewrite Hsel, Hjson. reflexivity.
Qed.

(** A turn never panics on such a bridge, and what it does is one of:
    nothing; one push; one push, the close and the stop. *)
Lemma iteration_shapes (workflow : option kube.Workflow.t) (sel : manager.Select) :
  exists st out, iteration workflow sel = Returns (st, out) /\
    (out = [] /\ st = manager.Streaming (manager.selected workflow sel)
     \/ exists w status,
          manager.selected workflow sel = Some w /\
          json_Marshal (kube.Workflow.Status w) = (status, None) /\
          (out = [pushed w status] /\ st = manager.Streaming (Some w) /\
           IsZero (kube.WorkflowStatus.FinishedAt (kube.Workflow.Status w)) = true
           \/ out = [pushed w status; manager.CloseChannel; manager.StopWatcher] /\
              st = manager.Closed /\
              IsZero (kube.WorkflowStatus.FinishedAt (kube.Workflow.Status w)) = false)).
Proof.
  destruct (manager.selected workflow sel) as [w|] eqn:Hsel.
  - destruct (json_Marshal (kube.Workflow.Status w)) as [status [e|]] eqn:Hjson.
    + eexists _, _. split; [exact (iteration_unserializable _ _ _ _ _ Hsel Hjson)|].
      left. split; reflexivity.
    + destruct (IsZero (kube.WorkflowStatus.FinishedAt (kube.Workflow.Status w))) eqn:Hz.
      * eexists _, _. split; [exact (iteration_unfinished _ _ _ _ Hsel Hjson Hz)|].
        right. exists w, status. split; [reflexivity|]. split; [exact Hjson|].
        left. repeat split; trivial.
      * eexists _, _. split; [exact (iteration_finished _ _ _ _ Hsel Hjson Hz)|].
        right. exists w, status. split; [reflexivity|]. split; [exact Hjson|].
        right. repeat split; trivial.
  - eexists _, _. split; [exact (iteration_nothing_held _ _ Hsel)|].
    left. split; reflexivity.
Qed.

(** Past the loop nothing happens any more. *)
Lemma run_Closed (sels : list manager.Select) :
  run manager.Closed sels = Returns (manager.Closed, []).
Proof. destruct sels; reflexivity. Qed.

Lemma run_nil (st : manager.LoopState) : run st [] = Returns (st, []).
Proof. destruct st; reflexivity. Qed.

Lemma run_cons (workflow : option kube.Workflow.t) (sel : manager.Select)
    (sels : list manager.Select) (st : manager.LoopState) (out : list manager.Effect) :
  iteration workflow sel = Returns (st, out) ->
  run (manager.Streaming workflow) (sel :: sels)
  = '(st', out') ← run st sels; mret (st', (out ++ out')%list).
Proof. intros H. cbn [manager.run]. rewrite H. reflexivity. Qed.

(** A run over [sels1 ++ sels2] is the run over [sels1] continued over
    [sels2]. *)
Lemma run_app (sels1 sels2 : list manager.Select) :
  forall st st1 out1,
    run st sels1 = Returns (st1, out1) ->
    run st (sels1 ++ sels2)
    = '(st2, out2) ← run st1 sels2; mret (st2, (out1 ++ out2)%list).
Proof.
  induction sels1 as [|sel sels1 IH]; intros st st1 out1 Hrun.
  - rewrite run_nil in Hrun. inversion Hrun; subst. cbn [app].
    destruct (run st1 sels2) as [[st2 out2]|]; reflexivity.
  - destruct st as [workflow|].
    + cbn [manager.run app] in *.
      destruct (iteration workflow sel) as [[st' out]|]; [|discriminate].
      step_outcome. cbn [mbind outcome_bind Go.bind] in Hrun.
      destruct (run st' sels1) as [[st'' out']|] eqn:Hrest; [|discriminate].
      cbn in Hrun. inversion Hrun; subst.
      rewrite (IH _ _ _ Hrest).
      destruct (run st1 sels2) as [[st2 out2]|]; cbn; [|reflexivity].
      rewrite app_assoc. reflexivity.
    + rewrite run_Closed in Hrun. inversion Hrun; subst.
      rewrite !run_Closed. reflexivity.
Qed.

(** The loop is left only through the close and the stop: a run still in
    the loop has done neither. *)
Lemma run_streaming_no_close (sels : list manager.Select) :
  forall st workflow out,
    run st sels = Returns (manager.Streaming workflow, out) ->
    ~ In manager.CloseChannel out /\ ~ In manager.StopWatcher out.
Proof.
  induction sels as [|sel sels IH]; intros st workflow out Hrun.
  - rewrite run_nil in Hrun. inversion Hrun. split; intros [].
  - destruct st as [held|]; [|rewrite run_Closed in Hrun; discriminate].
    destruct (iteration_shapes held sel) as (st' & o & Hit & Hshape).
    rewrite (run_cons _ _ _ _ _ Hit) in Hrun.
    destruct (run st' sels) as [[st'' o']|] eqn:Hrest; [|discriminate].
    cbn in Hrun. inversion Hrun; subst.
    destruct Hshape as [[-> ->] | (w & status & _ & _ & [(-> & -> & _) | (-> & -> & _)])].
    + cbn [app]. exact (IH _ _ _ Hrest).
    + destruct (IH _ _ _ Hrest) as [H1 H2].
      split; intros [Hin | Hin]; try discriminate; auto.
    + rewrite run_Closed in Hrest. discriminate.
Qed.


(** C6 (as amended).  In the goroutine of the manager's [WatchWorkflow]:
    as long as every turn is a tick or an event without a workflow
    object, nothing is pushed and the loop goes on; and a turn pushes a
    snapshot only if an object is held after its [select]. *)
Theorem no_push_until_object_held :
  (forall sels,
      Forall (fun sel => manager.selected None sel = None) sels ->
      run (manager.Streaming None) sels = Returns (manager.Streaming None, []))
  /\
  (forall workflow sel st out x,
      iteration workflow sel = Returns (st, out) ->
      In (manager.Push x) out ->
      exists w, manager.selected workflow sel = Some w).
Proof.
  split.
  - intros sels Hall. induction Hall as [|sel sels Hsel _ IH]; [reflexivity|].
    rewrite (run_cons _ _ _ _ _ (iteration_nothing_held _ _ Hsel)), IH. reflexivity.
  - intros workflow sel st out x Hit Hin.
    destruct (manager.selected workflow sel) as [w|] eqn:Hsel; [eauto|].
    rewrite (iteration_nothing_held _ _ Hsel) in Hit. inversion Hit; subst.
    destruct Hin.
Qed.

(** Ticks with nothing held change nothing. *)
Lemma run_ticks_nothing_held (n : nat) :
  run (manager.Streaming None) (replicate n manager.Tick)
  = Returns (manager.Streaming None, []).
Proof.
  induction n as [|n IH]; [reflexivity|]. cbn [replicate].
  rewrite (run_cons _ _ _ _ _ (iteration_nothing_held None manager.Tick eq_refl)), IH.
  reflexivity.
Qed.

(** C10.  An event whose payload is not a workflow object puts nil in
    place of the held object: that turn and any number of ticks after it
    push nothing and leave the loop running with nothing held, and from
    there on the goroutine behaves as if it had never held an object. *)
Theorem malformed_event_drops_held (held : option kube.Workflow.t) (n : nat) :
  run (manager.Streaming held) (manager.Event kube.OtherObject :: replicate n manager.Tick)
  = Returns (manager.Streaming None, [])
  /\
  forall sels,
    run (manager.Streaming held)
        (manager.Event kube.OtherObject :: replicate n manager.Tick ++ sels)
    = run (manager.Streaming None) sels.
Proof.
  assert (Hrun : run (manager.Streaming held)
                   (manager.Event kube.OtherObject :: replicate n manager.Tick)
                 = Returns (manager.Streaming None, [])).
  { rewrite (run_cons _ _ _ _ _
               (iteration_nothing_held held (manager.Event kube.OtherObject) eq_refl)).
    rewrite run_ticks_nothing_held. reflexivity. }
  split; [exact Hrun|].
  intros sels. rewrite app_comm_cons, (run_app _ _ _ _ _ Hrun).
  destruct (run (manager.Streaming None) sels) as [[st out]|]; reflexivity.
Qed.

(** Liveness of the loop on ticks: an unfinished held object is pushed
    again on every tick and the loop goes on. *)
Lemma run_ticks_unfinished (w : kube.Workflow.t) (status : string) (n : nat) :
  json_Marshal (kube.Workflow.Status w) = (status, None) ->
  IsZero (kube.WorkflowStatus.FinishedAt (kube.Workflow.Status w)) = true ->
  run (manager.Streaming (Some w)) (replicate n manager.Tick)
  = Returns (manager.Streaming (Some w), replicate n (pushed w status)).
Proof.
  intros Hjson Hz. induction n as [|n IH]; [reflexivity|]. cbn [replicate].
  rewrite (run_cons _ _ _ _ _ (iteration_unfinished (Some w) manager.Tick w status
                                 eq_refl Hjson Hz)), IH.
  reflexivity.
Qed.

End BridgeFacts.


Lemma no_push_until_object_held_witness :
  manager.run fake.json_Marshal fake.bridge (manager.Streaming None)
    [manager.Tick; manager.Event kube.OtherObject; manager.Tick]
  = Returns (manager.Streaming None, [])
  /\ exists w,
       manager.selected None (manager.Event (kube.WorkflowObject (fake.instance fake.running)))
       = Some w.
Proof.
  destruct (no_push_until_object_held fake.json_Marshal fake.bridge
              (kube.watch "default" "train-x7k2p") eq_refl) as [Hquiet Honly].
  split.
  - apply Hquiet. repeat constructor.
  - apply (Honly None (manager.Event (kube.WorkflowObject (fake.instance fake.running)))
             (manager.Streaming (Some (fake.instance fake.running)))
             [manager.pushed (manager.snapshot (fake.instance fake.running) "{Running}"
                                (Some fake.template))
                (fake.instance fake.running) "{Running}"]
             (manager.snapshot (fake.instance fake.running) "{Running}" (Some fake.template))).
    + reflexivity.
    + left. reflexivity.
Defined.

Lemma malformed_event_drops_held_witness :
  manager.run fake.json_Marshal fake.bridge
    (manager.Streaming (Some (fake.instance fake.running)))
    (manager.Event kube.OtherObject :: replicate 3 manager.Tick)
  = Returns (manager.Streaming None, []).
Proof.
  apply (malformed_event_drops_held fake.json_Marshal fake.bridge
           (kube.watch "default" "train-x7k2p") eq_refl
           (Some (fake.instance fake.running)) 3).
Defined.

(* ===================================================================== *)
(** * The server in front of the manager                                  *)
(* ===================================================================== *)

Section ServerFacts.

Variable labelKeyPrefix : string.
Variable json_Marshal : kube.WorkflowStatus.t -> string * option error.
Variable r : manager.ResourceManager.

(** [apiWorkflow] panics exactly on nil. *)
Lemma apiWorkflow_nil : server.apiWorkflow None = Panics NilDereference.
Proof. reflexivity. Qed.

Lemma apiWorkflow_some (w : model.Workflow.t) :
  exists a, server.apiWorkflow (Some w) = Returns a
            /\ api.Workflow.Name a = model.Workflow.Name w
            /\ api.Workflow.Uid a = model.Workflow.UID w.
Proof. eexists. split; [reflexivity|]. split; reflexivity. Qed.

(** A user error of the manager comes out of [CreateWorkflow] as the
    gRPC error of the same code, with no workflow. *)
Lemma server_CreateWorkflow_user_error (req : api.CreateWorkflowRequest.t)
    (reqWorkflow : api.Workflow.t) (reqTemplate : api.WorkflowTemplate.t)
    (w : option model.Workflow.t) (c : codes.Code) (m : string) :
  api.CreateWorkflowRequest.Workflow req = Some reqWorkflow ->
  api.Workflow.WorkflowTemplate reqWorkflow = Some reqTemplate ->
  manager.CreateWorkflow labelKeyPrefix r (api.CreateWorkflowRequest.Namespace req)
    (server.newWorkflow reqWorkflow reqTemplate) = Returns (w, Some (UserError c m)) ->
  server.CreateWorkflow labelKeyPrefix r req = Returns (None, Some (StatusError c m)).
Proof.
  intros Hw Ht Hm. unfold server.CreateWorkflow.
  rewrite Hw. step_outcome. rewrite Ht. step_outcome. rewrite Hm. reflexivity.
Qed.

(** Any other error of the manager is not looked at: [CreateWorkflow]
    goes on to convert the workflow, which is nil. *)
Lemma server_CreateWorkflow_other_error (req : api.CreateWorkflowRequest.t)
    (reqWorkflow : api.Workflow.t) (reqTemplate : api.WorkflowTemplate.t) (e : error) :
  api.CreateWorkflowRequest.Workflow req = Some reqWorkflow ->
  api.Workflow.WorkflowTemplate reqWorkflow = Some reqTemplate ->
  manager.CreateWorkflow labelKeyPrefix r (api.CreateWorkflowRequest.Namespace req)
    (server.newWorkflow reqWorkflow reqTemplate) = Returns (None, Some e) ->
  As_userError (Some e) = None ->
  server.CreateWorkflow labelKeyPrefix r req = Panics NilDereference.
Proof.
  intros Hw Ht Hm Has. unfold server.CreateWorkflow.
  rewrite Hw. step_outcome. rewrite Ht. step_outcome. rewrite Hm. step_outcome.
  rewrite Has. reflexivity.
Qed.

(** [GetWorkflow] returns a workflow without an error, or a gRPC error
    without a workflow; the one panic is the client answering with
    neither an instance nor an error. *)
Lemma server_GetWorkflow_exclusive (req : api.GetWorkflowRequest.t) :
  (exists a, server.GetWorkflow labelKeyPrefix json_Marshal r req = Returns (Some a, None))
  \/ (exists c m, server.GetWorkflow labelKeyPrefix json_Marshal r req
                  = Returns (None, Some (StatusError c m)))
  \/ server.GetWorkflow labelKeyPrefix json_Marshal r req = Panics NilDereference.
Proof.
  unfold server.GetWorkflow.
  destruct (GetWorkflow_exclusive labelKeyPrefix json_Marshal r
              (api.GetWorkflowRequest.Namespace req) (api.GetWorkflowRequest.Name req))
    as [(w & ->) | [(c & m & ->) | ->]]; step_outcome.
  - left. eexists. reflexivity.
  - right; left. exists c, m. reflexivity.
  - right; right. reflexivity.
Qed.

(** A malformed version label reaches the caller of the server as the
    gRPC error [InvalidArgument], with no workflow. *)
Lemma server_GetWorkflow_malformed_version (req : api.GetWorkflowRequest.t)
    (w : kube.Workflow.t) (text : string) :
  kube.GetWorkflow (manager.kubeClient r) (api.GetWorkflowRequest.Namespace req)
    (api.GetWorkflowRequest.Name req) = (Some w, None) ->
  kube.Workflow.Labels w !! manager.workflowTemplateVersionLabelKey labelKeyPrefix
  = Some text ->
  Spec.base10_int32 text = None ->
  server.GetWorkflow labelKeyPrefix json_Marshal r req
  = Returns (None, Some (StatusError codes.InvalidArgument "Invalid version number.")).
Proof.
  intros Hget Hlabel Hbad. unfold server.GetWorkflow.
  pose proof (ParseInt_refines text) as Hparse. rewrite Hbad in Hparse.
  destruct Hparse as (k & e & Hparse).
  rewrite (GetWorkflow_unparsed labelKeyPrefix json_Marshal r _ _ w k e Hget).
  - reflexivity.
  - rewrite (map_get_lookup _ _ _ Hlabel). exact Hparse.
Qed.

(** The relay as the channel closes: receiving nil ends it at once,
    without a send and without an error. *)
Lemma relay_closed_channel (wf : option model.Workflow.t) (e : option error)
    (turns : list server.Turn) :
  server.relay (server.Relaying wf) (server.mkTurn (server.Receive None) e :: turns)
  = Returns (server.Returned None, []).
Proof. destruct turns; reflexivity. Qed.

(** On its own tick the relay sends again whatever it holds. *)
Lemma relay_tick_resends (w : model.Workflow.t) :
  exists a,
    server.apiWorkflow (Some w) = Returns a /\
    server.relay (server.Relaying (Some w)) [server.mkTurn server.Tick None]
    = Returns (server.Relaying (Some w), [server.Send a]).
Proof. eexists. split; reflexivity. Qed.

End ServerFacts.

(** The relay on a stream that ends: the last snapshot is sent once, and
    the nil received from the closed channel ends the call without error. *)
Example relay_terminal_then_closed :
  exists a,
    server.apiWorkflow
      (Some (manager.snapshot (fake.instance fake.succeeded) "{Succeeded}"
               (Some fake.template))) = Returns a
    /\ server.relay (server.Relaying (Some model.Workflow.zero))
         [server.mkTurn
            (server.Receive
               (Some (manager.snapshot (fake.instance fake.succeeded) "{Succeeded}"
                        (Some fake.template)))) None;
          server.mkTurn (server.Receive None) None]
       = Returns (server.Returned None, [server.Send a]).
Proof. eexists. split; reflexivity. Qed.

(** C7 fails on the code.  When the cluster refuses the create call, the
    manager returns the client's error as it came, which is not a user
    error; the server then neither returns a classified error nor any
    value: it dereferences the nil workflow. *)
Theorem CreateWorkflow_unclassified_error_panics :
  manager.CreateWorkflow fake.labelKeyPrefix fake.refused "default" fake.createWorkflow
  = Returns (None, Some (OtherError "admission webhook denied the request"))
  /\ server.CreateWorkflow fake.labelKeyPrefix fake.refused fake.createRequest
     = Panics NilDereference.
Proof. split; vm_compute; reflexivity. Qed.


(** C6, as stated for the exposed stream, fails: before anything has
    arrived from the manager, a tick of the server's own timer sends a
    message (made from the empty workflow the loop starts with). *)
Lemma server_sends_before_first_snapshot :
  ~ (forall turns,
        Forall (fun t => server.selected t = server.Tick) turns ->
        exists st,
          server.WatchWorkflow fake.labelKeyPrefix fake.json_Marshal fake.resourceManager
            (api.WatchWorkflowRequest.mk "default" "train-x7k2p") turns
          = Returns (st, [])).
Proof.
  intros H.
  destruct (H [server.mkTurn server.Tick None]) as [st Hst].
  - repeat constructor.
  - vm_compute in Hst. discriminate Hst.
Qed.

(* ===================================================================== *)
(** * Pagination                                                          *)
(* ===================================================================== *)

Lemma int32_id (z : Z) : in_int32 z -> int32 z = z.
Proof. unfold in_int32, int32. intros H. rewrite Z.mod_small by lia. lia. Qed.

(** [ceil_div] is the integer ceiling of the quotient. *)
Lemma ceil_div_bounds (n d : Z) :
  0 < d -> d * (server.ceil_div n d - 1) < n <= d * server.ceil_div n d.
Proof.
  intros Hd. unfold server.ceil_div.
  pose proof (Z.mul_div_le (- n) d Hd).
  pose proof (Z.mul_succ_div_gt (- n) d Hd).
  lia.
Qed.

Lemma ceil_div_0 (d : Z) : server.ceil_div 0 d = 0.
Proof. unfold server.ceil_div. cbn. rewrite Zdiv_0_l. reflexivity. Qed.

(** The upper bound of the slice expression is always below the length. *)
Lemma pageWindow_end_below_len (len PageSize Page : Z) :
  0 <= len < 2 ^ 31 ->
  snd (server.pageWindow len PageSize Page) < len.
Proof.
  intros Hlen. unfold server.pageWindow. cbn [snd].
  rewrite (int32_id len) by (unfold in_int32; lia).
  match goal with |- context [Z.leb len ?e] => destruct (Z.leb_spec len e) end.
  - rewrite int32_id by (unfold in_int32; lia). lia.
  - assumption.
Qed.

(** What the window is on a list that is not empty (and short enough for
    [start + PageSize] to stay an [int32]): the page is clamped to the
    number of pages, the slice starts at [(page - 1) * PageSize], and it
    ends at [start + PageSize] when that is below the length and at
    [len - 1] otherwise. *)
Lemma pageWindow_nonempty (len PageSize Page : Z) :
  0 < len < 2 ^ 31 -> 1 <= PageSize < 2 ^ 31 -> 1 <= Page < 2 ^ 31 ->
  let pages := server.ceil_div len PageSize in
  let page := Z.min Page pages in
  let start := (page - 1) * PageSize in
  start + PageSize < 2 ^ 31 ->
  server.pageWindow len PageSize Page
  = (pages, page, start, if start + PageSize <? len then start + PageSize else len - 1)
  /\ 1 <= pages /\ 1 <= page /\ 0 <= start <= len - 1.
Proof.
  intros Hlen Hps Hpage pages page start Hfit.
  pose proof (ceil_div_bounds len PageSize ltac:(lia)) as Hceil. fold pages in Hceil.
  assert (Hpages : 1 <= pages <= len) by nia.
  assert (Hp : 1 <= page <= pages) by (unfold page; lia).
  assert (Hstart : 0 <= start <= len - 1) by (unfold start; nia).
  split; [|lia].
  unfold server.pageWindow. fold pages.
  rewrite (int32_id pages) by (unfold in_int32; lia).
  replace (if pages <? Page then pages else Page) with page
    by (unfold page; destruct (Z.ltb_spec pages Page); lia).
  fold start.
  rewrite (int32_id start) by (unfold in_int32; lia).
  rewrite (int32_id (start + PageSize)) by (unfold in_int32; lia).
  rewrite (int32_id len) by (unfold in_int32; lia).
  rewrite (int32_id (len - 1)) by (unfold in_int32; lia).
  destruct (Z.leb_spec len (start + PageSize)), (Z.ltb_spec (start + PageSize) len);
    try lia; reflexivity.
Qed.

Lemma range_append_apiWorkflow (workflows : list model.Workflow.t) :
  server.range_append (fun wf => server.apiWorkflow (Some wf)) workflows
  = Returns (map server.converted workflows).
Proof.
  induction workflows as [|w ws IH]; [reflexivity|].
  cbn [server.range_append map]. rewrite IH. reflexivity.
Qed.

Section ListWorkflowsFacts.

Variable resourceManager_ListWorkflows :
  string -> string -> string -> list model.Workflow.t * option error.
Variable req : api.ListWorkflowsRequest.t.
Variable workflows : list model.Workflow.t.
Variable err : option error.

Hypothesis listed :
  resourceManager_ListWorkflows
    (api.ListWorkflowsRequest.Namespace req)
    (api.ListWorkflowsRequest.WorkflowTemplateUid req)
    (api.ListWorkflowsRequest.WorkflowTemplateVersion req) = (workflows, err).
Hypothesis not_user_error : As_userError err = None.

(** What [ListWorkflows] returns on a list that is not empty: the page
    is the stretch [start, end) of the converted workflows, where [end]
    is [start + PageSize] on a page that ends before the last workflow
    and [len - 1] on the others. *)
Lemma ListWorkflows_nonempty :
  let len := Z.of_nat (length workflows) in
  let PageSize := api.ListWorkflowsRequest.PageSize req in
  let pages := server.ceil_div len PageSize in
  let page := Z.min (api.ListWorkflowsRequest.Page req) pages in
  let start := (page - 1) * PageSize in
  let end_ := if start + PageSize <? len then start + PageSize else len - 1 in
  0 < len < 2 ^ 31 -> 1 <= PageSize < 2 ^ 31 ->
  1 <= api.ListWorkflowsRequest.Page req < 2 ^ 31 ->
  start + PageSize < 2 ^ 31 ->
  server.ListWorkflows resourceManager_ListWorkflows req
  = Returns
      (Some (api.ListWorkflowsResponse.mk
               (end_ - start)
               (take (Z.to_nat (end_ - start))
                     (drop (Z.to_nat start) (map server.converted workflows)))
               page pages len),
       None).
Proof.
  intros len PageSize pages page start end_ Hlen Hps Hpage Hfit.
  destruct (pageWindow_nonempty len PageSize (api.ListWorkflowsRequest.Page req)
              Hlen Hps Hpage Hfit) as (Hwin & Hpages & Hp & Hstart).
  fold pages page start end_ in Hwin.
  assert (Hend : start <= end_ <= len - 1).
  { unfold end_. destruct (Z.ltb_spec (start + PageSize) len); lia. }
  unfold server.ListWorkflows. fold PageSize.
  destruct (Z.leb_spec PageSize 0); [lia|].
  destruct (Z.leb_spec (api.ListWorkflowsRequest.Page req) 0); [lia|].
  rewrite listed, not_user_error, range_append_apiWorkflow. step_outcome.
  rewrite length_map. fold len. rewrite Hwin.
  unfold slice. rewrite length_map. fold len.
  destruct (Z.leb_spec 0 start), (Z.leb_spec start end_), (Z.leb_spec end_ len);
    try lia.
  cbn [andb]. step_outcome.
  rewrite (int32_id (end_ - start)) by (unfold in_int32; lia).
  rewrite (int32_id len) by (unfold in_int32; lia).
  reflexivity.
Qed.

(** On the empty list every request ends in the slice expression
    panicking: the page is clamped to page 0, the slice would start at
    [- PageSize] and end at [-1]. *)
Lemma ListWorkflows_empty :
  workflows = [] ->
  in_int32 (api.ListWorkflowsRequest.PageSize req) ->
  in_int32 (api.ListWorkflowsRequest.Page req) ->
  server.ListWorkflows resourceManager_ListWorkflows req = Panics SliceBoundsOutOfRange.
Proof.
  unfold in_int32. intros -> Hps Hpage.
  unfold server.ListWorkflows. rewrite listed, not_user_error.
  cbn [server.range_append length Z.of_nat]. step_outcome.
  set (PageSize := if api.ListWorkflowsRequest.PageSize req <=? 0 then 15
                   else api.ListWorkflowsRequest.PageSize req).
  set (Page := if api.ListWorkflowsRequest.Page req <=? 0 then 1
               else api.ListWorkflowsRequest.Page req).
  assert (HPS : 1 <= PageSize < 2 ^ 31)
    by (unfold PageSize; destruct (Z.leb_spec (api.ListWorkflowsRequest.PageSize req) 0); lia).
  assert (HP : 1 <= Page < 2 ^ 31)
    by (unfold Page; destruct (Z.leb_spec (api.ListWorkflowsRequest.Page req) 0); lia).
  unfold server.pageWindow. rewrite ceil_div_0.
  change (int32 0) with 0.
  destruct (Z.ltb_spec 0 Page); [|lia].
  replace ((0 - 1) * PageSize) with (- PageSize) by lia.
  rewrite (int32_id (- PageSize)) by (unfold in_int32; lia).
  replace (- PageSize + PageSize) with 0 by lia.
  change (int32 0) with 0. change (0 <=? 0) with true. cbv iota.
  change (int32 (0 - 1)) with (-1).
  unfold slice. destruct (Z.leb_spec 0 (- PageSize)); [lia|]. reflexivity.
Qed.

End ListWorkflowsFacts.

(** C1 fails on the code.  With 22 workflows and a page size of 15, page 2
    is answered with 6 workflows and a count of 6, the workflows at
    positions 15 to 20: the last one is left out. *)
Theorem ListWorkflows_last_page_short :
  exists resp,
    server.ListWorkflows (fake.listing 22)
      (api.ListWorkflowsRequest.mk "default" "" "" 15 2) = Returns (Some resp, None)
    /\ api.ListWorkflowsResponse.Count resp = 6
    /\ map api.Workflow.Name (api.ListWorkflowsResponse.Workflows resp)
       = ["wf-15"; "wf-16"; "wf-17"; "wf-18"; "wf-19"; "wf-20"]
    /\ api.ListWorkflowsResponse.Page resp = 2
    /\ api.ListWorkflowsResponse.Pages resp = 2
    /\ api.ListWorkflowsResponse.TotalCount resp = 22.
Proof.
  eexists. split; [vm_compute; reflexivity|]. repeat split; reflexivity.
Qed.

(** C2 fails on the code.  On an empty list, the request for page 1 with
    a page size of 15 does not return an empty page: the slice expression
    is out of range and panics. *)
Theorem ListWorkflows_empty_list_panics :
  server.ListWorkflows (fake.listing 0)
    (api.ListWorkflowsRequest.mk "default" "" "" 15 1)
  = Panics SliceBoundsOutOfRange.
Proof. vm_compute. reflexivity. Qed.

(** A single workflow is never listed: its page is empty. *)
Example ListWorkflows_single :
  exists resp,
    server.ListWorkflows (fake.listing 1)
      (api.ListWorkflowsRequest.mk "default" "" "" 15 1) = Returns (Some resp, None)
    /\ api.ListWorkflowsResponse.Count resp = 0
    /\ api.ListWorkflowsResponse.Workflows resp = []
    /\ api.ListWorkflowsResponse.TotalCount resp = 1.
Proof.
  eexists. split; [vm_compute; reflexivity|]. repeat split; reflexivity.
Qed.

(** Page 1 of 22 with a page size of 15 is full. *)
Example ListWorkflows_first_page :
  exists resp,
    server.ListWorkflows (fake.listing 22)
      (api.ListWorkflowsRequest.mk "default" "" "" 15 1) = Returns (Some resp, None)
    /\ api.ListWorkflowsResponse.Count resp = 15
    /\ length (api.ListWorkflowsResponse.Workflows resp) = 15%nat
    /\ api.ListWorkflowsResponse.Pages resp = 2.
Proof.
  eexists. split; [vm_compute; reflexivity|]. repeat split; reflexivity.
Qed.

(* ===================================================================== *)
(** * Decimal text: examples                                              *)
(* ===================================================================== *)

Example Sprint_positive : Strconv.Sprint 2147483647 = "2147483647".
Proof. vm_compute. reflexivity. Qed.

Example Sprint_negative : Strconv.Sprint (- 2147483648) = "-2147483648".
Proof. vm_compute. reflexivity. Qed.

Example ParseInt_out_of_range :
  Strconv.ParseInt "2147483648" 32 = (2147483647, Some Strconv.ErrRange).
Proof. vm_compute. reflexivity. Qed.

Example ParseInt_not_a_number :
  Strconv.ParseInt "latest" 32 = (0, Some Strconv.ErrSyntax).
Proof. vm_compute. reflexivity. Qed.

Example ParseInt_sign_and_zeros : Strconv.ParseInt "+0042" 32 = (42, None).
Proof. vm_compute. reflexivity. Qed.

Example ParseInt_fraction : Strconv.ParseInt "1.5" 32 = (0, Some Strconv.ErrSyntax).
Proof. vm_compute. reflexivity. Qed.

(* ===================================================================== *)
(** * GetWorkflow: what each result tells                                 *)
(* ===================================================================== *)

(** A text the specification reads as a number denotes an [int32]. *)
Lemma base10_int32_range (s : string) (v : Z) :
  Spec.base10_int32 s = Some v -> in_int32 v.
Proof.
  unfold Spec.base10_int32, in_int32. destruct s as [|c rest]; [discriminate|].
  destruct (Spec.unsigned_value _) as [u|]; [|discriminate].
  cbv zeta.
  match goal with
  | |- context [Z.leb ?a ?b && Z.ltb ?c ?d] =>
      destruct (Z.leb_spec a b); destruct (Z.ltb_spec c d); cbn [andb]; try discriminate
  end.
  intros Heq. inversion Heq; subst. lia.
Qed.

Section GetWorkflowResults.

Variable labelKeyPrefix : string.
Variable json_Marshal : kube.WorkflowStatus.t -> string * option error.
Variable r : manager.ResourceManager.

Local Abbreviation uidKey := (manager.workflowTemplateUIDLabelKey labelKeyPrefix).
Local Abbreviation versionKey := (manager.workflowTemplateVersionLabelKey labelKeyPrefix).

(** X1.  A workflow returned by [GetWorkflow] comes without an error, and
    then every step succeeded: the client returned an instance, its
    version label is the text of a base-10 32-bit integer, the store has
    a template under the uid label and that version, the status
    serialized, and the workflow is the snapshot of the instance with
    that status text and that template. *)
Theorem GetWorkflow_success_steps (namespace name : string)
    (w : model.Workflow.t) (e : option error) :
  manager.GetWorkflow labelKeyPrefix json_Marshal r namespace name = Returns (Some w, e) ->
  e = None /\
  exists inst version tpl status,
    kube.GetWorkflow (manager.kubeClient r) namespace name = (Some inst, None)
    /\ Spec.base10_int32 (map_get (kube.Workflow.Labels inst) versionKey) = Some version
    /\ repository.GetWorkflowTemplate (manager.workflowRepository r) namespace
         (map_get (kube.Workflow.Labels inst) uidKey) version = (Some tpl, None)
    /\ json_Marshal (kube.Workflow.Status inst) = (status, None)
    /\ w = manager.snapshot inst status (Some tpl).
Proof.
  unfold manager.GetWorkflow, manager.resolve.
  destruct (kube.GetWorkflow _ namespace name) as [w0 [e0|]]; [discriminate|].
  destruct w0 as [inst|]; step_outcome; [|discriminate].
  destruct (Strconv.ParseInt _ 32) as [version [pe|]] eqn:Hparse; [discriminate|].
  apply ParseInt_ok_iff in Hparse.
  rewrite (int32_id version (base10_int32_range _ _ Hparse)).
  pose proof (GetWorkflowTemplate_cases r namespace
                (map_get (kube.Workflow.Labels inst) uidKey) version) as Hcases.
  destruct (repository.GetWorkflowTemplate _ namespace _ version) as [[tpl|] [se|]]
    eqn:Hstore; rewrite Hcases; try discriminate.
  destruct (json_Marshal (kube.Workflow.Status inst)) as [status [me|]] eqn:Hjson;
    [discriminate|].
  intros H. inversion H; subst. split; [reflexivity|].
  exists inst, version, tpl, status. repeat split; trivial.
Qed.

(** X2.  An error returned by [GetWorkflow] comes without a workflow, is
    one of five user errors, and names the step that failed: the fetch
    from the client, the parsing of the version label, the store (on
    error, or without such a template), or the serialization. *)
Theorem GetWorkflow_error_origin (namespace name : string)
    (w : option model.Workflow.t) (e : error) :
  manager.GetWorkflow labelKeyPrefix json_Marshal r namespace name = Returns (w, Some e) ->
  w = None /\
  ((e = UserError codes.NotFound "Workflow not found."
    /\ exists w0 e0, kube.GetWorkflow (manager.kubeClient r) namespace name = (w0, Some e0))
   \/ exists inst,
        kube.GetWorkflow (manager.kubeClient r) namespace name = (Some inst, None) /\
        ((e = UserError codes.InvalidArgument "Invalid version number."
          /\ Spec.base10_int32 (map_get (kube.Workflow.Labels inst) versionKey) = None)
         \/ exists version,
              Spec.base10_int32 (map_get (kube.Workflow.Labels inst) versionKey)
              = Some version /\
              ((e = UserError codes.Unknown "Unknown error."
                /\ exists t se,
                     repository.GetWorkflowTemplate (manager.workflowRepository r) namespace
                       (map_get (kube.Workflow.Labels inst) uidKey) version = (t, Some se))
               \/ (e = UserError codes.NotFound "Workflow template not found."
                   /\ repository.GetWorkflowTemplate (manager.workflowRepository r) namespace
                        (map_get (kube.Workflow.Labels inst) uidKey) version = (None, None))
               \/ (e = UserError codes.InvalidArgument "Invalid status."
                   /\ exists status me,
                        json_Marshal (kube.Workflow.Status inst) = (status, Some me))))).
Proof.
  unfold manager.GetWorkflow, manager.resolve.
  destruct (kube.GetWorkflow _ namespace name) as [w0 [e0|]].
  { intros H. inversion H; subst. split; [reflexivity|]. left. eauto. }
  destruct w0 as [inst|]; step_outcome; [|discriminate].
  pose proof (ParseInt_refines (map_get (kube.Workflow.Labels inst) versionKey)) as Href.
  destruct (Strconv.ParseInt _ 32) as [version [pe|]] eqn:Hparse.
  { intros H. inversion H; subst. split; [reflexivity|]. right. exists inst.
    split; [reflexivity|]. left. split; [reflexivity|].
    destruct (Spec.base10_int32 _); [discriminate | reflexivity]. }
  apply ParseInt_ok_iff in Hparse.
  rewrite (int32_id version (base10_int32_range _ _ Hparse)).
  pose proof (GetWorkflowTemplate_cases r namespace
                (map_get (kube.Workflow.Labels inst) uidKey) version) as Hcases.
  destruct (repository.GetWorkflowTemplate _ namespace _ version) as [[tpl|] [se|]] eqn:Hstore;
    rewrite Hcases.
  - intros H. inversion H; subst. split; [reflexivity|]. right. exists inst.
    split; [reflexivity|]. right. exists version. split; [exact Hparse|]. left. eauto.
  - destruct (json_Marshal (kube.Workflow.Status inst)) as [status [me|]] eqn:Hjson;
      [|discriminate].
    intros H. inversion H; subst. split; [reflexivity|]. right. exists inst.
    split; [reflexivity|]. right. exists version. split; [exact Hparse|].
    right; right. eauto.
  - intros H. inversion H; subst. split; [reflexivity|]. right. exists inst.
    split; [reflexivity|]. right. exists version. split; [exact Hparse|]. left. eauto.
  - intros H. inversion H; subst. split; [reflexivity|]. right. exists inst.
    split; [reflexivity|]. right. exists version. split; [exact Hparse|].
    right; left. split; [reflexivity | exact Hstore].
Qed.

(** X3.  Create, then get: an instance that still carries the labels
    [CreateWorkflow] passed to the client for a template with a 32-bit
    version is resolved by [GetWorkflow] to the template stored under
    that same uid and version. *)
Theorem GetWorkflow_resolves_created_template (namespace name : string)
    (inst : kube.Workflow.t) (workflow : model.Workflow.t)
    (wt tpl : model.WorkflowTemplate.t) (labels : gmap string string) (status : string) :
  in_int32 (model.WorkflowTemplate.Version wt) ->
  kube.WorkflowOptions.Labels (manager.createOptions labelKeyPrefix workflow wt)
  = Some labels ->
  labels ⊆ kube.Workflow.Labels inst ->
  kube.GetWorkflow (manager.kubeClient r) namespace name = (Some inst, None) ->
  repository.GetWorkflowTemplate (manager.workflowRepository r) namespace
    (model.WorkflowTemplate.UID wt) (model.WorkflowTemplate.Version wt) = (Some tpl, None) ->
  json_Marshal (kube.Workflow.Status inst) = (status, None) ->
  manager.GetWorkflow labelKeyPrefix json_Marshal r namespace name
  = Returns (Some (manager.snapshot inst status (Some tpl)), None).
Proof.
  intros Hv Hopts Hsub Hget Hstore Hjson.
  rewrite createOptions_labels in Hopts. inversion Hopts as [Hlabels]. clear Hopts.
  assert (Huid : kube.Workflow.Labels inst !! uidKey = Some (model.WorkflowTemplate.UID wt)).
  { eapply lookup_weaken; [|exact Hsub]. subst labels. apply stamp_lookup_uid. }
  assert (Hver : kube.Workflow.Labels inst !! versionKey
                 = Some (Strconv.Sprint (model.WorkflowTemplate.Version wt))).
  { eapply lookup_weaken; [|exact Hsub]. subst labels. apply stamp_lookup_version. }
  unfold manager.GetWorkflow, manager.resolve. rewrite Hget. step_outcome.
  rewrite (map_get_lookup _ _ _ Huid), (map_get_lookup _ _ _ Hver).
  rewrite (ParseInt_Sprint _ Hv), (int32_id _ Hv).
  unfold manager.GetWorkflowTemplate. rewrite Hstore, Hjson. reflexivity.
Qed.

End GetWorkflowResults.

Lemma GetWorkflow_success_steps_witness :
  None = @None error /\
  exists inst version tpl status,
    kube.GetWorkflow (manager.kubeClient fake.resourceManager) "default" "train-x7k2p"
    = (Some inst, None)
    /\ Spec.base10_int32
         (map_get (kube.Workflow.Labels inst)
            (manager.workflowTemplateVersionLabelKey fake.labelKeyPrefix)) = Some version
    /\ repository.GetWorkflowTemplate (manager.workflowRepository fake.resourceManager)
         "default"
         (map_get (kube.Workflow.Labels inst)
            (manager.workflowTemplateUIDLabelKey fake.labelKeyPrefix)) version
       = (Some tpl, None)
    /\ fake.json_Marshal (kube.Workflow.Status inst) = (status, None)
    /\ manager.snapshot (fake.instance fake.running) "{Running}" (Some fake.template)
       = manager.snapshot inst status (Some tpl).
Proof.
  apply (GetWorkflow_success_steps fake.labelKeyPrefix fake.json_Marshal
           fake.resourceManager "default" "train-x7k2p").
  vm_compute. reflexivity.
Defined.

Lemma GetWorkflow_error_origin_witness :
  exists inst,
    kube.GetWorkflow (manager.kubeClient fake.resourceManager) "default" "adhoc"
    = (Some inst, None)
    /\ Spec.base10_int32
         (map_get (kube.Workflow.Labels inst)
            (manager.workflowTemplateVersionLabelKey fake.labelKeyPrefix)) = None.
Proof.
  assert (Hrun : manager.GetWorkflow fake.labelKeyPrefix fake.json_Marshal
                   fake.resourceManager "default" "adhoc"
                 = Returns (None, Some (UserError codes.InvalidArgument
                                          "Invalid version number.")))
    by (vm_compute; reflexivity).
  destruct (GetWorkflow_error_origin fake.labelKeyPrefix fake.json_Marshal
              fake.resourceManager "default" "adhoc" None _ Hrun)
    as [_ [[He _] | (inst & Hget & [[_ Hbad] | (version & _ & [[He _] | [[He _] | [He _]]])])]];
    try discriminate He.
  exists inst. split; assumption.
Defined.

Lemma GetWorkflow_resolves_created_template_witness :
  manager.GetWorkflow fake.labelKeyPrefix fake.json_Marshal fake.resourceManager
    "default" "train-x7k2p"
  = Returns (Some (manager.snapshot (fake.instance fake.running) "{Running}"
                     (Some fake.template)), None).
Proof.
  apply (GetWorkflow_resolves_created_template fake.labelKeyPrefix fake.json_Marshal
           fake.resourceManager "default" "train-x7k2p" (fake.instance fake.running)
           fake.createWorkflow fake.template fake.template
           (manager.stamp fake.labelKeyPrefix ∅ "tpl-1" 3) "{Running}").
  - unfold in_int32. cbn. lia.
  - reflexivity.
  - reflexivity.
  - reflexivity.
  - reflexivity.
  - reflexivity.
Defined.

(* ===================================================================== *)
(** * CreateWorkflow and ListWorkflows of the manager                     *)
(* ===================================================================== *)

Section ManagerResults.

Variable labelKeyPrefix : string.

(** X4.  [CreateWorkflow] returns either a workflow and no error, or an
    error and no workflow. *)
Theorem CreateWorkflow_value_xor_error (r : manager.ResourceManager)
    (namespace : string) (workflow : model.Workflow.t)
    (w : option model.Workflow.t) (e : option error) :
  manager.CreateWorkflow labelKeyPrefix r namespace workflow = Returns (w, e) ->
  (exists x, w = Some x /\ e = None) \/ (w = None /\ exists x, e = Some x).
Proof.
  unfold manager.CreateWorkflow.
  destruct (model.Workflow.WorkflowTemplate workflow) as [ref|]; step_outcome;
    [|discriminate].
  destruct (manager.GetWorkflowTemplate r namespace _ _) as [[wt|] [e1|]]; step_outcome;
    try discriminate;
    try solve [intros H; inversion H; subst; right; eauto].
  destruct (kube.CreateWorkflow _ namespace _ _) as [created [e2|]]; step_outcome.
  - intros H; inversion H; subst; right; eauto.
  - destruct created as [|c cs]; cbn [lookup list_lookup]; step_outcome; [discriminate|].
    intros H; inversion H; subst; left; eauto.
Qed.

(** X5.  When the store does not return the referenced template,
    [CreateWorkflow] fails with a user error that does not depend on the
    client: nothing is created. *)
Theorem CreateWorkflow_without_template (c c' : kube.Client)
    (store : repository.WorkflowRepository) (namespace : string)
    (workflow : model.Workflow.t) (ref : model.WorkflowTemplate.t) :
  model.Workflow.WorkflowTemplate workflow = Some ref ->
  (forall t, repository.GetWorkflowTemplate store namespace
               (model.WorkflowTemplate.UID ref) (model.WorkflowTemplate.Version ref)
             <> (Some t, None)) ->
  manager.CreateWorkflow labelKeyPrefix (manager.mkResourceManager c store) namespace workflow
  = manager.CreateWorkflow labelKeyPrefix (manager.mkResourceManager c' store) namespace workflow
  /\ exists code msg,
       manager.CreateWorkflow labelKeyPrefix (manager.mkResourceManager c store)
         namespace workflow
       = Returns (None, Some (UserError code msg)).
Proof.
  intros Href Hmiss. unfold manager.CreateWorkflow, manager.GetWorkflowTemplate.
  rewrite Href. step_outcome. cbn [manager.workflowRepository].
  destruct (repository.GetWorkflowTemplate store namespace _ _) as [[t|] [e|]] eqn:Hstore;
    step_outcome; eauto.
  exfalso. exact (Hmiss t eq_refl).
Qed.

(** X6.  When the client's create call answers with neither an error nor
    an instance, [CreateWorkflow] indexes the empty list and panics. *)
Theorem CreateWorkflow_no_instance_panics (r : manager.ResourceManager)
    (namespace : string) (workflow : model.Workflow.t)
    (ref wt : model.WorkflowTemplate.t) :
  model.Workflow.WorkflowTemplate workflow = Some ref ->
  repository.GetWorkflowTemplate (manager.workflowRepository r) namespace
    (model.WorkflowTemplate.UID ref) (model.WorkflowTemplate.Version ref)
  = (Some wt, None) ->
  kube.CreateWorkflow (manager.kubeClient r) namespace
    (model.WorkflowTemplate.GetManifestBytes wt)
    (manager.createOptions labelKeyPrefix workflow wt) = ([], None) ->
  manager.CreateWorkflow labelKeyPrefix r namespace workflow = Panics IndexOutOfRange.
Proof.
  intros Href Hstore Hcreate. unfold manager.CreateWorkflow, manager.GetWorkflowTemplate.
  rewrite Href. step_outcome. rewrite Hstore. step_outcome. rewrite Hcreate. reflexivity.
Qed.

(** X7.  A listing of the manager fails with [NotFound] and no entries
    when the client fails; otherwise it has one entry per instance the
    client returned for the namespace and the options (no selector for
    the empty uid, and the selector made of the uid label key, an equals
    sign and the uid for any other), in order, each with the name and
    uid of its instance and nothing else. *)
Theorem manager_ListWorkflows_entries (r : manager.ResourceManager)
    (namespace uid : string) :
  let opts :=
    kube.WorkflowOptions.mk [] None
      (if String.eqb uid "" then None
       else Some (kube.ListOptions.mk
                    (manager.workflowTemplateUIDLabelKey labelKeyPrefix
                     +:+ ("=" +:+ uid)))) in
  match kube.ListWorkflows (manager.kubeClient r) namespace opts with
  | (_, Some _) =>
      manager.ListWorkflows labelKeyPrefix r namespace uid
      = ([], Some (UserError codes.NotFound "Workflows not found."))
  | (wfs, None) =>
      exists ws,
        manager.ListWorkflows labelKeyPrefix r namespace uid = (ws, None)
        /\ map model.Workflow.Name ws = map kube.Workflow.Name wfs
        /\ map model.Workflow.UID ws = map kube.Workflow.UID wfs
        /\ Forall (fun w => model.Workflow.Status w = ""
                            /\ model.Workflow.WorkflowTemplate w = None
                            /\ model.Workflow.Parameters w = []) ws
  end.
Proof.
  intros opts. unfold manager.ListWorkflows.
  replace (if negb (String.eqb uid "")
           then kube.WorkflowOptions.mk
                  (kube.WorkflowOptions.Parameters kube.WorkflowOptions.zero)
                  (kube.WorkflowOptions.Labels kube.WorkflowOptions.zero)
                  (Some (kube.ListOptions.mk
                           (labelKeyPrefix +:+ "workflow-template-uid=" +:+ uid)))
           else kube.WorkflowOptions.zero) with opts.
  2:{ unfold opts. rewrite <- ListWorkflows_selector.
      destruct (String.eqb uid ""); reflexivity. }
  destruct (kube.ListWorkflows _ namespace opts) as [wfs [e|]]; [reflexivity|].
  eexists. split; [reflexivity|].
  rewrite !map_map. cbn. repeat split; try reflexivity.
  induction wfs as [|wf wfs IH]; constructor; auto.
Qed.

End ManagerResults.

Lemma CreateWorkflow_value_xor_error_witness :
  (exists x, @None model.Workflow.t = Some x /\ Some (OtherError "admission webhook denied the request") = None)
  \/ (@None model.Workflow.t = None
      /\ exists x, Some (OtherError "admission webhook denied the request") = Some x).
Proof.
  apply (CreateWorkflow_value_xor_error fake.labelKeyPrefix fake.refused "default"
           fake.createWorkflow).
  vm_compute. reflexivity.
Defined.

Lemma CreateWorkflow_without_template_witness :
  exists code msg,
    manager.CreateWorkflow fake.labelKeyPrefix
      (manager.mkResourceManager fake.refusing fake.store) "default"
      (model.Workflow.mk "" "" "" zeroTime zeroTime "" "" []
         (Some (model.WorkflowTemplate.mk "tpl-9" "" 1 "" false false zeroTime)))
    = Returns (None, Some (UserError code msg)).
Proof.
  destruct (CreateWorkflow_without_template fake.labelKeyPrefix fake.refusing fake.client
              fake.store "default"
              (model.Workflow.mk "" "" "" zeroTime zeroTime "" "" []
                 (Some (model.WorkflowTemplate.mk "tpl-9" "" 1 "" false false zeroTime)))
              (model.WorkflowTemplate.mk "tpl-9" "" 1 "" false false zeroTime)
              eq_refl) as [_ H].
  - intros t. vm_compute. discriminate.
  - exact H.
Defined.

Lemma CreateWorkflow_no_instance_panics_witness :
  manager.CreateWorkflow fake.labelKeyPrefix fake.unanswered "default" fake.createWorkflow
  = Panics IndexOutOfRange.
Proof.
  apply (CreateWorkflow_no_instance_panics fake.labelKeyPrefix fake.unanswered "default"
           fake.createWorkflow
           (model.WorkflowTemplate.mk "tpl-1" "" 3 "" false false zeroTime)
           fake.template); reflexivity.
Defined.

(* ===================================================================== *)
(** * The stream goroutine: whole runs                                    *)
(* ===================================================================== *)

Section BridgeRuns.

Variable json_Marshal : kube.WorkflowStatus.t -> string * option error.
Variable b : manager.Bridge.
Variable sub : kube.Watcher.
Variable fetched : model.Workflow.t.
Hypothesis bridge_watcher : manager.watcher b = Some sub.
Hypothesis bridge_wf : manager.wf b = Some fetched.

Local Abbreviation run := (manager.run json_Marshal b).
Local Abbreviation pushed := (manager.pushed fetched).
Local Abbreviation push := (fun p : kube.Workflow.t * string => pushed (fst p) (snd p)).
Local Abbreviation finishedAt :=
  (fun w : kube.Workflow.t => kube.WorkflowStatus.FinishedAt (kube.Workflow.Status w)).
Local Abbreviation shapes :=
  (iteration_shapes json_Marshal b sub fetched bridge_watcher bridge_wf).
Local Abbreviation cons_run :=
  (run_cons json_Marshal b).

(** X8.  Every run of the goroutine returns (it never panics on a bridge
    holding the fetched workflow and the subscription), and what it did
    is a sequence of pushes, followed, exactly when the loop has been
    left, by one last push of an object whose [FinishedAt] is not zero,
    the close of the channel and the stop of the watcher, in that order
    and once. *)
Theorem stream_trace_shape (sels : list manager.Select) :
  forall held,
  exists st out ws,
    run (manager.Streaming held) sels = Returns (st, out) /\
    ((exists held', st = manager.Streaming held' /\ out = map push ws)
     \/ (st = manager.Closed /\
         exists w status,
           out = (map push ws
                  ++ [pushed w status; manager.CloseChannel; manager.StopWatcher])%list
           /\ IsZero (finishedAt w) = false)).
Proof.
  induction sels as [|sel sels IH]; intros held.
  - exists (manager.Streaming held), [], []. split; [reflexivity|]. left. eauto.
  - destruct (shapes held sel) as (st' & o & Hit & Hshape).
    rewrite (cons_run _ _ _ _ _ Hit).
    destruct Hshape as [[-> ->] | (w & status & _ & _ & [(-> & -> & _) | (-> & -> & Hfin)])].
    + destruct (IH (manager.selected held sel)) as (st & out & ws & -> & Hout).
      exists st, out, ws. split; [reflexivity | exact Hout].
    + destruct (IH (Some w)) as (st & out & ws & -> & Hout).
      exists st, (pushed w status :: out), ((w, status) :: ws). split; [reflexivity|].
      destruct Hout as [(held' & -> & ->) | (-> & w' & status' & -> & Hfin)].
      * left. eauto.
      * right. split; [reflexivity|]. exists w', status'. split; [reflexivity | exact Hfin].
    + rewrite (run_Closed json_Marshal b sels).
      exists manager.Closed, [pushed w status; manager.CloseChannel; manager.StopWatcher], [].
      split; [reflexivity|]. right. split; [reflexivity|]. exists w, status.
      split; [reflexivity | exact Hfin].
Qed.

(** X9.  As long as neither the held object nor any arriving object is
    finished, the goroutine stays in its loop and never closes the
    channel, however many ticks and events there are. *)
Theorem unfinished_stream_stays_open (sels : list manager.Select) :
  forall held,
    (forall w, held = Some w -> IsZero (finishedAt w) = true) ->
    Forall (fun sel => forall w, sel = manager.Event (kube.WorkflowObject w) ->
                                 IsZero (finishedAt w) = true) sels ->
    exists held' out,
      run (manager.Streaming held) sels = Returns (manager.Streaming held', out)
      /\ ~ In manager.CloseChannel out.
Proof.
  induction sels as [|sel sels IH]; intros held Hheld Hall.
  - exists held, []. split; [reflexivity | intros []].
  - inversion Hall as [|? ? Hsel Hrest]; subst.
    assert (Hnext : forall w, manager.selected held sel = Some w ->
                              IsZero (finishedAt w) = true).
    { intros w Hw. destruct sel as [[w'|]|]; cbn in Hw.
      - inversion Hw; subst. apply Hsel. reflexivity.
      - discriminate.
      - apply Hheld. exact Hw. }
    destruct (shapes held sel) as (st' & o & Hit & Hshape).
    rewrite (cons_run _ _ _ _ _ Hit).
    destruct Hshape as [[-> ->] | (w & status & Hw & _ & [(-> & -> & _) | (-> & -> & Hfin)])].
    + destruct (IH _ Hnext Hrest) as (held' & out & -> & Hno).
      exists held', out. split; [reflexivity | exact Hno].
    + destruct (IH (Some w)) as (held' & out & -> & Hno); [|exact Hrest|].
      { intros w' Hw'. inversion Hw'; subst. apply Hnext. exact Hw. }
      exists held', (pushed w status :: out). split; [reflexivity|].
      intros [Hin | Hin]; [discriminate | exact (Hno Hin)].
    + rewrite (Hnext w Hw) in Hfin. discriminate.
Qed.

(** X10.  An event carrying an unfinished workflow whose status
    serializes, followed by [n] ticks, pushes the same snapshot [n + 1]
    times, whatever was held before: each tick sends the held object
    again. *)
Theorem ticks_resend_held_snapshot (held : option kube.Workflow.t)
    (w : kube.Workflow.t) (status : string) (n : nat) :
  json_Marshal (kube.Workflow.Status w) = (status, None) ->
  IsZero (finishedAt w) = true ->
  run (manager.Streaming held)
      (manager.Event (kube.WorkflowObject w) :: replicate n manager.Tick)
  = Returns (manager.Streaming (Some w), replicate (S n) (pushed w status)).
Proof.
  intros Hjson Hz.
  rewrite (cons_run _ _ _ _ _
             (iteration_unfinished json_Marshal b sub fetched bridge_watcher bridge_wf
                held (manager.Event (kube.WorkflowObject w)) w status eq_refl Hjson Hz)).
  rewrite (run_ticks_unfinished json_Marshal b sub fetched bridge_watcher bridge_wf
             w status n Hjson Hz).
  reflexivity.
Qed.

(** X11.  While the status of the held object does not serialize, nothing
    is pushed and the loop goes on, even when the object is finished. *)
Theorem unserializable_status_keeps_stream_open (held : option kube.Workflow.t)
    (w : kube.Workflow.t) (status : string) (e : error) (n : nat) :
  json_Marshal (kube.Workflow.Status w) = (status, Some e) ->
  run (manager.Streaming held)
      (manager.Event (kube.WorkflowObject w) :: replicate n manager.Tick)
  = Returns (manager.Streaming (Some w), []).
Proof.
  intros Hjson.
  assert (Hticks : forall k, run (manager.Streaming (Some w)) (replicate k manager.Tick)
                             = Returns (manager.Streaming (Some w), [])).
  { induction k as [|k IH]; [reflexivity|]. cbn [replicate].
    rewrite (cons_run _ _ _ _ _
               (iteration_unserializable json_Marshal b sub bridge_watcher
                  (Some w) manager.Tick w status e eq_refl Hjson)), IH.
    reflexivity. }
  rewrite (cons_run _ _ _ _ _
             (iteration_unserializable json_Marshal b sub bridge_watcher
                held (manager.Event (kube.WorkflowObject w)) w status e eq_refl Hjson)).
  rewrite Hticks. reflexivity.
Qed.

End BridgeRuns.

Lemma stream_trace_shape_witness :
  exists st out ws,
    manager.run fake.json_Marshal fake.bridge (manager.Streaming None)
      [manager.Tick;
       manager.Event (kube.WorkflowObject (fake.instance fake.running));
       manager.Event (kube.WorkflowObject (fake.instance fake.succeeded));
       manager.Tick] = Returns (st, out) /\
    ((exists held', st = manager.Streaming held'
                    /\ out = map (fun p => manager.pushed
                                    (manager.snapshot (fake.instance fake.running) "{Running}"
                                       (Some fake.template)) (fst p) (snd p)) ws)
     \/ (st = manager.Closed /\
         exists w status,
           out = (map (fun p => manager.pushed
                         (manager.snapshot (fake.instance fake.running) "{Running}"
                            (Some fake.template)) (fst p) (snd p)) ws
                  ++ [manager.pushed
                        (manager.snapshot (fake.instance fake.running) "{Running}"
                           (Some fake.template)) w status;
                      manager.CloseChannel; manager.StopWatcher])%list
           /\ IsZero (kube.WorkflowStatus.FinishedAt (kube.Workflow.Status w)) = false)).
Proof.
  apply (stream_trace_shape fake.json_Marshal fake.bridge
           (kube.watch "default" "train-x7k2p")
           (manager.snapshot (fake.instance fake.running) "{Running}" (Some fake.template))
           eq_refl eq_refl).
Defined.

Lemma unfinished_stream_stays_open_witness :
  exists held' out,
    manager.run fake.json_Marshal fake.bridge (manager.Streaming None)
      [manager.Tick;
       manager.Event (kube.WorkflowObject (fake.instance fake.running));
       manager.Tick; manager.Event kube.OtherObject; manager.Tick]
    = Returns (manager.Streaming held', out)
    /\ ~ In manager.CloseChannel out.
Proof.
  apply (unfinished_stream_stays_open fake.json_Marshal fake.bridge
           (kube.watch "default" "train-x7k2p")
           (manager.snapshot (fake.instance fake.running) "{Running}" (Some fake.template))
           eq_refl eq_refl).
  - intros w Hw. discriminate Hw.
  - repeat constructor; intros w Hw; try discriminate Hw.
    inversion Hw. reflexivity.
Defined.

Lemma ticks_resend_held_snapshot_witness :
  manager.run fake.json_Marshal fake.bridge
    (manager.Streaming (Some (fake.instance fake.succeeded)))
    (manager.Event (kube.WorkflowObject (fake.instance fake.running))
     :: replicate 2 manager.Tick)
  = Returns
      (manager.Streaming (Some (fake.instance fake.running)),
       replicate 3
         (manager.pushed
            (manager.snapshot (fake.instance fake.running) "{Running}" (Some fake.template))
            (fake.instance fake.running) "{Running}")).
Proof.
  apply (ticks_resend_held_snapshot fake.json_Marshal fake.bridge
           (kube.watch "default" "train-x7k2p")
           (manager.snapshot (fake.instance fake.running) "{Running}" (Some fake.template))
           eq_refl eq_refl); reflexivity.
Defined.

Lemma unserializable_status_keeps_stream_open_witness :
  manager.run fake.failing_Marshal fake.bridge (manager.Streaming None)
    (manager.Event (kube.WorkflowObject (fake.instance fake.succeeded))
     :: replicate 4 manager.Tick)
  = Returns (manager.Streaming (Some (fake.instance fake.succeeded)), []).
Proof.
  apply (unserializable_status_keeps_stream_open fake.failing_Marshal fake.bridge
           (kube.watch "default" "train-x7k2p") eq_refl None
           (fake.instance fake.succeeded) "" (OtherError "json: unsupported value") 4).
  reflexivity.
Defined.

(* ===================================================================== *)
(** * WatchWorkflow: when a channel is handed out                         *)
(* ===================================================================== *)

(** X12.  [WatchWorkflow] hands out a channel exactly when the fetch
    returned a workflow and the subscription was opened without error;
    the channel then comes without an error, and its goroutine holds that
    workflow and that subscription. *)
Theorem WatchWorkflow_channel_iff (labelKeyPrefix : string)
    (json_Marshal : kube.WorkflowStatus.t -> string * option error)
    (r : manager.ResourceManager) (namespace name : string)
    (b : manager.Bridge) (e : option error) :
  manager.WatchWorkflow labelKeyPrefix json_Marshal r namespace name = Returns (Some b, e)
  <->
  e = None /\
  exists w,
    manager.GetWorkflow labelKeyPrefix json_Marshal r namespace name = Returns (Some w, None)
    /\ kube.WatchWorkflow (manager.kubeClient r) namespace name = (manager.watcher b, None)
    /\ manager.wf b = Some w.
Proof.
  unfold manager.WatchWorkflow. split.
  - destruct (GetWorkflow_exclusive labelKeyPrefix json_Marshal r namespace name)
      as [(w & Hget) | [(c & m & Hget) | Hget]]; rewrite Hget; step_outcome;
      try discriminate.
    destruct (kube.WatchWorkflow _ namespace name) as [s [e'|]]; [discriminate|].
    intros H. inversion H; subst. cbn. eauto.
  - intros (-> & w & Hget & Hwatch & Hwf). rewrite Hget. step_outcome.
    rewrite Hwatch. destruct b as [bw bs]. cbn in *. subst. reflexivity.
Qed.

Lemma WatchWorkflow_channel_iff_witness :
  manager.WatchWorkflow fake.labelKeyPrefix fake.json_Marshal fake.resourceManager
    "default" "train-x7k2p"
  = Returns (Some fake.bridge, None).
Proof.
  apply (proj2 (WatchWorkflow_channel_iff fake.labelKeyPrefix fake.json_Marshal
                  fake.resourceManager "default" "train-x7k2p" fake.bridge None)).
  split; [reflexivity|].
  exists (manager.snapshot (fake.instance fake.running) "{Running}" (Some fake.template)).
  split; [vm_compute; reflexivity|]. split; reflexivity.
Defined.

(* ===================================================================== *)
(** * Pagination: the page that is served                                 *)
(* ===================================================================== *)

Section Pages.

Variable resourceManager_ListWorkflows :
  string -> string -> string -> list model.Workflow.t * option error.
Variable namespace uid version : string.
Variable workflows : list model.Workflow.t.
Variable err : option error.

Hypothesis listed : resourceManager_ListWorkflows namespace uid version = (workflows, err).
Hypothesis not_user_error : As_userError err = None.

Local Abbreviation request := (api.ListWorkflowsRequest.mk namespace uid version).
Local Abbreviation ListWorkflows := (server.ListWorkflows resourceManager_ListWorkflows).
Local Abbreviation len := (Z.of_nat (length workflows)).

(** X13.  On a list that is not empty, with a page and a page size of at
    least 1, the page served is page [min(Page, pages)], where [pages] is
    the ceiling of [len / PageSize]; it starts at
    [start = (page - 1) * PageSize] and holds the next
    [min(PageSize, len - 1 - start)] workflows, which is also the count:
    a page that ends before the last workflow is full, any other page
    stops one workflow short of the end of the list. *)
Theorem ListWorkflows_page (PageSize Page : Z) :
  let pages := server.ceil_div len PageSize in
  let page := Z.min Page pages in
  let start := (page - 1) * PageSize in
  let count := Z.min PageSize (len - 1 - start) in
  0 < len < 2 ^ 31 -> 1 <= PageSize < 2 ^ 31 -> 1 <= Page < 2 ^ 31 ->
  start + PageSize < 2 ^ 31 ->
  0 <= count /\
  ListWorkflows (request PageSize Page)
  = Returns
      (Some (api.ListWorkflowsResponse.mk count
               (take (Z.to_nat count)
                     (drop (Z.to_nat start) (map server.converted workflows)))
               page pages len),
       None).
Proof.
  intros pages page start count Hlen Hps Hpage Hfit.
  pose proof (ListWorkflows_nonempty resourceManager_ListWorkflows
                (request PageSize Page) workflows err listed not_user_error
                Hlen Hps Hpage Hfit) as Hrun.
  cbn [api.ListWorkflowsRequest.PageSize api.ListWorkflowsRequest.Page] in Hrun.
  fold pages page start in Hrun.
  destruct (pageWindow_nonempty len PageSize Page Hlen Hps Hpage Hfit)
    as (_ & _ & _ & Hstart).
  fold pages page start in Hstart.
  assert (Hcount : (if start + PageSize <? len then start + PageSize else len - 1) - start
                   = count).
  { unfold count. destruct (Z.ltb_spec (start + PageSize) len); lia. }
  rewrite Hcount in Hrun. split; [unfold count; lia | exact Hrun].
Qed.

(** X14.  A page beyond the last one is answered as the last one. *)
Theorem ListWorkflows_page_clamped (PageSize Page : Z) :
  let pages := server.ceil_div len PageSize in
  0 < len < 2 ^ 31 -> 1 <= PageSize < 2 ^ 31 -> pages <= Page < 2 ^ 31 ->
  (pages - 1) * PageSize + PageSize < 2 ^ 31 ->
  ListWorkflows (request PageSize Page) = ListWorkflows (request PageSize pages).
Proof.
  intros pages Hlen Hps Hpage Hfit.
  pose proof (ceil_div_bounds len PageSize ltac:(lia)) as Hceil. fold pages in Hceil.
  assert (Hpages : 1 <= pages <= len) by nia.
  assert (Hmin : Z.min Page pages = pages) by lia.
  assert (Hmin' : Z.min pages pages = pages) by lia.
  rewrite (ListWorkflows_nonempty resourceManager_ListWorkflows
             (request PageSize Page) workflows err listed not_user_error);
    cbn [api.ListWorkflowsRequest.PageSize api.ListWorkflowsRequest.Page];
    fold pages; rewrite ?Hmin; try lia.
  rewrite (ListWorkflows_nonempty resourceManager_ListWorkflows
             (request PageSize pages) workflows err listed not_user_error);
    cbn [api.ListWorkflowsRequest.PageSize api.ListWorkflowsRequest.Page];
    fold pages; rewrite ?Hmin'; try lia.
  reflexivity.
Qed.

(** X15.  A page size of zero or less stands for 15, and a page of zero
    or less for page 1. *)
Theorem ListWorkflows_defaults (PageSize Page : Z) :
  ListWorkflows (request PageSize Page)
  = ListWorkflows (request (if PageSize <=? 0 then 15 else PageSize)
                           (if Page <=? 0 then 1 else Page)).
Proof.
  unfold server.ListWorkflows.
  cbn [api.ListWorkflowsRequest.PageSize api.ListWorkflowsRequest.Page
       api.ListWorkflowsRequest.Namespace api.ListWorkflowsRequest.WorkflowTemplateUid
       api.ListWorkflowsRequest.WorkflowTemplateVersion].
  destruct (Z.leb_spec PageSize 0) as [Hps|Hps], (Z.leb_spec Page 0) as [Hp|Hp];
    cbn [Z.leb Z.compare];
    repeat match goal with
           | |- context [Z.leb ?a 0] => destruct (Z.leb_spec a 0); try lia
           end;
    reflexivity.
Qed.

(** X16.  Whatever the page and the page size, a response of
    [ListWorkflows] comes without an error; its count is the number of
    workflows it holds; these are consecutive workflows of the list, in
    order; and they end before the last workflow of the list, which is
    therefore on no page. *)
Theorem ListWorkflows_response_invariant (PageSize Page : Z)
    (resp : api.ListWorkflowsResponse.t) (e : option error) :
  len < 2 ^ 31 ->
  ListWorkflows (request PageSize Page) = Returns (Some resp, e) ->
  e = None
  /\ api.ListWorkflowsResponse.TotalCount resp = len
  /\ api.ListWorkflowsResponse.Count resp
     = Z.of_nat (length (api.ListWorkflowsResponse.Workflows resp))
  /\ exists start : nat,
       api.ListWorkflowsResponse.Workflows resp
       = take (length (api.ListWorkflowsResponse.Workflows resp))
              (drop start (map server.converted workflows))
       /\ Z.of_nat start + api.ListWorkflowsResponse.Count resp < len.
Proof.
  intros Hlen. unfold server.ListWorkflows.
  cbn [api.ListWorkflowsRequest.PageSize api.ListWorkflowsRequest.Page
       api.ListWorkflowsRequest.Namespace api.ListWorkflowsRequest.WorkflowTemplateUid
       api.ListWorkflowsRequest.WorkflowTemplateVersion].
  rewrite listed, not_user_error, range_append_apiWorkflow. step_outcome.
  rewrite length_map.
  set (ps := if PageSize <=? 0 then 15 else PageSize).
  set (pg := if Page <=? 0 then 1 else Page).
  pose proof (pageWindow_end_below_len len ps pg ltac:(lia)) as Hend.
  destruct (server.pageWindow len ps pg) as [[[pages page] start] end_].
  cbn [snd] in Hend. unfold slice. rewrite length_map.
  destruct (Z.leb_spec 0 start), (Z.leb_spec start end_), (Z.leb_spec end_ len);
    cbn [andb]; step_outcome; try discriminate.
  intros Hret. inversion Hret; subst; clear Hret.
  cbn [api.ListWorkflowsResponse.TotalCount api.ListWorkflowsResponse.Count
       api.ListWorkflowsResponse.Workflows].
  assert (Hl : length (take (Z.to_nat (end_ - start))
                         (drop (Z.to_nat start) (map server.converted workflows)))
               = Z.to_nat (end_ - start)).
  { rewrite length_take, length_drop, length_map. lia. }
  rewrite Hl.
  rewrite (int32_id len) by (unfold in_int32; lia).
  rewrite (int32_id (end_ - start)) by (unfold in_int32; lia).
  split; [reflexivity|]. split; [reflexivity|]. split; [lia|].
  exists (Z.to_nat start). split; [reflexivity | lia].
Qed.

(** X17.  On the empty list every request, whatever its page and page
    size, ends in a panic of the slice expression: no response and no
    error is returned. *)
Theorem ListWorkflows_empty_always_panics (PageSize Page : Z) :
  workflows = [] -> in_int32 PageSize -> in_int32 Page ->
  ListWorkflows (request PageSize Page) = Panics SliceBoundsOutOfRange.
Proof.
  intros Hempty Hps Hpage.
  exact (ListWorkflows_empty resourceManager_ListWorkflows (request PageSize Page)
           workflows err listed not_user_error Hempty Hps Hpage).
Qed.

End Pages.

Lemma ListWorkflows_page_witness :
  0 <= 6 /\
  server.ListWorkflows (fake.listing 22) (api.ListWorkflowsRequest.mk "default" "" "" 15 2)
  = Returns
      (Some (api.ListWorkflowsResponse.mk 6
               (take 6 (drop 15 (map server.converted (fake.listed 22)))) 2 2 22),
       None).
Proof.
  apply (ListWorkflows_page (fake.listing 22) "default" "" "" (fake.listed 22) None
           eq_refl eq_refl 15 2);
    vm_compute; repeat split; try reflexivity; discriminate.
Defined.

Lemma ListWorkflows_page_clamped_witness :
  server.ListWorkflows (fake.listing 22) (api.ListWorkflowsRequest.mk "default" "" "" 15 7)
  = server.ListWorkflows (fake.listing 22) (api.ListWorkflowsRequest.mk "default" "" "" 15 2).
Proof.
  apply (ListWorkflows_page_clamped (fake.listing 22) "default" "" "" (fake.listed 22) None
           eq_refl eq_refl 15 7);
    vm_compute; repeat split; try reflexivity; discriminate.
Defined.

Lemma ListWorkflows_response_invariant_witness :
  @None error = None
  /\ 22 = Z.of_nat (length (fake.listed 22))
  /\ 6 = Z.of_nat (length (take 6 (drop 15 (map server.converted (fake.listed 22)))))
  /\ exists start : nat,
       take 6 (drop 15 (map server.converted (fake.listed 22)))
       = take (length (take 6 (drop 15 (map server.converted (fake.listed 22)))))
              (drop start (map server.converted (fake.listed 22)))
       /\ Z.of_nat start + 6 < Z.of_nat (length (fake.listed 22)).
Proof.
  apply (ListWorkflows_response_invariant (fake.listing 22) "default" "" ""
           (fake.listed 22) None eq_refl eq_refl 15 2
           (api.ListWorkflowsResponse.mk 6
              (take 6 (drop 15 (map server.converted (fake.listed 22)))) 2 2 22) None).
  - vm_compute. reflexivity.
  - vm_compute. reflexivity.
Defined.

Lemma ListWorkflows_empty_always_panics_witness :
  server.ListWorkflows (fake.listing 0) (api.ListWorkflowsRequest.mk "default" "" "" 0 (- 3))
  = Panics SliceBoundsOutOfRange.
Proof.
  apply (ListWorkflows_empty_always_panics (fake.listing 0) "default" "" "" [] None
           eq_refl eq_refl 0 (- 3)); [reflexivity | |]; unfold in_int32; lia.
Defined.

(* ===================================================================== *)
(** * The server's relay loop                                             *)
(* ===================================================================== *)

Lemma relay_Returned (e : option error) (turns : list server.Turn) :
  server.relay (server.Returned e) turns = Returns (server.Returned e, []).
Proof. destruct turns; reflexivity. Qed.

Lemma relay_receive (wf : option model.Workflow.t) (w : model.Workflow.t)
    (turns : list server.Turn) :
  server.relay (server.Relaying wf)
    (server.mkTurn (server.Receive (Some w)) None :: turns)
  = '(st, out) ← server.relay (server.Relaying (Some w)) turns;
    mret (st, server.Send (server.converted w) :: out).
Proof. reflexivity. Qed.

Lemma deliveries_push (w : model.Workflow.t) (out : list manager.Effect) :
  server.deliveries (manager.Push w :: out)
  = server.mkTurn (server.Receive (Some w)) None :: server.deliveries out.
Proof. reflexivity. Qed.

(** X18.  When [stream.Send] fails, [WatchWorkflow] returns that very
    error, unclassified, and sends nothing more, whatever would have
    been selected next. *)
Theorem relay_send_error_ends (wf : option model.Workflow.t) (t : server.Turn)
    (turns : list server.Turn) (w : model.Workflow.t) (e : error) :
  match server.selected t with
  | server.Receive received => received
  | server.Tick => wf
  end = Some w ->
  server.sendResult t = Some e ->
  server.relay (server.Relaying wf) (t :: turns)
  = Returns (server.Returned (Some e), [server.Send (server.converted w)]).
Proof.
  intros Hsel Hsend. cbn [server.relay]. unfold server.iteration.
  rewrite Hsel, Hsend. unfold server.apiWorkflow. step_outcome.
  rewrite relay_Returned. reflexivity.
Qed.

(** X19.  As long as the channel is open and every send succeeds, each
    turn of the loop sends exactly one message, a tick as much as a
    received snapshot: over any such turns the number of messages sent is
    the number of turns, and the loop goes on. *)
Theorem relay_one_send_per_turn (turns : list server.Turn) :
  forall w0,
    Forall (fun t => server.sendResult t = None
                     /\ server.selected t <> server.Receive None) turns ->
    exists w out,
      server.relay (server.Relaying (Some w0)) turns
      = Returns (server.Relaying (Some w), out)
      /\ length out = length turns.
Proof.
  induction turns as [|t turns IH]; intros w0 Hall.
  - exists w0, []. split; reflexivity.
  - inversion Hall as [|? ? [Hsend Hsel] Hrest]; subst.
    destruct t as [sel res]. cbn in Hsend, Hsel. subst res.
    destruct sel as [[w1|]|]; [ | congruence | ].
    + destruct (IH w1 Hrest) as (w & out & Hrun & Hlen).
      exists w, (server.Send (server.converted w1) :: out).
      rewrite relay_receive, Hrun. split; [reflexivity | cbn; lia].
    + destruct (IH w0 Hrest) as (w & out & Hrun & Hlen).
      exists w, (server.Send (server.converted w0) :: out).
      cbn [server.relay]. unfold server.iteration. cbn [server.selected server.sendResult].
      unfold server.apiWorkflow. step_outcome. rewrite Hrun.
      split; [reflexivity | cbn; lia].
Qed.

(** X20.  Manager and server together, without ticks of the server in
    between: when the goroutine pushes the workflows [ws] and then closes
    the channel, the server sends exactly those workflows, converted,
    once each and in order, and returns without an error. *)
Theorem relay_delivers_every_snapshot (ws : list model.Workflow.t)
    (wf : option model.Workflow.t) :
  server.relay (server.Relaying wf)
    (server.deliveries
       (map manager.Push ws ++ [manager.CloseChannel; manager.StopWatcher]))
  = Returns (server.Returned None,
             map (fun w => server.Send (server.converted w)) ws).
Proof.
  revert wf. induction ws as [|w ws IH]; intros wf.
  - reflexivity.
  - cbn [map app]. rewrite deliveries_push, relay_receive, IH. reflexivity.
Qed.

Section ServerResults.

Variable labelKeyPrefix : string.
Variable json_Marshal : kube.WorkflowStatus.t -> string * option error.
Variable r : manager.ResourceManager.

(** X21.  When the initial fetch fails, for whatever reason, the server's
    [WatchWorkflow] returns the gRPC error [NotFound] at once and sends
    nothing; when the fetch succeeds and the subscription cannot be
    opened, it returns [Unknown] and sends nothing. *)
Theorem server_WatchWorkflow_open_failure (req : api.WatchWorkflowRequest.t)
    (turns : list server.Turn) :
  (forall w e,
      manager.GetWorkflow labelKeyPrefix json_Marshal r
        (api.WatchWorkflowRequest.Namespace req) (api.WatchWorkflowRequest.Name req)
      = Returns (w, Some e) ->
      server.WatchWorkflow labelKeyPrefix json_Marshal r req turns
      = Returns (server.Returned
                   (Some (StatusError codes.NotFound "Workflow template not found.")), []))
  /\
  (forall w s e,
      manager.GetWorkflow labelKeyPrefix json_Marshal r
        (api.WatchWorkflowRequest.Namespace req) (api.WatchWorkflowRequest.Name req)
      = Returns (w, None) ->
      kube.WatchWorkflow (manager.kubeClient r)
        (api.WatchWorkflowRequest.Namespace req) (api.WatchWorkflowRequest.Name req)
      = (s, Some e) ->
      server.WatchWorkflow labelKeyPrefix json_Marshal r req turns
      = Returns (server.Returned (Some (StatusError codes.Unknown "Unknown error.")), [])).
Proof.
  split.
  - intros w e Hget. unfold server.WatchWorkflow, manager.WatchWorkflow.
    rewrite Hget. reflexivity.
  - intros w s e Hget Hwatch. unfold server.WatchWorkflow, manager.WatchWorkflow.
    rewrite Hget. step_outcome. rewrite Hwatch. reflexivity.
Qed.

(** X22.  The server's [GetWorkflow] answers with a workflow and no
    error, or with a gRPC status error and no workflow: every failure of
    the manager's [GetWorkflow] is a user error and is passed on with its
    code and message. *)
Theorem server_GetWorkflow_value_xor_status (req : api.GetWorkflowRequest.t)
    (a : option api.Workflow.t) (e : option error) :
  server.GetWorkflow labelKeyPrefix json_Marshal r req = Returns (a, e) ->
  (exists w, manager.GetWorkflow labelKeyPrefix json_Marshal r
               (api.GetWorkflowRequest.Namespace req) (api.GetWorkflowRequest.Name req)
             = Returns (Some w, None)
             /\ a = Some (server.converted w) /\ e = None)
  \/ (exists c m, manager.GetWorkflow labelKeyPrefix json_Marshal r
                    (api.GetWorkflowRequest.Namespace req) (api.GetWorkflowRequest.Name req)
                  = Returns (None, Some (UserError c m))
                  /\ a = None /\ e = Some (StatusError c m)).
Proof.
  unfold server.GetWorkflow.
  destruct (GetWorkflow_exclusive labelKeyPrefix json_Marshal r
              (api.GetWorkflowRequest.Namespace req) (api.GetWorkflowRequest.Name req))
    as [(w & Hget) | [(c & m & Hget) | Hget]]; rewrite Hget; step_outcome.
  - intros H. inversion H; subst. left. exists w. auto.
  - intros H. inversion H; subst. right. exists c, m. auto.
  - discriminate.
Qed.

(** X23.  The server's [CreateWorkflow] on a request naming a stored
    template, when the client creates an instance: the answer has no
    error and carries the name and uid of the created instance and the
    stored template with every field but the manifest, which is empty;
    the parameters of the request are not repeated in the answer. *)
Theorem server_CreateWorkflow_success (req : api.CreateWorkflowRequest.t)
    (reqWorkflow : api.Workflow.t) (reqTemplate : api.WorkflowTemplate.t)
    (wt : model.WorkflowTemplate.t) (created : kube.Workflow.t)
    (rest : list kube.Workflow.t) :
  api.CreateWorkflowRequest.Workflow req = Some reqWorkflow ->
  api.Workflow.WorkflowTemplate reqWorkflow = Some reqTemplate ->
  repository.GetWorkflowTemplate (manager.workflowRepository r)
    (api.CreateWorkflowRequest.Namespace req)
    (api.WorkflowTemplate.Uid reqTemplate) (api.WorkflowTemplate.Version reqTemplate)
  = (Some wt, None) ->
  kube.CreateWorkflow (manager.kubeClient r) (api.CreateWorkflowRequest.Namespace req)
    (model.WorkflowTemplate.GetManifestBytes wt)
    (manager.createOptions labelKeyPrefix
       (server.newWorkflow reqWorkflow reqTemplate) wt)
  = (created :: rest, None) ->
  exists a t,
    server.CreateWorkflow labelKeyPrefix r req = Returns (Some a, None)
    /\ api.Workflow.Name a = kube.Workflow.Name created
    /\ api.Workflow.Uid a = kube.Workflow.UID created
    /\ api.Workflow.Parameters a = []
    /\ api.Workflow.WorkflowTemplate a = Some t
    /\ t = server.apiWorkflowTemplate (model.WorkflowTemplate.set_Manifest "" wt)
    /\ api.WorkflowTemplate.Manifest t = ""
    /\ api.WorkflowTemplate.Uid t = model.WorkflowTemplate.UID wt
    /\ api.WorkflowTemplate.Version t = model.WorkflowTemplate.Version wt.
Proof.
  intros Hw Ht Hstore Hcreate.
  unfold server.CreateWorkflow. rewrite Hw. step_outcome. rewrite Ht. step_outcome.
  unfold manager.CreateWorkflow, manager.GetWorkflowTemplate.
  cbn [server.newWorkflow model.Workflow.WorkflowTemplate]. step_outcome.
  cbn [model.WorkflowTemplate.UID model.WorkflowTemplate.Version].
  rewrite Hstore. step_outcome.
  change (model.Workflow.mk "" "" "" zeroTime zeroTime "" ""
            (map (fun param =>
                    model.Param.mk (api.WorkflowParameter.Name param)
                      (server.ptr_String (api.WorkflowParameter.Value param)))
                 (api.Workflow.Parameters reqWorkflow))
            (Some (model.WorkflowTemplate.mk (api.WorkflowTemplate.Uid reqTemplate) ""
                     (api.WorkflowTemplate.Version reqTemplate) "" false false zeroTime)))
    with (server.newWorkflow reqWorkflow reqTemplate).
  rewrite Hcreate. step_outcome. cbn [lookup list_lookup]. step_outcome.
  eexists _, _. split; [reflexivity|]. cbn. repeat split; reflexivity.
Qed.

End ServerResults.

Lemma relay_send_error_ends_witness :
  server.relay (server.Relaying (Some model.Workflow.zero))
    [server.mkTurn server.Tick (Some (OtherError "transport is closing"));
     server.mkTurn server.Tick None]
  = Returns (server.Returned (Some (OtherError "transport is closing")),
             [server.Send (server.converted model.Workflow.zero)]).
Proof.
  apply (relay_send_error_ends (Some model.Workflow.zero)
           (server.mkTurn server.Tick (Some (OtherError "transport is closing")))
           [server.mkTurn server.Tick None] model.Workflow.zero
           (OtherError "transport is closing")); reflexivity.
Defined.

Lemma relay_one_send_per_turn_witness :
  exists w out,
    server.relay (server.Relaying (Some model.Workflow.zero))
      [server.mkTurn server.Tick None;
       server.mkTurn
         (server.Receive
            (Some (manager.snapshot (fake.instance fake.running) "{Running}"
                     (Some fake.template)))) None;
       server.mkTurn server.Tick None]
    = Returns (server.Relaying (Some w), out)
    /\ length out = 3%nat.
Proof.
  apply (relay_one_send_per_turn
           [server.mkTurn server.Tick None;
            server.mkTurn
              (server.Receive
                 (Some (manager.snapshot (fake.instance fake.running) "{Running}"
                          (Some fake.template)))) None;
            server.mkTurn server.Tick None]
           model.Workflow.zero).
  repeat constructor; cbn; discriminate.
Defined.

Lemma server_WatchWorkflow_open_failure_witness :
  server.WatchWorkflow fake.labelKeyPrefix fake.json_Marshal fake.resourceManager
    (api.WatchWorkflowRequest.mk "default" "adhoc") [server.mkTurn server.Tick None]
  = Returns (server.Returned
               (Some (StatusError codes.NotFound "Workflow template not found.")), [])
  /\ server.WatchWorkflow fake.labelKeyPrefix fake.json_Marshal fake.unwatched
       (api.WatchWorkflowRequest.mk "default" "train-x7k2p") [server.mkTurn server.Tick None]
     = Returns (server.Returned (Some (StatusError codes.Unknown "Unknown error.")), []).
Proof.
  split.
  - destruct (server_WatchWorkflow_open_failure fake.labelKeyPrefix fake.json_Marshal
                fake.resourceManager (api.WatchWorkflowRequest.mk "default" "adhoc")
                [server.mkTurn server.Tick None]) as [Hfetch _].
    apply (Hfetch None (UserError codes.InvalidArgument "Invalid version number.")).
    vm_compute. reflexivity.
  - destruct (server_WatchWorkflow_open_failure fake.labelKeyPrefix fake.json_Marshal
                fake.unwatched (api.WatchWorkflowRequest.mk "default" "train-x7k2p")
                [server.mkTurn server.Tick None]) as [_ Hsub].
    apply (Hsub (Some (manager.snapshot (fake.instance fake.running) "{Running}"
                         (Some fake.template)))
                None (OtherError "too many open watches")).
    + vm_compute. reflexivity.
    + reflexivity.
Defined.

Lemma server_GetWorkflow_value_xor_status_witness :
  (exists w, manager.GetWorkflow fake.labelKeyPrefix fake.json_Marshal fake.resourceManager
               "default" "adhoc" = Returns (Some w, None)
             /\ @None api.Workflow.t = Some (server.converted w)
             /\ Some (StatusError codes.InvalidArgument "Invalid version number.") = None)
  \/ (exists c m, manager.GetWorkflow fake.labelKeyPrefix fake.json_Marshal
                    fake.resourceManager "default" "adhoc"
                  = Returns (None, Some (UserError c m))
                  /\ @None api.Workflow.t = None
                  /\ Some (StatusError codes.InvalidArgument "Invalid version number.")
                     = Some (StatusError c m)).
Proof.
  apply (server_GetWorkflow_value_xor_status fake.labelKeyPrefix fake.json_Marshal
           fake.resourceManager (api.GetWorkflowRequest.mk "default" "adhoc")).
  vm_compute. reflexivity.
Defined.

Lemma server_CreateWorkflow_success_witness :
  exists a t,
    server.CreateWorkflow fake.labelKeyPrefix fake.resourceManager fake.createRequest
    = Returns (Some a, None)
    /\ api.Workflow.Name a = "train-x7k2p"
    /\ api.Workflow.Uid a = "uid-42"
    /\ api.Workflow.WorkflowTemplate a = Some t
    /\ api.WorkflowTemplate.Manifest t = ""
    /\ api.WorkflowTemplate.Version t = 3.
Proof.
  destruct (server_CreateWorkflow_success fake.labelKeyPrefix fake.resourceManager
              fake.createRequest
              (api.Workflow.mk (Lit "") "" "" "" (Lit "") (Lit "") ""
                 [api.WorkflowParameter.mk "epochs" "10"]
                 (Some (api.WorkflowTemplate.mk "tpl-1" (Lit "") "" 3 "" false false)))
              (api.WorkflowTemplate.mk "tpl-1" (Lit "") "" 3 "" false false)
              fake.template (fake.instance fake.running) []
              eq_refl eq_refl eq_refl eq_refl)
    as (a & t & Hrun & Hname & Huid & _ & Ht & _ & Hm & _ & Hv).
  exists a, t. repeat split; assumption.
Defined.

(* ===================================================================== *)
(** * Operations that wrap one call: terminate, templates                 *)
(* ===================================================================== *)

Section OperationResults.

Variable Error : error -> string.
Variable NewUserErrorWrap : error -> string -> error.
Variable validator : kube.Validator.
Variable templates : repository.TemplateRepository.
Variable r : manager.ResourceManager.

(** X24.  The two operations that pass a call through handle only user
    errors of the manager.  On any other error [TerminateWorkflow]
    answers as if the workflow had been terminated, and
    [ResubmitWorkflow] goes on to convert the workflow it was given: it
    answers with that workflow and no error, or panics when there is
    none.  A user error comes out as the gRPC error of the same code,
    with no value. *)
Theorem passthrough_handles_user_errors_only
    (resourceManager_ResubmitWorkflow :
       string -> string -> option model.Workflow.t * option error)
    (resourceManager_TerminateWorkflow : string -> string -> option error)
    (req : api.NamedRequest.t) (wf : option model.Workflow.t) (e : error) :
  resourceManager_TerminateWorkflow (api.NamedRequest.Namespace req)
    (api.NamedRequest.Name req) = Some e ->
  resourceManager_ResubmitWorkflow (api.NamedRequest.Namespace req)
    (api.NamedRequest.Name req) = (wf, Some e) ->
  match e with
  | UserError c m =>
      server.TerminateWorkflow resourceManager_TerminateWorkflow req
      = (None, Some (StatusError c m))
      /\ server.ResubmitWorkflow resourceManager_ResubmitWorkflow req
         = Returns (None, Some (StatusError c m))
  | _ =>
      server.TerminateWorkflow resourceManager_TerminateWorkflow req = (Some tt, None)
      /\ server.ResubmitWorkflow resourceManager_ResubmitWorkflow req
         = match wf with
           | Some w => Returns (Some (server.converted w), None)
           | None => Panics NilDereference
           end
  end.
Proof.
  intros Hterminate Hresubmit. unfold server.TerminateWorkflow, server.ResubmitWorkflow.
  rewrite Hterminate, Hresubmit. destruct e, wf; split; reflexivity.
Qed.

(** X25.  The server's [GetWorkflowTemplate] over the manager's: it never
    panics; a failing store gives the gRPC error [Unknown], a missing
    template [NotFound], and a stored template is returned with all its
    fields, the manifest included. *)
Theorem server_GetWorkflowTemplate_cases (req : api.GetWorkflowTemplateRequest.t) :
  match repository.GetWorkflowTemplate (manager.workflowRepository r)
          (api.GetWorkflowTemplateRequest.Namespace req)
          (api.GetWorkflowTemplateRequest.Uid req)
          (api.GetWorkflowTemplateRequest.Version req) with
  | (_, Some _) =>
      server.GetWorkflowTemplate r req
      = Returns (None, Some (StatusError codes.Unknown "Unknown error."))
  | (None, None) =>
      server.GetWorkflowTemplate r req
      = Returns (None, Some (StatusError codes.NotFound "Workflow template not found."))
  | (Some wt, None) =>
      exists t,
        server.GetWorkflowTemplate r req = Returns (Some t, None)
        /\ api.WorkflowTemplate.Uid t = model.WorkflowTemplate.UID wt
        /\ api.WorkflowTemplate.Name t = model.WorkflowTemplate.Name wt
        /\ api.WorkflowTemplate.Version t = model.WorkflowTemplate.Version wt
        /\ api.WorkflowTemplate.Manifest t = model.WorkflowTemplate.Manifest wt
        /\ api.WorkflowTemplate.IsLatest t = model.WorkflowTemplate.IsLatest wt
        /\ api.WorkflowTemplate.IsArchived t = model.WorkflowTemplate.IsArchived wt
  end.
Proof.
  unfold server.GetWorkflowTemplate, manager.GetWorkflowTemplate.
  destruct (repository.GetWorkflowTemplate _ _ _ _) as [[wt|] [e|]]; try reflexivity.
  eexists. split; [reflexivity|]. repeat split; reflexivity.
Qed.

(** X26.  The two template listings of the server over the manager's: a
    failing store gives the gRPC error [NotFound] and no response;
    otherwise the response has one entry per stored template, in the
    order of the store, each with the uid, version and manifest of its
    template, and the count is their number. *)
Theorem server_template_listings
    (req : api.ListWorkflowTemplateVersionsRequest.t)
    (req' : api.ListWorkflowTemplatesRequest.t) :
  match repository.ListWorkflowTemplateVersions templates
          (api.ListWorkflowTemplateVersionsRequest.Namespace req)
          (api.ListWorkflowTemplateVersionsRequest.Uid req) with
  | (_, Some _) =>
      server.ListWorkflowTemplateVersions templates req
      = (None, Some (StatusError codes.NotFound "Workflow template versions not found."))
  | (versions, None) =>
      Z.of_nat (length versions) < 2 ^ 31 ->
      exists resp,
        server.ListWorkflowTemplateVersions templates req = (Some resp, None)
        /\ api.ListWorkflowTemplatesResponse.Count resp = Z.of_nat (length versions)
        /\ map api.WorkflowTemplate.Uid (api.ListWorkflowTemplatesResponse.WorkflowTemplates resp)
           = map model.WorkflowTemplate.UID versions
        /\ map api.WorkflowTemplate.Version
               (api.ListWorkflowTemplatesResponse.WorkflowTemplates resp)
           = map model.WorkflowTemplate.Version versions
        /\ map api.WorkflowTemplate.Manifest
               (api.ListWorkflowTemplatesResponse.WorkflowTemplates resp)
           = map model.WorkflowTemplate.Manifest versions
  end
  /\
  match repository.ListWorkflowTemplates templates
          (api.ListWorkflowTemplatesRequest.Namespace req') with
  | (_, Some _) =>
      server.ListWorkflowTemplates templates req'
      = (None, Some (StatusError codes.NotFound "Workflow templates not found."))
  | (stored, None) =>
      Z.of_nat (length stored) < 2 ^ 31 ->
      exists resp,
        server.ListWorkflowTemplates templates req' = (Some resp, None)
        /\ api.ListWorkflowTemplatesResponse.Count resp = Z.of_nat (length stored)
        /\ map api.WorkflowTemplate.Uid (api.ListWorkflowTemplatesResponse.WorkflowTemplates resp)
           = map model.WorkflowTemplate.UID stored
        /\ map api.WorkflowTemplate.Version
               (api.ListWorkflowTemplatesResponse.WorkflowTemplates resp)
           = map model.WorkflowTemplate.Version stored
        /\ map api.WorkflowTemplate.Manifest
               (api.ListWorkflowTemplatesResponse.WorkflowTemplates resp)
           = map model.WorkflowTemplate.Manifest stored
  end.
Proof.
  split.
  - unfold server.ListWorkflowTemplateVersions, manager.ListWorkflowTemplateVersions.
    destruct (repository.ListWorkflowTemplateVersions _ _ _) as [versions [e|]];
      [reflexivity|].
    intros Hlen. eexists. split; [reflexivity|].
    cbn [api.ListWorkflowTemplatesResponse.Count
         api.ListWorkflowTemplatesResponse.WorkflowTemplates].
    rewrite !map_map. cbn.
    rewrite int32_id by (unfold in_int32; lia). repeat split; reflexivity.
  - unfold server.ListWorkflowTemplates, manager.ListWorkflowTemplates.
    destruct (repository.ListWorkflowTemplates _ _) as [stored [e|]]; [reflexivity|].
    intros Hlen. eexists. split; [reflexivity|].
    cbn [api.ListWorkflowTemplatesResponse.Count
         api.ListWorkflowTemplatesResponse.WorkflowTemplates].
    rewrite !map_map, length_map. cbn.
    rewrite int32_id by (unfold in_int32; lia). repeat split; reflexivity.
Qed.

(** X27.  A manifest the client's validator rejects is refused by both
    creating operations with [InvalidArgument] and the validator's
    message, whatever the repository: it is not consulted. *)
Theorem invalid_manifest_is_refused (templates' : repository.TemplateRepository)
    (namespace : string) (workflowTemplate : model.WorkflowTemplate.t) (e : error) :
  kube.ValidateWorkflow validator (model.WorkflowTemplate.GetManifestBytes workflowTemplate)
  = Some e ->
  manager.CreateWorkflowTemplate Error NewUserErrorWrap validator templates
    namespace workflowTemplate
  = (None, Some (UserError codes.InvalidArgument (Error e)))
  /\ manager.CreateWorkflowTemplateVersion Error NewUserErrorWrap validator templates
       namespace workflowTemplate
     = (None, Some (UserError codes.InvalidArgument (Error e)))
  /\ manager.CreateWorkflowTemplate Error NewUserErrorWrap validator templates'
       namespace workflowTemplate
     = manager.CreateWorkflowTemplate Error NewUserErrorWrap validator templates
         namespace workflowTemplate
  /\ manager.CreateWorkflowTemplateVersion Error NewUserErrorWrap validator templates'
       namespace workflowTemplate
     = manager.CreateWorkflowTemplateVersion Error NewUserErrorWrap validator templates
         namespace workflowTemplate.
Proof.
  intros Hbad. unfold manager.CreateWorkflowTemplate, manager.CreateWorkflowTemplateVersion.
  rewrite Hbad. repeat split; reflexivity.
Qed.

(** X28.  When the manifest is valid and the repository stores the
    template, the server's [CreateWorkflowTemplate] answers with the
    template of the request in which only the uid and the version have
    been replaced by the stored ones: the name and the manifest are those
    the caller sent.  [CreateWorkflowTemplateVersion] does the same and
    also takes the name from the stored template. *)
Theorem server_create_template_answers (req : api.CreateWorkflowTemplateRequest.t)
    (reqTemplate : api.WorkflowTemplate.t) :
  api.CreateWorkflowTemplateRequest.WorkflowTemplate req = Some reqTemplate ->
  kube.ValidateWorkflow validator (api.WorkflowTemplate.Manifest reqTemplate) = None ->
  (forall stored,
      repository.CreateWorkflowTemplate templates
        (api.CreateWorkflowTemplateRequest.Namespace req)
        (model.WorkflowTemplate.mk "" (api.WorkflowTemplate.Name reqTemplate) 0
           (api.WorkflowTemplate.Manifest reqTemplate) false false zeroTime)
      = (Some stored, None) ->
      server.CreateWorkflowTemplate Error NewUserErrorWrap validator templates req
      = Returns
          (Some (api.WorkflowTemplate.mk
                   (model.WorkflowTemplate.UID stored)
                   (api.WorkflowTemplate.CreatedAt reqTemplate)
                   (api.WorkflowTemplate.Name reqTemplate)
                   (model.WorkflowTemplate.Version stored)
                   (api.WorkflowTemplate.Manifest reqTemplate)
                   (api.WorkflowTemplate.IsLatest reqTemplate)
                   (api.WorkflowTemplate.IsArchived reqTemplate)),
           None))
  /\
  (forall stored,
      repository.CreateWorkflowTemplateVersion templates
        (api.CreateWorkflowTemplateRequest.Namespace req)
        (model.WorkflowTemplate.mk (api.WorkflowTemplate.Uid reqTemplate)
           (api.WorkflowTemplate.Name reqTemplate) 0
           (api.WorkflowTemplate.Manifest reqTemplate) false false zeroTime)
      = (Some stored, None) ->
      server.CreateWorkflowTemplateVersion Error NewUserErrorWrap validator templates req
      = Returns
          (Some (api.WorkflowTemplate.mk
                   (model.WorkflowTemplate.UID stored)
                   (api.WorkflowTemplate.CreatedAt reqTemplate)
                   (model.WorkflowTemplate.Name stored)
                   (model.WorkflowTemplate.Version stored)
                   (api.WorkflowTemplate.Manifest reqTemplate)
                   (api.WorkflowTemplate.IsLatest reqTemplate)
                   (api.WorkflowTemplate.IsArchived reqTemplate)),
           None)).
Proof.
  intros Hreq Hvalid. split; intros stored Hstore.
  - unfold server.CreateWorkflowTemplate, manager.CreateWorkflowTemplate.
    rewrite Hreq. step_outcome.
    cbn [model.WorkflowTemplate.GetManifestBytes model.WorkflowTemplate.Manifest].
    rewrite Hvalid, Hstore. reflexivity.
  - unfold server.CreateWorkflowTemplateVersion, manager.CreateWorkflowTemplateVersion.
    rewrite Hreq. step_outcome.
    cbn [model.WorkflowTemplate.GetManifestBytes model.WorkflowTemplate.Manifest].
    rewrite Hvalid, Hstore. reflexivity.
Qed.

(** X29.  When the repository answers a valid manifest with neither a
    template nor an error, the two creating operations differ:
    [CreateWorkflowTemplateVersion] fails with [NotFound] at the manager
    and at the server, while [CreateWorkflowTemplate] returns nothing at
    all at the manager, and the server dereferences the nil template. *)
Theorem create_template_nil_answer (req : api.CreateWorkflowTemplateRequest.t)
    (reqTemplate : api.WorkflowTemplate.t) :
  api.CreateWorkflowTemplateRequest.WorkflowTemplate req = Some reqTemplate ->
  kube.ValidateWorkflow validator (api.WorkflowTemplate.Manifest reqTemplate) = None ->
  (repository.CreateWorkflowTemplateVersion templates
     (api.CreateWorkflowTemplateRequest.Namespace req)
     (model.WorkflowTemplate.mk (api.WorkflowTemplate.Uid reqTemplate)
        (api.WorkflowTemplate.Name reqTemplate) 0
        (api.WorkflowTemplate.Manifest reqTemplate) false false zeroTime)
   = (None, None) ->
   server.CreateWorkflowTemplateVersion Error NewUserErrorWrap validator templates req
   = Returns (None, Some (StatusError codes.NotFound "Workflow template not found.")))
  /\
  (repository.CreateWorkflowTemplate templates
     (api.CreateWorkflowTemplateRequest.Namespace req)
     (model.WorkflowTemplate.mk "" (api.WorkflowTemplate.Name reqTemplate) 0
        (api.WorkflowTemplate.Manifest reqTemplate) false false zeroTime)
   = (None, None) ->
   manager.CreateWorkflowTemplate Error NewUserErrorWrap validator templates
     (api.CreateWorkflowTemplateRequest.Namespace req)
     (model.WorkflowTemplate.mk "" (api.WorkflowTemplate.Name reqTemplate) 0
        (api.WorkflowTemplate.Manifest reqTemplate) false false zeroTime)
   = (None, None)
   /\ server.CreateWorkflowTemplate Error NewUserErrorWrap validator templates req
      = Panics NilDereference).
Proof.
  intros Hreq Hvalid. split; intros Hstore.
  - unfold server.CreateWorkflowTemplateVersion, manager.CreateWorkflowTemplateVersion.
    rewrite Hreq. step_outcome.
    cbn [model.WorkflowTemplate.GetManifestBytes model.WorkflowTemplate.Manifest].
    rewrite Hvalid, Hstore. reflexivity.
  - unfold server.CreateWorkflowTemplate, manager.CreateWorkflowTemplate.
    rewrite Hreq. step_outcome.
    cbn [model.WorkflowTemplate.GetManifestBytes model.WorkflowTemplate.Manifest].
    rewrite Hvalid, Hstore. split; reflexivity.
Qed.

End OperationResults.

(* ===================================================================== *)
(** * Registration of the migration                                       *)
(* ===================================================================== *)

(** X30.  The registration is idempotent: however often
    [initialize20201115134934] runs, the migration is handed to
    [goose.AddMigration] once if it was not marked before and not at all
    if it was, and it is marked afterwards. *)
Theorem initialize_registers_once (s : migration.State) (n : nat) :
  let s' := Nat.iter (S n) migration.initialize20201115134934 s in
  is_Some (migration.initializedMigrations s' !! 20201115134934)
  /\ migration.added s'
     = (migration.added s
        ++ match migration.initializedMigrations s !! 20201115134934 with
           | Some _ => []
           | None => [20201115134934]
           end)%list.
Proof.
  induction n as [|n IH].
  - cbn [Nat.iter nat_rect]. unfold migration.initialize20201115134934.
    destruct (migration.initializedMigrations s !! 20201115134934) as [v|] eqn:Hs.
    + rewrite Hs, app_nil_r. split; [eauto | reflexivity].
    + cbn [migration.initializedMigrations migration.added].
      rewrite lookup_insert_eq. split; [eauto | reflexivity].
  - cbv zeta in IH |- *. destruct IH as [[v Hv] Hadded].
    change (Nat.iter (S (S n)) migration.initialize20201115134934 s)
      with (migration.initialize20201115134934
              (Nat.iter (S n) migration.initialize20201115134934 s)).
    unfold migration.initialize20201115134934 at 1 3. rewrite Hv.
    split; [rewrite Hv; eauto | exact Hadded].
Qed.

Lemma passthrough_handles_user_errors_only_witness :
  server.TerminateWorkflow (fun namespace name => Some (OtherError "conflict"))
    (api.NamedRequest.mk "default" "train-x7k2p") = (Some tt, None)
  /\ server.ResubmitWorkflow (fun namespace name => (None, Some (OtherError "conflict")))
       (api.NamedRequest.mk "default" "train-x7k2p") = Panics NilDereference.
Proof.
  apply (passthrough_handles_user_errors_only
           (fun namespace name => (None, Some (OtherError "conflict")))
           (fun namespace name => Some (OtherError "conflict"))
           (api.NamedRequest.mk "default" "train-x7k2p") None (OtherError "conflict"));
    reflexivity.
Defined.

Lemma server_template_listings_witness :
  exists resp,
    server.ListWorkflowTemplateVersions fake.templates
      (api.ListWorkflowTemplateVersionsRequest.mk "default" "tpl-1") = (Some resp, None)
    /\ api.ListWorkflowTemplatesResponse.Count resp = 2
    /\ map api.WorkflowTemplate.Version
           (api.ListWorkflowTemplatesResponse.WorkflowTemplates resp) = [3; 2].
Proof.
  destruct (server_template_listings fake.templates
              (api.ListWorkflowTemplateVersionsRequest.mk "default" "tpl-1")
              (api.ListWorkflowTemplatesRequest.mk "default")) as [Hversions _].
  destruct Hversions as (resp & Hrun & Hcount & _ & Hv & _).
  - vm_compute. reflexivity.
  - exists resp. repeat split; assumption.
Defined.

Lemma invalid_manifest_is_refused_witness :
  manager.CreateWorkflowTemplate fake.Error fake.NewUserErrorWrap fake.validator
    fake.templates "default" model.WorkflowTemplate.zero
  = (None, Some (UserError codes.InvalidArgument "manifest is empty")).
Proof.
  destruct (invalid_manifest_is_refused fake.Error fake.NewUserErrorWrap fake.validator
              fake.templates fake.forgetful "default" model.WorkflowTemplate.zero
              (OtherError "manifest is empty") eq_refl) as [H _].
  exact H.
Defined.

Lemma server_create_template_answers_witness :
  server.CreateWorkflowTemplate fake.Error fake.NewUserErrorWrap fake.validator
    fake.templates fake.templateRequest
  = Returns
      (Some (api.WorkflowTemplate.mk "tpl-2" (Lit "") "evaluate" 1
               "apiVersion: argoproj.io/v1alpha1" false false), None)
  /\ server.CreateWorkflowTemplateVersion fake.Error fake.NewUserErrorWrap fake.validator
       fake.templates fake.templateRequest
     = Returns
         (Some (api.WorkflowTemplate.mk "tpl-1" (Lit "") "train" 4
                  "apiVersion: argoproj.io/v1alpha1" false false), None).
Proof.
  destruct (server_create_template_answers fake.Error fake.NewUserErrorWrap fake.validator
              fake.templates fake.templateRequest
              (api.WorkflowTemplate.mk "tpl-1" (Lit "") "evaluate" 0
                 "apiVersion: argoproj.io/v1alpha1" false false)
              eq_refl eq_refl) as [Hcreate Hversion].
  split.
  - apply (Hcreate (model.WorkflowTemplate.mk "tpl-2" "evaluate" 1
                      "apiVersion: argoproj.io/v1alpha1" true false
                      (mkTime 63700000300 0))).
    reflexivity.
  - apply (Hversion (model.WorkflowTemplate.mk "tpl-1" "train" 4
                       "apiVersion: argoproj.io/v1alpha1" true false
                       (mkTime 63700000400 0))).
    reflexivity.
Defined.

Lemma create_template_nil_answer_witness :
  server.CreateWorkflowTemplateVersion fake.Error fake.NewUserErrorWrap fake.validator
    fake.forgetful fake.templateRequest
  = Returns (None, Some (StatusError codes.NotFound "Workflow template not found."))
  /\ server.CreateWorkflowTemplate fake.Error fake.NewUserErrorWrap fake.validator
       fake.forgetful fake.templateRequest
     = Panics NilDereference.
Proof.
  destruct (create_template_nil_answer fake.Error fake.NewUserErrorWrap fake.validator
              fake.forgetful fake.templateRequest
              (api.WorkflowTemplate.mk "tpl-1" (Lit "") "evaluate" 0
                 "apiVersion: argoproj.io/v1alpha1" false false)
              eq_refl eq_refl) as [Hversion Hcreate].
  split.
  - apply Hversion. reflexivity.
  - apply Hcreate. reflexivity.
Defined.
